(** * The PJSIP request distributor of Asterisk (res_pjsip/pjsip_distributor.c)

    A shallow embedding of the distributor, the endpoint identifier, the
    request authenticator and the annotation helpers, with the properties of
    the design document stated over it.

    Conventions of the embedding.
    - A C [int] is a [Z] in [-2^31, 2^31); overflow wraps ([wrap32]).
    - A pointer is an [option]; [None] is NULL (or, for the local [clone],
      an indeterminate value).  Dereferencing [None] is a [Fault].
    - Every call into a collaborator that has an effect (a reply on the wire,
      a reference count change, a log line, a queue push) is an [event]
      appended to a trace; collaborators that answer questions (dialog and
      transaction lookup, the overload alert, the authentication verdict)
      are the fields of [env].
    - [ast_debug] lines are not part of the trace. *)

From Stdlib Require Import ZArith List String Bool Lia.
From stdpp Require Import base option list gmap strings.

Local Open Scope Z_scope.

(** ** Machine integers *)

Module CInt.

Definition INT_MIN : Z := - 2 ^ 31.
Definition INT_MAX : Z := 2 ^ 31 - 1.

(** Two's complement wrap-around of a C [int]. *)
Definition wrap32 (z : Z) : Z := (z + 2 ^ 31) mod 2 ^ 32 - 2 ^ 31.

Definition in_int (z : Z) : Prop := INT_MIN <= z <= INT_MAX.

(** [abs] of stdlib.h on an [int]: the negation wraps, so
    [abs(INT_MIN)] is [INT_MIN]. *)
Definition c_abs (z : Z) : Z := wrap32 (Z.abs z).

(** Conversion of an [int] to [size_t] (64 bits, LP64), as the usual
    arithmetic conversions do for [int % size_t]. *)
Definition to_size_t (z : Z) : Z := z mod 2 ^ 64.

(** A [char] read through [const char *] and promoted to [int].  Whether
    plain [char] is signed is the platform's choice. *)
Definition char_to_int (char_signed : bool) (c : Byte.byte) : Z :=
  let n := Z.of_N (Byte.to_N c) in
  if char_signed && (128 <=? n) then n - 256 else n.

End CInt.

Import CInt.

(** ** Hashing (pjstr_hash_add, pjstr_hash) *)

(** Number of serializers in pool if one not otherwise known. *)
Definition DISTRIBUTOR_POOL_SIZE : Z := 31.

(** Modelled from the spec: [ARRAY_LEN] is a macro of asterisk/utils.h, which
    is not part of the sources at hand.  It is the number of elements of the
    array, the pool size P of the design document; being a quotient of two
    [sizeof] it has type [size_t], so [hash % ARRAY_LEN(...)] is an unsigned
    remainder. *)
Definition ARRAY_LEN_distributor_pool : Z := DISTRIBUTOR_POOL_SIZE.

Section Hash.

Variable char_signed : bool.

(** [while (len--) { hash = hash * 33 ^ *pos++; }] *)
Fixpoint pjstr_hash_add (str : list Byte.byte) (hash : Z) : Z :=
  match str with
  | [] => hash
  | c :: pos =>
      pjstr_hash_add pos (Z.lxor (wrap32 (hash * 33)) (char_to_int char_signed c))
  end.

Definition pjstr_hash (str : list Byte.byte) : Z := pjstr_hash_add str 5381.

(** The index computed by [ast_sip_get_distributor_serializer]:
    [hash = pjstr_hash(cid); hash = pjstr_hash_add(remote_tag, hash);
     hash = abs(hash); ... hash % ARRAY_LEN(distributor_pool)]. *)
Definition distributor_hash (cid remote_tag : list Byte.byte) : Z :=
  pjstr_hash_add remote_tag (pjstr_hash cid).

Definition distributor_bucket (cid remote_tag : list Byte.byte) : Z :=
  let hash := distributor_hash cid remote_tag in
  let hash := c_abs hash in
  to_size_t hash mod ARRAY_LEN_distributor_pool.

End Hash.

(** The hash of the design document, written from its words: [h0 = 5381],
    [h = h*33 XOR c] for every byte of Call-ID then tag, on wrapping
    machine integers; the bucket is [abs(h) mod P]. *)
Definition spec_djb2 (char_signed : bool) (bytes : list Byte.byte) : Z :=
  fold_left (fun h c => Z.lxor (wrap32 (h * 33)) (char_to_int char_signed c))
            bytes 5381.

Definition spec_bucket (char_signed : bool) (cid tag : list Byte.byte) : Z :=
  Z.abs (spec_djb2 char_signed (cid ++ tag)) mod 31.

Definition bytes_of (s : string) : list Byte.byte := list_byte_of_string s.


(** ** PJSIP and Asterisk data *)

Definition pj_bool_t := bool.
Definition PJ_TRUE : pj_bool_t := true.
Definition PJ_FALSE : pj_bool_t := false.

Definition pj_status_t := Z.
Definition PJ_SUCCESS : pj_status_t := 0.

Inductive pjsip_method_e :=
| PJSIP_INVITE_METHOD
| PJSIP_CANCEL_METHOD
| PJSIP_ACK_METHOD
| PJSIP_BYE_METHOD
| PJSIP_REGISTER_METHOD
| PJSIP_OPTIONS_METHOD
| PJSIP_OTHER_METHOD.

#[global] Instance pjsip_method_e_eq_dec : EqDecision pjsip_method_e.
Proof. solve_decision. Defined.

Definition method_e_rank (m : pjsip_method_e) : Z :=
  match m with
  | PJSIP_INVITE_METHOD => 0
  | PJSIP_CANCEL_METHOD => 1
  | PJSIP_ACK_METHOD => 2
  | PJSIP_BYE_METHOD => 3
  | PJSIP_REGISTER_METHOD => 4
  | PJSIP_OPTIONS_METHOD => 5
  | PJSIP_OTHER_METHOD => 6
  end.

Record pjsip_method := {
  method_id : pjsip_method_e;
  method_name : string
}.

Definition pjsip_invite_method : pjsip_method :=
  {| method_id := PJSIP_INVITE_METHOD; method_name := "INVITE" |}.
Definition pjsip_cancel_method : pjsip_method :=
  {| method_id := PJSIP_CANCEL_METHOD; method_name := "CANCEL" |}.
Definition pjsip_ack_method : pjsip_method :=
  {| method_id := PJSIP_ACK_METHOD; method_name := "ACK" |}.
Definition pjsip_bye_method : pjsip_method :=
  {| method_id := PJSIP_BYE_METHOD; method_name := "BYE" |}.
Definition pjsip_get_invite_method : pjsip_method := pjsip_invite_method.

(** [strcmp] up to the sign of its result. *)
Definition strcmp (a b : string) : Z :=
  match String.compare a b with
  | Eq => 0
  | Lt => -1
  | Gt => 1
  end.

(** [pjsip_method_cmp] of the SIP library: the ids decide, and two
    [PJSIP_OTHER_METHOD]s are compared by name. *)
Definition pjsip_method_cmp (m1 m2 : pjsip_method) : Z :=
  if method_e_rank (method_id m1) =? method_e_rank (method_id m2) then
    match method_id m1 with
    | PJSIP_OTHER_METHOD => strcmp (method_name m1) (method_name m2)
    | _ => 0
    end
  else if method_e_rank (method_id m1) <? method_e_rank (method_id m2) then -1
  else 1.

(** [msg->type] with the [line] union it selects. *)
Inductive pjsip_msg :=
| PJSIP_REQUEST_MSG (method : pjsip_method)
| PJSIP_RESPONSE_MSG (status_code : Z).

Inductive pjsip_uri_scheme := SCHEME_SIP | SCHEME_SIPS | SCHEME_OTHER.

Record pjsip_uri := {
  uri_scheme : pjsip_uri_scheme;
  uri_user : string
}.

Definition ast_sip_endpoint := nat.

Record ast_taskprocessor := {
  tps_id : nat;
  tps_name : string
}.

(** Modelled from the spec: [ast_taskprocessor_name] (taskprocessor.c, not
    part of the sources at hand) gives the stable name of a serializer. *)
Definition ast_taskprocessor_name (tps : ast_taskprocessor) : option string :=
  Some (tps_name tps).

(** Modelled from the spec: [ast_strlen_zero] (asterisk/strings.h, not part
    of the sources at hand) tells a name that is absent or empty from one
    that is "present and non-empty". *)
Definition ast_strlen_zero (s : option string) : bool :=
  match s with
  | None => true
  | Some s => (String.length s =? 0)%nat
  end.

(** A receive buffer.  [endpt_info_mod_data] is
    [rdata->endpt_info.mod_data[]], indexed by module id; an absent key is a
    NULL slot. *)
Record pjsip_rx_data := {
  msg_info_msg : option pjsip_msg;
  msg_info_cid : list Byte.byte;
  msg_info_from_tag : list Byte.byte;
  msg_info_to_tag : list Byte.byte;
  msg_info_from_uri : pjsip_uri;
  msg_info_cseq_method : pjsip_method;
  endpt_info_mod_data : gmap nat ast_sip_endpoint
}.

(** A transmit buffer: the sizes of the blocks taken from [tdata->pool] by
    this module, and [tdata->mod_data[]]. *)
Record pjsip_tx_data := {
  tdata_pool : list nat;
  tdata_mod_data : gmap nat string
}.

(** Dialog-specific information the distributor uses *)
Record distributor_dialog_data := {
  serializer : option ast_taskprocessor;
  endpoint : option ast_sip_endpoint
}.

(** A dialog: the [distributor_dialog_data] blocks taken from [dlg->pool]
    (a block's address is its index) and [dlg->mod_data[]], which holds
    addresses. *)
Record pjsip_dialog := {
  dlg_obj_name : string;
  dlg_pool : list distributor_dialog_data;
  dlg_mod_data : gmap nat nat
}.

Record pjsip_transaction := {
  tsx_obj_name : string;
  last_tx : option pjsip_tx_data;
  tsx_dlg : option pjsip_dialog
}.

Inductive pjsip_role_e := PJSIP_ROLE_UAC | PJSIP_ROLE_UAS.

Inductive ast_sip_check_auth_result :=
| AST_SIP_AUTHENTICATION_CHALLENGE
| AST_SIP_AUTHENTICATION_SUCCESS
| AST_SIP_AUTHENTICATION_FAILED
| AST_SIP_AUTHENTICATION_ERROR.

Definition PJSIP_SC_CALL_TSX_DOES_NOT_EXIST : Z := 481.

(** ** Calls into collaborators, as a trace *)

Inductive log_level := LOG_NOTICE | LOG_ERROR.

Inductive event :=
| ast_log (level : log_level) (text : string)
| pjsip_dlg_inc_lock (dlg : string)
| pjsip_dlg_dec_lock (dlg : string)
| tsx_lock_release (tsx : string)
| ao2_bump_serializer (tps : option ast_taskprocessor)
| ast_taskprocessor_unreference (tps : option ast_taskprocessor)
| ao2_bump_endpoint (ep : option ast_sip_endpoint)
| ao2_ref_endpoint (ep : option ast_sip_endpoint) (delta : Z)
| ao2_cleanup_endpoint (ep : option ast_sip_endpoint)
| pjsip_endpt_respond_stateless (code : Z)
| pjsip_endpt_create_response (code : Z)
| pjsip_endpt_send_response2 (tdata : option pjsip_tx_data)
| pjsip_tx_data_dec_ref (tdata : option pjsip_tx_data)
| pjsip_rx_data_clone_call
| pjsip_rx_data_free_cloned (clone : pjsip_rx_data)
| ast_sip_push_task_call (tps : option ast_taskprocessor)
                         (data : option pjsip_rx_data) (rc : Z)
| ast_sip_report_invalid_endpoint (name : string)
| ast_sip_report_auth_challenge_sent
| ast_sip_report_auth_success
| ast_sip_report_auth_failed_challenge_response
| ast_assert (holds : bool).

Inductive fault :=
| NullDereference
| IndeterminatePointer
| WrongUnionMember
| IndexOutOfBounds.

Inductive result (A : Type) :=
| Ok (a : A)
| Fault (f : fault).
Arguments Ok {A} a.
Arguments Fault {A} f.

(** A computation yields a value or a fault, and the calls it made. *)
Definition M (A : Type) : Type := result A * list event.

Definition ret {A} (a : A) : M A := (Ok a, []).

Definition bind {A B} (m : M A) (f : A -> M B) : M B :=
  match m with
  | (Ok a, t1) => let '(r, t2) := f a in (r, t1 ++ t2)
  | (Fault e, t1) => (Fault e, t1)
  end.

Definition emit (e : event) : M unit := (Ok tt, [e]).

Definition crash {A} (f : fault) : M A := (Fault f, []).

Notation "x <- c1 ;; c2" := (bind c1 (fun x => c2))
  (at level 100, c1 at next level, right associativity).
Notation "c1 ;; c2" := (bind c1 (fun _ => c2))
  (at level 100, right associativity).

(** [*p] for a pointer that may be NULL. *)
Definition deref {A} (p : option A) : M A :=
  match p with
  | Some a => ret a
  | None => crash NullDereference
  end.

(** [*p] for a local that is only set when the call that fills it succeeds. *)
Definition deref_local {A} (p : option A) : M A :=
  match p with
  | Some a => ret a
  | None => crash IndeterminatePointer
  end.

(** [msg->line.req.method], meaningful on a request only. *)
Definition line_req_method (msg : pjsip_msg) : M pjsip_method :=
  match msg with
  | PJSIP_REQUEST_MSG method => ret method
  | PJSIP_RESPONSE_MSG _ => crash WrongUnionMember
  end.

Definition trace_of {A} (m : M A) : list event := snd m.
Definition value_of {A} (m : M A) : result A := fst m.


(** ** The environment of the module *)

(** Size of the [name] buffer of [endpoint_lookup] ([AST_UUID_STR_LEN],
    declared in asterisk/uuid.h) is the field [uuid_str_len]; the other
    fields are the collaborators the module asks and the globals it reads. *)
Record env := {
  (* ast_test_flag(&ast_options, AST_OPT_FLAG_FULLY_BOOTED) *)
  fully_booted : bool;
  (* distributor_mod.id, endpoint_mod.id: given out at registration *)
  distributor_mod_id : nat;
  endpoint_mod_id : nat;
  plain_char_signed : bool;
  uuid_str_len : nat;
  (* pjsip_ua_find_dialog(call_id, local_tag, remote_tag, PJ_TRUE) *)
  pjsip_ua_find_dialog :
    list Byte.byte -> list Byte.byte -> list Byte.byte -> option pjsip_dialog;
  (* pjsip_tsx_create_key(role, method, rdata), then
     pjsip_tsx_layer_find_tsx(key, PJ_TRUE) *)
  pjsip_tsx_layer_find_tsx :
    pjsip_role_e -> pjsip_method -> pjsip_rx_data -> option pjsip_transaction;
  (* the taskprocessors that exist, by name:
     ast_taskprocessor_get(name, TPS_REF_IF_EXISTS) *)
  tps_singletons : gmap string ast_taskprocessor;
  ast_taskprocessor_alert_get : Z;
  distributor_pool : list (option ast_taskprocessor);
  (* the clone that pjsip_rx_data_clone stores in *p_rdata; None when it
     fails and stores nothing *)
  pjsip_rx_data_clone : pjsip_rx_data -> option pjsip_rx_data;
  ast_sip_push_task : option ast_taskprocessor -> option pjsip_rx_data -> Z;
  ast_threadpool_serializer_get_current : option ast_taskprocessor;
  ast_sip_identify_endpoint : pjsip_rx_data -> option ast_sip_endpoint;
  artificial_endpoint : option ast_sip_endpoint;
  ast_sip_requires_authentication :
    option ast_sip_endpoint -> pjsip_rx_data -> Z;
  (* the tdata that pjsip_endpt_create_response stores in *p_tdata *)
  created_response : pjsip_rx_data -> Z -> option pjsip_tx_data;
  ast_sip_check_authentication :
    option ast_sip_endpoint -> pjsip_rx_data -> option pjsip_tx_data ->
    ast_sip_check_auth_result
}.

Section Distributor.

Variable E : env.

(** ** record_serializer *)

Definition pj_pool_alloc (tdata : pjsip_tx_data) (size : nat) : pjsip_tx_data :=
  {| tdata_pool := tdata_pool tdata ++ [size];
     tdata_mod_data := tdata_mod_data tdata |}.

Definition tdata_set_mod_data (tdata : pjsip_tx_data) (id : nat) (v : string)
  : pjsip_tx_data :=
  {| tdata_pool := tdata_pool tdata;
     tdata_mod_data := <[id := v]> (tdata_mod_data tdata) |}.

(** Record the task's serializer name on the tdata structure. *)
Definition record_serializer (tdata : pjsip_tx_data)
  : pjsip_tx_data * pj_status_t :=
  let tdata :=
    match ast_threadpool_serializer_get_current E with
    | Some serializer =>
        let name := ast_taskprocessor_name serializer in
        match name with
        | Some name' =>
            if negb (ast_strlen_zero name)
               && match tdata_mod_data tdata !! distributor_mod_id E with
                  | None => true
                  | Some stored => negb (strcmp stored name' =? 0)
                  end
            then
              (* The serializer in use changed. *)
              let tdata := pj_pool_alloc tdata (String.length name' + 1) in
              tdata_set_mod_data tdata (distributor_mod_id E) name'
            else tdata
        | None => tdata
        end
    | None => tdata
    end in
  (tdata, PJ_SUCCESS).

(** ** find_request_serializer *)

Definition ast_taskprocessor_get (name : string) : option ast_taskprocessor :=
  tps_singletons E !! name.

(** Find the request tdata to get the serializer it used. *)
Definition find_request_serializer (rdata : pjsip_rx_data)
  : M (option ast_taskprocessor) :=
  match pjsip_tsx_layer_find_tsx E PJSIP_ROLE_UAC (msg_info_cseq_method rdata) rdata with
  | None => ret None
  | Some tsx =>
      let serializer :=
        match last_tx tsx with
        | Some tdata =>
            let serializer_name := tdata_mod_data tdata !! distributor_mod_id E in
            match serializer_name with
            | Some name =>
                if negb (ast_strlen_zero serializer_name)
                then ast_taskprocessor_get name
                else None
            | None => None
            end
        | None => None
        end in
      emit (tsx_lock_release (tsx_obj_name tsx)) ;;
      ret serializer
  end.

(** ** The dialog annotation *)

Definition pjsip_dlg_get_mod_data (dlg : pjsip_dialog) (id : nat) : option nat :=
  dlg_mod_data dlg !! id.

Definition pjsip_dlg_set_mod_data (dlg : pjsip_dialog) (id : nat) (p : nat)
  : pjsip_dialog :=
  {| dlg_obj_name := dlg_obj_name dlg;
     dlg_pool := dlg_pool dlg;
     dlg_mod_data := <[id := p]> (dlg_mod_data dlg) |}.

(** [PJ_POOL_ZALLOC_T(dlg->pool, struct distributor_dialog_data)]: a fresh
    zeroed block at the end of the arena. *)
Definition PJ_POOL_ZALLOC_T (dlg : pjsip_dialog) : pjsip_dialog * nat :=
  ({| dlg_obj_name := dlg_obj_name dlg;
      dlg_pool := dlg_pool dlg ++ [{| serializer := None; endpoint := None |}];
      dlg_mod_data := dlg_mod_data dlg |},
   length (dlg_pool dlg)).

Definition distributor_dialog_data_alloc (dlg : pjsip_dialog)
  : pjsip_dialog * nat :=
  let '(dlg, dist) := PJ_POOL_ZALLOC_T dlg in
  (pjsip_dlg_set_mod_data dlg (distributor_mod_id E) dist, dist).

(** A store through the pointer [dist] into the arena of [dlg]. *)
Definition dist_store (dlg : pjsip_dialog) (dist : nat)
    (f : distributor_dialog_data -> distributor_dialog_data) : pjsip_dialog :=
  {| dlg_obj_name := dlg_obj_name dlg;
     dlg_pool := alter f dist (dlg_pool dlg);
     dlg_mod_data := dlg_mod_data dlg |}.

(** The dialog lock taken by [SCOPED_LOCK] spans the whole body. *)
Definition ast_sip_dialog_set_serializer (dlg : pjsip_dialog)
    (serializer : option ast_taskprocessor) : pjsip_dialog :=
  let '(dlg, dist) :=
    match pjsip_dlg_get_mod_data dlg (distributor_mod_id E) with
    | Some dist => (dlg, dist)
    | None => distributor_dialog_data_alloc dlg
    end in
  dist_store dlg dist
    (fun d => {| serializer := serializer; endpoint := endpoint d |}).

Definition ast_sip_dialog_set_endpoint (dlg : pjsip_dialog)
    (endpoint : option ast_sip_endpoint) : pjsip_dialog :=
  let '(dlg, dist) :=
    match pjsip_dlg_get_mod_data dlg (distributor_mod_id E) with
    | Some dist => (dlg, dist)
    | None => distributor_dialog_data_alloc dlg
    end in
  dist_store dlg dist
    (fun d => {| serializer := serializer d; endpoint := endpoint |}).

(** Reading the annotation: the block [dlg->mod_data[id]] points to. *)
Definition dlg_annotation (dlg : pjsip_dialog) : option distributor_dialog_data :=
  p ← pjsip_dlg_get_mod_data dlg (distributor_mod_id E); dlg_pool dlg !! p.

Definition ast_sip_dialog_get_endpoint (dlg : pjsip_dialog)
  : M (option ast_sip_endpoint) :=
  match pjsip_dlg_get_mod_data dlg (distributor_mod_id E) with
  | None => ret None
  | Some p =>
      dist <- deref (dlg_pool dlg !! p) ;;
      match endpoint dist with
      | None => ret None
      | Some ep =>
          emit (ao2_ref_endpoint (Some ep) 1) ;;
          ret (Some ep)
      end
  end.

(** ** find_dialog *)

Definition find_dialog (rdata : pjsip_rx_data) : M (option pjsip_dialog) :=
  match msg_info_msg rdata with
  | None => ret None
  | Some msg =>
      let '(local_tag, remote_tag) :=
        match msg with
        | PJSIP_REQUEST_MSG _ => (msg_info_to_tag rdata, msg_info_from_tag rdata)
        | PJSIP_RESPONSE_MSG _ => (msg_info_from_tag rdata, msg_info_to_tag rdata)
        end in
      (* We can only call the convenient method for 1) responses
         2) non-CANCEL requests 3) CANCEL requests with a to-tag *)
      if match msg with
         | PJSIP_RESPONSE_MSG _ => true
         | PJSIP_REQUEST_MSG method =>
             negb (pjsip_method_cmp method pjsip_cancel_method =? 0)
             || negb (length (msg_info_to_tag rdata) =? 0)%nat
         end
      then ret (pjsip_ua_find_dialog E (msg_info_cid rdata) local_tag remote_tag)
      else
        match pjsip_tsx_layer_find_tsx E PJSIP_ROLE_UAS pjsip_get_invite_method rdata with
        | None =>
            emit (ast_log LOG_ERROR
                    "Could not find matching INVITE transaction for CANCEL request") ;;
            ret None
        | Some tsx =>
            let dlg := tsx_dlg tsx in
            emit (tsx_lock_release (tsx_obj_name tsx)) ;;
            match dlg with
            | None => ret None
            | Some dlg =>
                emit (pjsip_dlg_inc_lock (dlg_obj_name dlg)) ;;
                ret (Some dlg)
            end
        end
  end.

(** ** ast_sip_get_distributor_serializer *)

(** Modelled from the spec: [ao2_bump] (asterisk/astobj2.h, not part of the
    sources at hand) bumps the reference count of its argument and gives
    the argument back. *)
Definition ao2_bump (tps : option ast_taskprocessor) : M (option ast_taskprocessor) :=
  emit (ao2_bump_serializer tps) ;; ret tps.

Definition ast_sip_get_distributor_serializer (rdata : pjsip_rx_data)
  : M (option ast_taskprocessor) :=
  match msg_info_msg rdata with
  | None => ret None
  | Some msg =>
      let remote_tag :=
        match msg with
        | PJSIP_REQUEST_MSG _ => msg_info_from_tag rdata
        | PJSIP_RESPONSE_MSG _ => msg_info_to_tag rdata
        end in
      (* Compute the hash from the SIP message call-id and remote-tag *)
      let idx := distributor_bucket (plain_char_signed E) (msg_info_cid rdata) remote_tag in
      match distributor_pool E !! Z.to_nat idx with
      | None => crash IndexOutOfBounds
      | Some slot => ao2_bump slot
      end
  end.

(** ** distributor *)

Definition rdata_set_endpoint (rdata : pjsip_rx_data) (ep : option ast_sip_endpoint)
  : pjsip_rx_data :=
  {| msg_info_msg := msg_info_msg rdata;
     msg_info_cid := msg_info_cid rdata;
     msg_info_from_tag := msg_info_from_tag rdata;
     msg_info_to_tag := msg_info_to_tag rdata;
     msg_info_from_uri := msg_info_from_uri rdata;
     msg_info_cseq_method := msg_info_cseq_method rdata;
     endpt_info_mod_data :=
       match ep with
       | Some e => <[endpoint_mod_id E := e]> (endpt_info_mod_data rdata)
       | None => delete (endpoint_mod_id E) (endpt_info_mod_data rdata)
       end |}.

Definition rdata_get_endpoint (rdata : pjsip_rx_data) : option ast_sip_endpoint :=
  endpt_info_mod_data rdata !! endpoint_mod_id E.

(** The tail of [distributor], from [pjsip_rx_data_clone] on: reached with
    the serializer the head has settled on. *)
Definition distributor_enqueue (rdata : pjsip_rx_data)
    (dist : option distributor_dialog_data)
    (serializer : option ast_taskprocessor) : M pj_bool_t :=
  emit pjsip_rx_data_clone_call ;;
  let clone := pjsip_rx_data_clone E rdata in
  clone <- match dist with
           | Some dist =>
               emit (ao2_bump_endpoint (endpoint dist)) ;;
               c <- deref_local clone ;;
               ret (Some (rdata_set_endpoint c (endpoint dist)))
           | None => ret clone
           end ;;
  let rc := ast_sip_push_task E serializer clone in
  emit (ast_sip_push_task_call serializer clone rc) ;;
  (if negb (rc =? 0) then
     c <- deref_local clone ;;
     emit (ao2_cleanup_endpoint (rdata_get_endpoint c)) ;;
     emit (pjsip_rx_data_free_cloned c)
   else ret tt) ;;
  emit (ast_taskprocessor_unreference serializer) ;;
  ret PJ_TRUE.

(** The head of [distributor]: the dialog, its annotation [dist] and the
    serializer stored there. *)
Definition distributor_affinity (rdata : pjsip_rx_data)
  : M (option distributor_dialog_data * option ast_taskprocessor) :=
  dlg <- find_dialog rdata ;;
  match dlg with
  | Some dlg =>
      ds <- match pjsip_dlg_get_mod_data dlg (distributor_mod_id E) with
            | Some p =>
                dist <- deref (dlg_pool dlg !! p) ;;
                serializer <- ao2_bump (serializer dist) ;;
                ret (Some dist, serializer)
            | None => ret (None, None)
            end ;;
      emit (pjsip_dlg_dec_lock (dlg_obj_name dlg)) ;;
      ret ds
  | None => ret (None, None)
  end.

Definition distributor (rdata : pjsip_rx_data) : M pj_bool_t :=
  if negb (fully_booted E) then
    (* Ignore everything until we are fully booted. *)
    ret PJ_TRUE
  else
    ds <- distributor_affinity rdata ;;
    let '(dist, serializer) := ds in
    match serializer with
    | Some _ =>
        (* We have a serializer so we know where to send the message. *)
        distributor_enqueue rdata dist serializer
    | None =>
        msg <- deref (msg_info_msg rdata) ;;
        match msg with
        | PJSIP_RESPONSE_MSG _ =>
            serializer <- find_request_serializer rdata ;;
            match serializer with
            | Some _ => distributor_enqueue rdata dist serializer
            | None =>
                if negb (ast_taskprocessor_alert_get E =? 0) then
                  (* We're overloaded, ignore the unmatched response. *)
                  ret PJ_TRUE
                else
                  (* Pick a serializer for the unmatched response. *)
                  serializer <- ast_sip_get_distributor_serializer rdata ;;
                  distributor_enqueue rdata dist serializer
            end
        | PJSIP_REQUEST_MSG method =>
            if (pjsip_method_cmp method pjsip_cancel_method =? 0)
               || (pjsip_method_cmp method pjsip_bye_method =? 0)
            then
              (* We have a BYE or CANCEL request without a serializer. *)
              emit (pjsip_endpt_respond_stateless PJSIP_SC_CALL_TSX_DOES_NOT_EXIST) ;;
              ret PJ_TRUE
            else if negb (ast_taskprocessor_alert_get E =? 0) then
              (* Overloaded: ignore the request, the peer retransmits. *)
              ret PJ_TRUE
            else
              (* Pick a serializer for the out-of-dialog request. *)
              serializer <- ast_sip_get_distributor_serializer rdata ;;
              distributor_enqueue rdata dist serializer
        end
    end.

(** ** endpoint_lookup *)

Definition is_ack_method (method : pjsip_method) : bool :=
  method_e_rank (method_id method) =? method_e_rank PJSIP_ACK_METHOD.

Definition ast_sip_get_artificial_endpoint : M (option ast_sip_endpoint) :=
  emit (ao2_ref_endpoint (artificial_endpoint E) 1) ;;
  ret (artificial_endpoint E).

(** Modelled from the spec: [ast_copy_pj_str(dest, src, size)] (res_pjsip.c,
    not part of the sources at hand) copies a library string into a buffer
    of [size] bytes: at most [size - 1] characters. *)
Definition ast_copy_pj_str (src : string) (size : nat) : string :=
  substring 0 (Nat.min (size - 1) (String.length src)) src.

Definition log_unidentified_request (rdata : pjsip_rx_data) : M unit :=
  emit (ast_log LOG_NOTICE "No matching endpoint found").

Definition endpoint_lookup (rdata : pjsip_rx_data) : M (pj_bool_t * pjsip_rx_data) :=
  msg <- deref (msg_info_msg rdata) ;;
  method <- line_req_method msg ;;
  let is_ack := is_ack_method method in
  let endpoint := rdata_get_endpoint rdata in
  match endpoint with
  | Some _ => ret (PJ_FALSE, rdata)
  | None =>
      let endpoint := ast_sip_identify_endpoint E rdata in
      endpoint <- match endpoint with
                  | None =>
                      if negb is_ack then
                        let from := msg_info_from_uri rdata in
                        (* always use an artificial endpoint *)
                        endpoint <- ast_sip_get_artificial_endpoint ;;
                        let name :=
                          match uri_scheme from with
                          | SCHEME_SIP | SCHEME_SIPS =>
                              ast_copy_pj_str (uri_user from) (uuid_str_len E)
                          | SCHEME_OTHER => ""
                          end in
                        log_unidentified_request rdata ;;
                        emit (ast_sip_report_invalid_endpoint name) ;;
                        ret endpoint
                      else ret endpoint
                  | Some _ => ret endpoint
                  end ;;
      ret (PJ_FALSE, rdata_set_endpoint rdata endpoint)
  end.

(** ** authenticate *)

Definition ast_pjsip_rdata_get_endpoint (rdata : pjsip_rx_data)
  : M (option ast_sip_endpoint) :=
  let endpoint := rdata_get_endpoint rdata in
  match endpoint with
  | Some _ => emit (ao2_ref_endpoint endpoint 1) ;; ret endpoint
  | None => ret endpoint
  end.

(** The [RAII_VAR] releases [endpoint] on every way out of the body.  The
    condition of [ast_assert] is recorded as it is evaluated; what a failed
    assertion does is the build's choice. *)
Definition authenticate (rdata : pjsip_rx_data) : M pj_bool_t :=
  endpoint <- ast_pjsip_rdata_get_endpoint rdata ;;
  msg <- deref (msg_info_msg rdata) ;;
  method <- line_req_method msg ;;
  let is_ack := is_ack_method method in
  emit (ast_assert (bool_decide (endpoint <> None))) ;;
  r <- (if negb is_ack
           && negb (ast_sip_requires_authentication E endpoint rdata =? 0)
        then
          emit (pjsip_endpt_create_response 401) ;;
          let tdata := created_response E rdata 401 in
          match ast_sip_check_authentication E endpoint rdata tdata with
          | AST_SIP_AUTHENTICATION_CHALLENGE =>
              (* Send the 401 we created for them *)
              emit ast_sip_report_auth_challenge_sent ;;
              emit (pjsip_endpt_send_response2 tdata) ;;
              ret PJ_TRUE
          | AST_SIP_AUTHENTICATION_SUCCESS =>
              emit ast_sip_report_auth_success ;;
              emit (pjsip_tx_data_dec_ref tdata) ;;
              ret PJ_FALSE
          | AST_SIP_AUTHENTICATION_FAILED =>
              emit ast_sip_report_auth_failed_challenge_response ;;
              emit (pjsip_endpt_send_response2 tdata) ;;
              ret PJ_TRUE
          | AST_SIP_AUTHENTICATION_ERROR =>
              emit ast_sip_report_auth_failed_challenge_response ;;
              emit (pjsip_tx_data_dec_ref tdata) ;;
              emit (pjsip_endpt_respond_stateless 500) ;;
              ret PJ_TRUE
          end
        else ret PJ_FALSE) ;;
  emit (ao2_cleanup_endpoint endpoint) ;;
  ret r.

End Distributor.

(** ** Modules and the library's receive pipeline *)

Definition rx_callback := pjsip_rx_data -> M (pj_bool_t * pjsip_rx_data).

Record pjsip_module := {
  mod_name : string;
  priority : Z;
  on_rx_request : option rx_callback;
  on_rx_response : option rx_callback
}.

Definition PJSIP_MOD_PRIORITY_TSX_LAYER : Z := 16.
Definition PJSIP_MOD_PRIORITY_APPLICATION : Z := 64.

Record pjsip_process_rdata_param := {
  start_prio : Z;
  start_mod : option string;
  idx_after_start : nat
}.

(** [pj_list_find_node]: the list from the node on, if it is there. *)
Fixpoint find_node (name : string) (mods : list pjsip_module)
  : option (list pjsip_module) :=
  match mods with
  | [] => None
  | m :: rest =>
      if String.eqb (mod_name m) name then Some mods else find_node name rest
  end.

Fixpoint skip_below (prio : Z) (mods : list pjsip_module) : list pjsip_module :=
  match mods with
  | [] => []
  | m :: rest => if priority m <? prio then skip_below prio rest else mods
  end.

Fixpoint run_modules (is_request : bool) (mods : list pjsip_module)
    (rdata : pjsip_rx_data) : M (pj_bool_t * pjsip_rx_data) :=
  match mods with
  | [] => ret (PJ_FALSE, rdata)
  | m :: rest =>
      hr <- match (if is_request then on_rx_request m else on_rx_response m) with
            | Some cb => cb rdata
            | None => ret (PJ_FALSE, rdata)
            end ;;
      if fst hr then ret (PJ_TRUE, snd hr)
      else run_modules is_request rest (snd hr)
  end.

(** [pjsip_endpt_process_rx_data] of the SIP library over the registered
    modules, in priority order; the result is [*p_handled] and the buffer as
    the callbacks left it. *)
Definition pjsip_endpt_process_rx_data (module_list : list pjsip_module)
    (rdata : pjsip_rx_data) (p : pjsip_process_rdata_param)
  : M (pj_bool_t * pjsip_rx_data) :=
  msg <- deref (msg_info_msg rdata) ;;
  match (match start_mod p with
         | Some name => find_node name module_list
         | None => Some module_list
         end) with
  | None => ret (PJ_FALSE, rdata)
  | Some mods =>
      let mods := drop (idx_after_start p) mods in
      let mods := skip_below (start_prio p) mods in
      match mods with
      | [] => ret (PJ_FALSE, rdata)
      | _ :: _ =>
          run_modules (match msg with
                       | PJSIP_REQUEST_MSG _ => true
                       | PJSIP_RESPONSE_MSG _ => false
                       end) mods rdata
      end
  end.

Section Modules.

Variable E : env.

Definition no_change (f : pjsip_rx_data -> M pj_bool_t) : rx_callback :=
  fun rdata => b <- f rdata ;; ret (b, rdata).

Definition distributor_mod : pjsip_module :=
  {| mod_name := "Request Distributor";
     priority := PJSIP_MOD_PRIORITY_TSX_LAYER - 6;
     on_rx_request := Some (no_change (distributor E));
     on_rx_response := Some (no_change (distributor E)) |}.

Definition endpoint_mod : pjsip_module :=
  {| mod_name := "Endpoint Identifier";
     priority := PJSIP_MOD_PRIORITY_TSX_LAYER - 3;
     on_rx_request := Some (endpoint_lookup E);
     on_rx_response := None |}.

Definition auth_mod : pjsip_module :=
  {| mod_name := "Request Authenticator";
     priority := PJSIP_MOD_PRIORITY_APPLICATION - 2;
     on_rx_request := Some (no_change (authenticate E));
     on_rx_response := None |}.

(** ** distribute *)

Definition distribute_param : pjsip_process_rdata_param :=
  {| start_prio := 0;
     start_mod := Some (mod_name distributor_mod);
     idx_after_start := 1 |}.

Definition distribute (module_list : list pjsip_module) (rdata : pjsip_rx_data)
  : M Z :=
  msg <- deref (msg_info_msg rdata) ;;
  let is_request :=
    match msg with
    | PJSIP_REQUEST_MSG _ => true
    | PJSIP_RESPONSE_MSG _ => false
    end in
  let is_ack :=
    match msg with
    | PJSIP_REQUEST_MSG method => is_ack_method method
    | PJSIP_RESPONSE_MSG _ => false
    end in
  hr <- pjsip_endpt_process_rx_data module_list rdata distribute_param ;;
  let '(handled, rdata) := hr in
  (if negb handled && is_request && negb is_ack then
     emit (pjsip_endpt_respond_stateless 501)
   else ret tt) ;;
  (* The endpoint_mod stores an endpoint reference in the mod_data of rdata.
     This is the only appropriate spot to actually decrement the reference. *)
  let endpoint := rdata_get_endpoint E rdata in
  emit (ao2_cleanup_endpoint endpoint) ;;
  emit (pjsip_rx_data_free_cloned rdata) ;;
  ret 0.

End Modules.


(** ** Reading a trace *)

(** What the distributor hook settles on: the serializer it pushes to, or
    the reply it sends instead. *)
Inductive outcome :=
| PushedTo (tps : option ast_taskprocessor)
| Replied (code : Z).

Definition outcome_of (e : event) : option outcome :=
  match e with
  | ast_sip_push_task_call tps _ _ => Some (PushedTo tps)
  | pjsip_endpt_respond_stateless code => Some (Replied code)
  | _ => None
  end.

Definition outcomes (tr : list event) : list outcome := omap outcome_of tr.

(** A task that was queued: a push that returned 0. *)
Definition is_enqueue (e : event) : bool :=
  match e with
  | ast_sip_push_task_call _ _ rc => rc =? 0
  | _ => false
  end.

(** A message put on the wire. *)
Definition is_transmission (e : event) : bool :=
  match e with
  | pjsip_endpt_respond_stateless _ | pjsip_endpt_send_response2 _ => true
  | _ => false
  end.

(** What happens to SIP responses: built, sent, discarded. *)
Definition is_wire (e : event) : bool :=
  match e with
  | pjsip_endpt_respond_stateless _ | pjsip_endpt_send_response2 _
  | pjsip_endpt_create_response _ | pjsip_tx_data_dec_ref _ => true
  | _ => false
  end.

(** Reference counting of the endpoint and the assertion are the frame of
    [authenticate]; everything else is an action. *)
Definition is_action (e : event) : bool :=
  match e with
  | ao2_ref_endpoint _ _ | ao2_cleanup_endpoint _ | ast_assert _ => false
  | _ => true
  end.

Definition is_endpoint_release (e : event) : bool :=
  match e with
  | ao2_cleanup_endpoint _ => true
  | _ => false
  end.

Definition is_free_cloned (e : event) : bool :=
  match e with
  | pjsip_rx_data_free_cloned _ => true
  | _ => false
  end.

Definition is_failed_assert (e : event) : bool :=
  match e with
  | ast_assert holds => negb holds
  | _ => false
  end.

Definition enqueues (tr : list event) : list event := List.filter is_enqueue tr.
Definition transmissions (tr : list event) : list event := List.filter is_transmission tr.
Definition wire (tr : list event) : list event := List.filter is_wire tr.
Definition actions (tr : list event) : list event := List.filter is_action tr.

(** A reference taken on an endpoint. *)
Definition is_endpoint_ref (e : event) : bool :=
  match e with
  | ao2_ref_endpoint _ _ | ao2_bump_endpoint _ => true
  | _ => false
  end.

(** The pushes of a trace: serializer, task data, status. *)
Definition pushes (tr : list event)
  : list (option ast_taskprocessor * option pjsip_rx_data * Z) :=
  omap (fun e => match e with
                 | ast_sip_push_task_call tps data rc => Some (tps, data, rc)
                 | _ => None
                 end) tr.

(** The serializers released by a trace. *)
Definition releases (tr : list event) : list (option ast_taskprocessor) :=
  omap (fun e => match e with
                 | ast_taskprocessor_unreference tps => Some tps
                 | _ => None
                 end) tr.

(** Responses built, and responses disposed of (sent or released). *)
Definition is_built (e : event) : bool :=
  match e with
  | pjsip_endpt_create_response _ => true
  | _ => false
  end.

Definition is_disposal (e : event) : bool :=
  match e with
  | pjsip_endpt_send_response2 _ | pjsip_tx_data_dec_ref _ => true
  | _ => false
  end.

(** A stretch of trace without a push and without anything on the wire. *)
Definition silent (t : list event) : Prop :=
  outcomes t = [] /\ transmissions t = [].

(** ** The decision procedure of the design document *)

Section Procedure.

Variable E : env.

Definition found_dialog (rdata : pjsip_rx_data) : option pjsip_dialog :=
  match value_of (find_dialog E rdata) with
  | Ok dlg => dlg
  | Fault _ => None
  end.

(** [dlg->mod_data[distributor_mod.id]], when set, points into [dlg->pool]. *)
Definition annotation_sound (rdata : pjsip_rx_data) : bool :=
  match found_dialog rdata with
  | Some dlg =>
      match pjsip_dlg_get_mod_data dlg (distributor_mod_id E) with
      | Some p => bool_decide (p < length (dlg_pool dlg))%nat
      | None => true
      end
  | None => true
  end.

(** The serializer stored in the found dialog's annotation. *)
Definition dialog_serializer (rdata : pjsip_rx_data) : option ast_taskprocessor :=
  dlg ← found_dialog rdata; dist ← dlg_annotation E dlg; serializer dist.

(** The endpoint stored in the found dialog's annotation. *)
Definition dialog_annotation (rdata : pjsip_rx_data) : option distributor_dialog_data :=
  dlg ← found_dialog rdata; dlg_annotation E dlg.

(** The serializer looked up by the name recorded on the matched UAC
    transaction's last transmitted request. *)
Definition transaction_serializer (rdata : pjsip_rx_data) : option ast_taskprocessor :=
  tsx ← pjsip_tsx_layer_find_tsx E PJSIP_ROLE_UAC (msg_info_cseq_method rdata) rdata;
  tdata ← last_tx tsx;
  name ← tdata_mod_data tdata !! distributor_mod_id E;
  if decide (name = "") then None else tps_singletons E !! name.

Definition overloaded : bool := bool_decide (ast_taskprocessor_alert_get E <> 0).

(** The pool serializer chosen by the hash of (Call-ID, tag); the hash is
    the one [ast_sip_get_distributor_serializer] computes. *)
Definition pool_serializer (cid tag : list Byte.byte) : option ast_taskprocessor :=
  mjoin (distributor_pool E !!
           Z.to_nat (distributor_bucket (plain_char_signed E) cid tag)).

Inductive decision :=
| UseSerializer (tps : option ast_taskprocessor)
| SilentDrop
| Stateless481.

Definition is_response (msg : pjsip_msg) : bool :=
  match msg with
  | PJSIP_RESPONSE_MSG _ => true
  | PJSIP_REQUEST_MSG _ => false
  end.

Definition is_bye_or_cancel (msg : pjsip_msg) : bool :=
  match msg with
  | PJSIP_REQUEST_MSG method =>
      match method_id method with
      | PJSIP_BYE_METHOD | PJSIP_CANCEL_METHOD => true
      | _ => false
      end
  | PJSIP_RESPONSE_MSG _ => false
  end.

Definition when {A} (b : bool) (a : A) : option A := if b then Some a else None.

(** The seven clauses, in order. *)
Definition clauses (rdata : pjsip_rx_data) (msg : pjsip_msg) : list (option decision) :=
  [ (* 1 *) (fun s => UseSerializer (Some s)) <$> dialog_serializer rdata;
    (* 2 *) if is_response msg
            then (fun s => UseSerializer (Some s)) <$> transaction_serializer rdata
            else None;
    (* 3 *) when (is_response msg && overloaded) SilentDrop;
    (* 4 *) when (is_response msg)
              (UseSerializer (pool_serializer (msg_info_cid rdata) (msg_info_to_tag rdata)));
    (* 5 *) when (is_bye_or_cancel msg) Stateless481;
    (* 6 *) when (negb (is_response msg) && overloaded) SilentDrop;
    (* 7 *) Some (UseSerializer (pool_serializer (msg_info_cid rdata) (msg_info_from_tag rdata))) ].

(** The first clause that yields wins. *)
Fixpoint first_yield {A} (l : list (option A)) : option A :=
  match l with
  | [] => None
  | Some a :: _ => Some a
  | None :: rest => first_yield rest
  end.

Definition spec_decision (rdata : pjsip_rx_data) (msg : pjsip_msg) : option decision :=
  first_yield (clauses rdata msg).

Definition decision_outcomes (d : decision) : list outcome :=
  match d with
  | UseSerializer tps => [PushedTo tps]
  | SilentDrop => []
  | Stateless481 => [Replied 481]
  end.

(** No affinity: neither the dialog annotation nor (for a response) the
    matched transaction names a serializer. *)
Definition no_affinity (rdata : pjsip_rx_data) (msg : pjsip_msg) : Prop :=
  dialog_serializer rdata = None
  /\ (is_response msg = true -> transaction_serializer rdata = None).

(** The shedding rule as the design document states it. *)
Definition sheds_silently (rdata : pjsip_rx_data) : Prop :=
  enqueues (trace_of (distributor E rdata)) = []
  /\ transmissions (trace_of (distributor E rdata)) = [].

End Procedure.

(** ** The verdict table of the authenticator, from the design document *)

Definition verdict_wire (v : ast_sip_check_auth_result) (tdata : option pjsip_tx_data)
  : list event :=
  match v with
  | AST_SIP_AUTHENTICATION_CHALLENGE => [pjsip_endpt_send_response2 tdata]
  | AST_SIP_AUTHENTICATION_SUCCESS => [pjsip_tx_data_dec_ref tdata]
  | AST_SIP_AUTHENTICATION_FAILED => [pjsip_endpt_send_response2 tdata]
  | AST_SIP_AUTHENTICATION_ERROR =>
      [pjsip_tx_data_dec_ref tdata; pjsip_endpt_respond_stateless 500]
  end.

Definition verdict_consumes (v : ast_sip_check_auth_result) : pj_bool_t :=
  match v with
  | AST_SIP_AUTHENTICATION_SUCCESS => PJ_FALSE
  | _ => PJ_TRUE
  end.


(** A dialog whose annotation pointer, when set, is a block of its arena. *)
Definition dlg_wf (E : env) (dlg : pjsip_dialog) : Prop :=
  forall p, pjsip_dlg_get_mod_data dlg (distributor_mod_id E) = Some p ->
            (p < length (dlg_pool dlg))%nat.

(** ** Concrete scenarios *)

Module Scenario.

Definition wrk7 : ast_taskprocessor := {| tps_id := 7; tps_name := "wrk-7" |}.

Definition pool : list (option ast_taskprocessor) :=
  map (fun i => Some {| tps_id := 100 + i; tps_name := "pjsip/distributor" |})
      (seq 0 31).

Definition alice : ast_sip_endpoint := 5%nat.
Definition artificial : ast_sip_endpoint := 0%nat.

Definition blank_tdata : pjsip_tx_data :=
  {| tdata_pool := []; tdata_mod_data := ∅ |}.

Definition rdata_of (msg : pjsip_msg) (cid from_tag to_tag : string)
    (ep : option ast_sip_endpoint) : pjsip_rx_data :=
  {| msg_info_msg := Some msg;
     msg_info_cid := bytes_of cid;
     msg_info_from_tag := bytes_of from_tag;
     msg_info_to_tag := bytes_of to_tag;
     msg_info_from_uri := {| uri_scheme := SCHEME_SIP; uri_user := "mallory" |};
     msg_info_cseq_method :=
       match msg with
       | PJSIP_REQUEST_MSG method => method
       | PJSIP_RESPONSE_MSG _ => pjsip_invite_method
       end;
     endpt_info_mod_data :=
       match ep with
       | Some e => {[ 1%nat := e ]}
       | None => ∅
       end |}.

Definition strip (rdata : pjsip_rx_data) : pjsip_rx_data :=
  {| msg_info_msg := msg_info_msg rdata;
     msg_info_cid := msg_info_cid rdata;
     msg_info_from_tag := msg_info_from_tag rdata;
     msg_info_to_tag := msg_info_to_tag rdata;
     msg_info_from_uri := msg_info_from_uri rdata;
     msg_info_cseq_method := msg_info_cseq_method rdata;
     endpt_info_mod_data := ∅ |}.

(** An environment: module ids 0 and 1, a full pool, serializer "wrk-7"
    running and registered, the artificial endpoint the only one that needs
    authentication. *)
Definition world (alert : Z) (dlg : option pjsip_dialog)
    (tsx : option pjsip_transaction) (clone_ok : bool) (push_rc : Z)
    (ident : option ast_sip_endpoint) (verdict : ast_sip_check_auth_result) : env :=
  {| fully_booted := true;
     distributor_mod_id := 0;
     endpoint_mod_id := 1;
     plain_char_signed := true;
     uuid_str_len := 37;
     pjsip_ua_find_dialog := fun _ _ _ => dlg;
     pjsip_tsx_layer_find_tsx := fun _ _ _ => tsx;
     tps_singletons := {[ "wrk-7" := wrk7 ]};
     ast_taskprocessor_alert_get := alert;
     distributor_pool := pool;
     pjsip_rx_data_clone := fun rdata => if clone_ok then Some (strip rdata) else None;
     ast_sip_push_task := fun _ _ => push_rc;
     ast_threadpool_serializer_get_current := Some wrk7;
     ast_sip_identify_endpoint := fun _ => ident;
     artificial_endpoint := Some artificial;
     ast_sip_requires_authentication :=
       fun ep _ => match ep with
                   | Some O => 1
                   | _ => 0
                   end;
     created_response := fun _ _ => Some blank_tdata;
     ast_sip_check_authentication := fun _ _ _ => verdict |}.

Definition quiet : env :=
  world 0 None None true 0 None AST_SIP_AUTHENTICATION_CHALLENGE.

Definition overload : env :=
  world 1 None None true 0 None AST_SIP_AUTHENTICATION_CHALLENGE.

Definition bare_dialog : pjsip_dialog :=
  {| dlg_obj_name := "dlg0x1"; dlg_pool := []; dlg_mod_data := ∅ |}.

(** A dialog annotated with serializer "wrk-7" and endpoint [alice]. *)
Definition call_dialog : pjsip_dialog :=
  ast_sip_dialog_set_endpoint quiet
    (ast_sip_dialog_set_serializer quiet bare_dialog (Some wrk7)) (Some alice).

Definition invite : pjsip_rx_data :=
  rdata_of (PJSIP_REQUEST_MSG pjsip_invite_method) "a@x" "f1" "" None.
Definition bye : pjsip_rx_data :=
  rdata_of (PJSIP_REQUEST_MSG pjsip_bye_method) "nonexistent" "f9" "t9" None.
Definition ack : pjsip_rx_data :=
  rdata_of (PJSIP_REQUEST_MSG pjsip_ack_method) "a@x" "f1" "t1" None.
Definition ok200 : pjsip_rx_data :=
  rdata_of (PJSIP_RESPONSE_MSG 200) "b@y" "f2" "t2" None.
Definition invite_min : pjsip_rx_data :=
  rdata_of (PJSIP_REQUEST_MSG pjsip_invite_method) "d9am@abzz" "f1" "" None.

Definition named_tdata : pjsip_tx_data :=
  {| tdata_pool := [6%nat]; tdata_mod_data := {[ 0%nat := "wrk-7" ]} |}.

(** The clone cannot be made: on a dialog, and out of dialog. *)
Definition clone_fails_in_dialog : env :=
  world 0 (Some call_dialog) None false 0 None AST_SIP_AUTHENTICATION_CHALLENGE.
Definition clone_fails : env :=
  world 0 None None false 0 None AST_SIP_AUTHENTICATION_CHALLENGE.
Definition clone_and_push_fail : env :=
  world 0 None None false 1 None AST_SIP_AUTHENTICATION_CHALLENGE.

Definition pool_slot (n : nat) : option ast_taskprocessor :=
  Some {| tps_id := 100 + n; tps_name := "pjsip/distributor" |}.

End Scenario.

(** ** Start-up and shutdown of the distributor

    The globals of the file ([distributor_pool], [artificial_auth],
    [artificial_endpoint]) are threaded as a state; the calls into sorcery,
    the taskprocessor pool and the SIP stack are recorded. *)

Module Lifecycle.

Inductive ast_sip_auth_type :=
| AST_SIP_AUTH_TYPE_USER_PASS
| AST_SIP_AUTH_TYPE_MD5
| AST_SIP_AUTH_TYPE_ARTIFICIAL.

Record ast_sip_auth := {
  realm : string;
  auth_user : string;
  auth_pass : string;
  type : ast_sip_auth_type
}.

Record globals := {
  distributor_pool : list (option ast_taskprocessor);
  artificial_auth : option ast_sip_auth;
  artificial_endpoint : option ast_sip_endpoint
}.

(** The globals of a freshly loaded module: statics are zeroed. *)
Definition loaded : globals :=
  {| distributor_pool := replicate 31 None;
     artificial_auth := None;
     artificial_endpoint := None |}.

Inductive call :=
| ast_sip_create_serializer_named (name : string) (res : option ast_taskprocessor)
| ast_taskprocessor_unreference (tps : option ast_taskprocessor)
| ast_sorcery_alloc (type : string) (id : option string)
| AST_VECTOR_INIT (ep : ast_sip_endpoint) (size : nat)
| AST_VECTOR_APPEND (ep : ast_sip_endpoint) (elem : string)
| ast_log_error (text : string)
| internal_sip_register_service (module : string) (rc : Z)
| internal_sip_unregister_service (module : string)
| ao2_cleanup_auth (auth : option ast_sip_auth)
| ao2_cleanup_endpoint (ep : option ast_sip_endpoint)
| ao2_ref_auth (auth : option ast_sip_auth) (delta : Z)
| ao2_ref_endpoint (ep : option ast_sip_endpoint) (delta : Z).

(** What the collaborators answer: the name [ast_taskprocessor_build_name]
    writes on its n-th call, whether a serializer of a name can be created,
    what sorcery allocates, and the status of a registration. *)
Record services := {
  built_name : nat -> string;
  created_serializer : string -> option ast_taskprocessor;
  allocated_auth : option ast_sip_auth;
  allocated_endpoint : option ast_sip_endpoint;
  register_status : string -> Z
}.

(** State of the globals, result, calls made. *)
Definition S (A : Type) : Type := globals -> (A * globals) * list call.

Definition sret {A} (a : A) : S A := fun g => ((a, g), []).

Definition sbind {A B} (m : S A) (f : A -> S B) : S B :=
  fun g =>
    let '((a, g1), t1) := m g in
    let '((b, g2), t2) := f a g1 in
    ((b, g2), t1 ++ t2).

Definition does (c : call) : S unit := fun g => ((tt, g), [c]).

Definition read {A} (f : globals -> A) : S A := fun g => ((f g, g), []).

Definition write (f : globals -> globals) : S unit := fun g => ((tt, f g), []).

Notation "x <~ c1 ;;; c2" := (sbind c1 (fun x => c2))
  (at level 100, c1 at next level, right associativity).
Notation "c1 ;;; c2" := (sbind c1 (fun _ => c2))
  (at level 100, right associativity).

Definition set_pool (idx : nat) (v : option ast_taskprocessor) (g : globals) : globals :=
  {| distributor_pool := <[idx := v]> (distributor_pool g);
     artificial_auth := artificial_auth g;
     artificial_endpoint := artificial_endpoint g |}.

Definition set_artificial_auth (v : option ast_sip_auth) (g : globals) : globals :=
  {| distributor_pool := distributor_pool g;
     artificial_auth := v;
     artificial_endpoint := artificial_endpoint g |}.

Definition set_artificial_endpoint (v : option ast_sip_endpoint) (g : globals) : globals :=
  {| distributor_pool := distributor_pool g;
     artificial_auth := artificial_auth g;
     artificial_endpoint := v |}.

Section Lifecycle.

Variable C : services.

(** [for (idx = 0; idx < ARRAY_LEN(distributor_pool); ++idx)], with
    [remaining] the iterations left. *)
Fixpoint distributor_pool_shutdown_from (remaining idx : nat) : S unit :=
  match remaining with
  | O => sret tt
  | Datatypes.S remaining =>
      slot <~ read (fun g => mjoin (distributor_pool g !! idx)) ;;;
      does (ast_taskprocessor_unreference slot) ;;;
      write (set_pool idx None) ;;;
      distributor_pool_shutdown_from remaining (Datatypes.S idx)
  end.

(** Shutdown the serializers in the distributor pool. *)
Definition distributor_pool_shutdown : S unit :=
  distributor_pool_shutdown_from (Z.to_nat ARRAY_LEN_distributor_pool) 0.

Fixpoint distributor_pool_setup_from (remaining idx : nat) : S Z :=
  match remaining with
  | O => sret 0
  | Datatypes.S remaining =>
      (* Create name with seq number appended. *)
      let tps_name := built_name C idx in
      let created := created_serializer C tps_name in
      does (ast_sip_create_serializer_named tps_name created) ;;;
      write (set_pool idx created) ;;;
      match created with
      | None => sret (-1)
      | Some _ => distributor_pool_setup_from remaining (Datatypes.S idx)
      end
  end.

(** Setup the serializers in the distributor pool. *)
Definition distributor_pool_setup : S Z :=
  distributor_pool_setup_from (Z.to_nat ARRAY_LEN_distributor_pool) 0.

Definition set_realm (v : string) (auth : ast_sip_auth) : ast_sip_auth :=
  {| realm := v; auth_user := auth_user auth; auth_pass := auth_pass auth;
     type := type auth |}.
Definition set_auth_user (v : string) (auth : ast_sip_auth) : ast_sip_auth :=
  {| realm := realm auth; auth_user := v; auth_pass := auth_pass auth;
     type := type auth |}.
Definition set_auth_pass (v : string) (auth : ast_sip_auth) : ast_sip_auth :=
  {| realm := realm auth; auth_user := auth_user auth; auth_pass := v;
     type := type auth |}.
Definition set_type (v : ast_sip_auth_type) (auth : ast_sip_auth) : ast_sip_auth :=
  {| realm := realm auth; auth_user := auth_user auth; auth_pass := auth_pass auth;
     type := v |}.

(** A store through the global pointer [artificial_auth]. *)
Definition on_artificial_auth (f : ast_sip_auth -> ast_sip_auth) : S unit :=
  write (fun g => set_artificial_auth (f <$> artificial_auth g) g).

Definition create_artificial_auth : S Z :=
  does (ast_sorcery_alloc "SIP_SORCERY_AUTH_TYPE" (Some "artificial")) ;;;
  write (set_artificial_auth (allocated_auth C)) ;;;
  match allocated_auth C with
  | None =>
      does (ast_log_error "Unable to create artificial auth") ;;;
      sret (-1)
  | Some _ =>
      on_artificial_auth (set_realm "asterisk") ;;;
      on_artificial_auth (set_auth_user "") ;;;
      on_artificial_auth (set_auth_pass "") ;;;
      on_artificial_auth (set_type AST_SIP_AUTH_TYPE_ARTIFICIAL) ;;;
      sret 0
  end.

Definition ast_sip_get_artificial_auth : S (option ast_sip_auth) :=
  auth <~ read artificial_auth ;;;
  does (ao2_ref_auth auth 1) ;;;
  sret auth.

Definition create_artificial_endpoint : S Z :=
  does (ast_sorcery_alloc "endpoint" None) ;;;
  write (set_artificial_endpoint (allocated_endpoint C)) ;;;
  match allocated_endpoint C with
  | None => sret (-1)
  | Some ep =>
      does (AST_VECTOR_INIT ep 1) ;;;
      (* Pushing a bogus value into the vector will ensure that the proper
         size of the vector is returned. *)
      does (AST_VECTOR_APPEND ep "artificial-auth") ;;;
      sret 0
  end.

Definition ast_sip_get_artificial_endpoint : S (option ast_sip_endpoint) :=
  ep <~ read artificial_endpoint ;;;
  does (ao2_ref_endpoint ep 1) ;;;
  sret ep.

Definition distributor_mod_name : string := "Request Distributor".
Definition endpoint_mod_name : string := "Endpoint Identifier".
Definition auth_mod_name : string := "Request Authenticator".

Definition ast_sip_destroy_distributor : S unit :=
  does (internal_sip_unregister_service auth_mod_name) ;;;
  does (internal_sip_unregister_service endpoint_mod_name) ;;;
  does (internal_sip_unregister_service distributor_mod_name) ;;;
  auth <~ read artificial_auth ;;;
  does (ao2_cleanup_auth auth) ;;;
  ep <~ read artificial_endpoint ;;;
  does (ao2_cleanup_endpoint ep) ;;;
  distributor_pool_shutdown.

Definition register (module : string) : S Z :=
  let rc := register_status C module in
  does (internal_sip_register_service module rc) ;;;
  sret rc.

Definition fail_init : S Z :=
  ast_sip_destroy_distributor ;;; sret (-1).

(** [a() || b()]: [b] is not called when [a] reports a failure. *)
Definition either_fails (a b : S Z) : S bool :=
  rc <~ a ;;;
  if negb (rc =? 0) then sret true
  else rc <~ b ;;; sret (negb (rc =? 0)).

Definition ast_sip_initialize_distributor : S Z :=
  rc <~ distributor_pool_setup ;;;
  if negb (rc =? 0) then fail_init else
  failed <~ either_fails create_artificial_endpoint create_artificial_auth ;;;
  if failed then fail_init else
  rc <~ register distributor_mod_name ;;;
  if negb (rc =? 0) then fail_init else
  rc <~ register endpoint_mod_name ;;;
  if negb (rc =? 0) then fail_init else
  rc <~ register auth_mod_name ;;;
  if negb (rc =? 0) then fail_init else
  sret 0.

End Lifecycle.

(** The serializer made at iteration [j] of the set-up loop, and the call
    that makes it. *)
Definition made (C : services) (j : nat) : option ast_taskprocessor :=
  created_serializer C (built_name C j).

Definition make_call (C : services) (j : nat) : call :=
  ast_sip_create_serializer_named (built_name C j) (made C j).

(** The calls of the shutdown loop over a pool. *)
Definition release_calls (pool : list (option ast_taskprocessor)) (i n : nat) : list call :=
  map (fun j => ast_taskprocessor_unreference (mjoin (pool !! j))) (seq i n).

(** The globals after a start-up in which every step succeeds. *)
Definition started (C : services) : globals :=
  {| distributor_pool := map (made C) (seq 0 31);
     artificial_auth :=
       Some {| realm := "asterisk"; auth_user := ""; auth_pass := "";
               type := AST_SIP_AUTH_TYPE_ARTIFICIAL |};
     artificial_endpoint := allocated_endpoint C |}.

(** Views of a run. *)
Definition created (t : list call) : list ast_taskprocessor :=
  omap (fun c => match c with
                 | ast_sip_create_serializer_named _ res => res
                 | _ => None
                 end) t.

Definition unreferenced (t : list call) : list ast_taskprocessor :=
  omap (fun c => match c with
                 | ast_taskprocessor_unreference tps => tps
                 | _ => None
                 end) t.

Definition registered (t : list call) : list string :=
  omap (fun c => match c with
                 | internal_sip_register_service module rc =>
                     if rc =? 0 then Some module else None
                 | _ => None
                 end) t.

Definition unregistered (t : list call) : list string :=
  omap (fun c => match c with
                 | internal_sip_unregister_service module => Some module
                 | _ => None
                 end) t.

(** Every step of start-up succeeds. *)
Definition all_succeed (C : services) : Prop :=
  (forall idx, (idx < 31)%nat -> made C idx <> None)
  /\ allocated_endpoint C <> None
  /\ allocated_auth C <> None
  /\ register_status C distributor_mod_name = 0
  /\ register_status C endpoint_mod_name = 0
  /\ register_status C auth_mod_name = 0.

(** Collaborators for concrete runs: names "pjsip/distributor-A",
    "pjsip/distributor-B", ...; [healthy] creates everything, [starved]
    cannot create the sixth serializer. *)
Definition nth_name (n : nat) : string :=
  "pjsip/distributor-" ++ String (Ascii.ascii_of_nat (65 + n)) EmptyString.

Definition healthy : services :=
  {| built_name := nth_name;
     created_serializer :=
       fun name => Some {| tps_id := String.length name; tps_name := name |};
     allocated_auth :=
       Some {| realm := ""; auth_user := "nobody"; auth_pass := "secret";
               type := AST_SIP_AUTH_TYPE_USER_PASS |};
     allocated_endpoint := Some 0%nat;
     register_status := fun _ => 0 |}.

Definition starved : services :=
  {| built_name := nth_name;
     created_serializer :=
       fun name =>
         if String.eqb name (nth_name 5) then None
         else Some {| tps_id := String.length name; tps_name := name |};
     allocated_auth := allocated_auth healthy;
     allocated_endpoint := allocated_endpoint healthy;
     register_status := fun _ => 0 |}.

End Lifecycle.

(** ** Further concrete cases *)

Module Cases.

(** The client transaction of a request that went out from "wrk-7". *)
Definition reply_tsx : pjsip_transaction :=
  {| tsx_obj_name := "tsx0x7";
     last_tx := Some Scenario.named_tdata;
     tsx_dlg := None |}.

Definition reply_world : env :=
  Scenario.world 0 None (Some reply_tsx) true 0 None AST_SIP_AUTHENTICATION_CHALLENGE.

(** Overloaded, with the dialog of the call found for every message. *)
Definition busy_call_world : env :=
  Scenario.world 1 (Some Scenario.call_dialog) None true 0 None
    AST_SIP_AUTHENTICATION_CHALLENGE.

(** A BYE of the call. *)
Definition call_bye : pjsip_rx_data :=
  Scenario.rdata_of (PJSIP_REQUEST_MSG pjsip_bye_method) "a@x" "f1" "t1" None.

(** A CANCEL without to-tag. *)
Definition early_cancel : pjsip_rx_data :=
  Scenario.rdata_of (PJSIP_REQUEST_MSG pjsip_cancel_method) "a@x" "f1" "" None.

(** The INVITE server transaction of the call. *)
Definition invite_tsx : pjsip_transaction :=
  {| tsx_obj_name := "tsx0x1";
     last_tx := None;
     tsx_dlg := Some Scenario.call_dialog |}.

Definition cancel_world : env :=
  Scenario.world 0 None (Some invite_tsx) true 0 None AST_SIP_AUTHENTICATION_CHALLENGE.

(** An application module that handles every request. *)
Definition app_mod : pjsip_module :=
  {| mod_name := "app";
     priority := PJSIP_MOD_PRIORITY_APPLICATION;
     on_rx_request := Some (fun rdata => ret (PJ_TRUE, rdata));
     on_rx_response := None |}.

(** [Scenario.quiet] with the pool that the start-up with the services
    [Lifecycle.healthy] leaves in the file's global. *)
Definition started_world : env :=
  {| fully_booted := fully_booted Scenario.quiet;
     distributor_mod_id := distributor_mod_id Scenario.quiet;
     endpoint_mod_id := endpoint_mod_id Scenario.quiet;
     plain_char_signed := plain_char_signed Scenario.quiet;
     uuid_str_len := uuid_str_len Scenario.quiet;
     pjsip_ua_find_dialog := pjsip_ua_find_dialog Scenario.quiet;
     pjsip_tsx_layer_find_tsx := pjsip_tsx_layer_find_tsx Scenario.quiet;
     tps_singletons := tps_singletons Scenario.quiet;
     ast_taskprocessor_alert_get := ast_taskprocessor_alert_get Scenario.quiet;
     distributor_pool :=
       Lifecycle.distributor_pool
         (snd (fst (Lifecycle.ast_sip_initialize_distributor
                      Lifecycle.healthy Lifecycle.loaded)));
     pjsip_rx_data_clone := pjsip_rx_data_clone Scenario.quiet;
     ast_sip_push_task := ast_sip_push_task Scenario.quiet;
     ast_threadpool_serializer_get_current :=
       ast_threadpool_serializer_get_current Scenario.quiet;
     ast_sip_identify_endpoint := ast_sip_identify_endpoint Scenario.quiet;
     artificial_endpoint := artificial_endpoint Scenario.quiet;
     ast_sip_requires_authentication := ast_sip_requires_authentication Scenario.quiet;
     created_response := created_response Scenario.quiet;
     ast_sip_check_authentication := ast_sip_check_authentication Scenario.quiet |}.

End Cases.

(** * Properties *)

Lemma wrap32_range z : in_int (wrap32 z).
Proof.
  unfold in_int, wrap32, INT_MIN, INT_MAX.
  pose proof (Z.mod_pos_bound (z + 2 ^ 31) (2 ^ 32) ltac:(lia)). lia.
Qed.

Lemma wrap32_id z : in_int z -> wrap32 z = z.
Proof.
  unfold in_int, wrap32, INT_MIN, INT_MAX. intros H.
  rewrite Z.mod_small; lia.
Qed.

Lemma lxor_nonneg_bound a b :
  0 <= a < 2 ^ 31 -> 0 <= b < 2 ^ 31 -> 0 <= Z.lxor a b < 2 ^ 31.
Proof.
  intros Ha Hb.
  assert (Hnn : 0 <= Z.lxor a b) by (apply Z.lxor_nonneg; lia).
  split; [exact Hnn|].
  destruct (Z.eq_dec (Z.lxor a b) 0) as [->|Hne]; [lia|].
  apply Z.log2_lt_pow2; [lia|].
  pose proof (Z.log2_lxor a b ltac:(lia) ltac:(lia)) as Hl.
  assert (Z.log2 a < 31).
  { destruct (Z.eq_dec a 0) as [->|]; [simpl; lia|]. apply Z.log2_lt_pow2; lia. }
  assert (Z.log2 b < 31).
  { destruct (Z.eq_dec b 0) as [->|]; [simpl; lia|]. apply Z.log2_lt_pow2; lia. }
  lia.
Qed.

Lemma lxor_in_int a b : in_int a -> in_int b -> in_int (Z.lxor a b).
Proof.
  unfold in_int, INT_MIN, INT_MAX. intros Ha Hb.
  destruct (Z_lt_le_dec a 0) as [Na|Pa]; destruct (Z_lt_le_dec b 0) as [Nb|Pb].
  - rewrite <- Z.lxor_lnot_lnot.
    pose proof (lxor_nonneg_bound (Z.lnot a) (Z.lnot b)) as H.
    unfold Z.lnot in *. lia.
  - pose proof (lxor_nonneg_bound (Z.lnot a) b) as H.
    rewrite <- (Z.lnot_involutive (Z.lxor a b)), Z.lnot_lxor_l.
    unfold Z.lnot in *. lia.
  - pose proof (lxor_nonneg_bound a (Z.lnot b)) as H.
    rewrite <- (Z.lnot_involutive (Z.lxor a b)), Z.lnot_lxor_r.
    unfold Z.lnot in *. lia.
  - pose proof (lxor_nonneg_bound a b). lia.
Qed.

Lemma char_to_int_in_int sg c : in_int (char_to_int sg c).
Proof.
  unfold in_int, INT_MIN, INT_MAX, char_to_int.
  pose proof (Byte.to_N_bounded c) as Hb.
  destruct (sg && _); lia.
Qed.

Lemma pjstr_hash_add_in_int sg str h : in_int h -> in_int (pjstr_hash_add sg str h).
Proof.
  revert h. induction str as [|c pos IH]; intros h Hh; simpl; [exact Hh|].
  apply IH, lxor_in_int; [apply wrap32_range | apply char_to_int_in_int].
Qed.

Lemma distributor_hash_in_int sg cid tag : in_int (distributor_hash sg cid tag).
Proof.
  unfold distributor_hash, pjstr_hash.
  apply pjstr_hash_add_in_int, pjstr_hash_add_in_int.
  unfold in_int, INT_MIN, INT_MAX. lia.
Qed.

Lemma pjstr_hash_add_fold sg str h :
  pjstr_hash_add sg str h =
  fold_left (fun h c => Z.lxor (wrap32 (h * 33)) (char_to_int sg c)) str h.
Proof. revert h. induction str as [|c pos IH]; intros h; simpl; [reflexivity|apply IH]. Qed.

Lemma distributor_hash_spec sg cid tag :
  distributor_hash sg cid tag = spec_djb2 sg (cid ++ tag).
Proof.
  unfold distributor_hash, pjstr_hash, spec_djb2.
  rewrite !pjstr_hash_add_fold, fold_left_app. reflexivity.
Qed.

(** A byte above 127 is hashed as a negative [int] where [char] is signed. *)
Example hash_of_high_byte :
  pjstr_hash_add true [Byte.xe9] 5381 = -177588
  /\ pjstr_hash_add false [Byte.xe9] 5381 = 177484.
Proof. split; reflexivity. Qed.

Lemma distributor_bucket_range sg cid tag :
  0 <= distributor_bucket sg cid tag < 31.
Proof.
  unfold distributor_bucket, ARRAY_LEN_distributor_pool, DISTRIBUTOR_POOL_SIZE.
  apply Z.mod_pos_bound. lia.
Qed.

Lemma distributor_bucket_abs sg cid tag :
  distributor_hash sg cid tag <> INT_MIN ->
  distributor_bucket sg cid tag = spec_bucket sg cid tag.
Proof.
  intros Hne. unfold distributor_bucket, spec_bucket.
  rewrite <- distributor_hash_spec.
  pose proof (distributor_hash_in_int sg cid tag) as Hr.
  set (h := distributor_hash sg cid tag) in *.
  assert (Ha : 0 <= Z.abs h < 2 ^ 31) by (unfold in_int, INT_MIN, INT_MAX in *; lia).
  unfold c_abs. rewrite wrap32_id by (unfold in_int, INT_MIN, INT_MAX; lia).
  unfold to_size_t. rewrite (Z.mod_small (Z.abs h) (2 ^ 64)) by lia. reflexivity.
Qed.


(** ** record_serializer *)

Lemma strcmp_zero a b : strcmp a b = 0 <-> a = b.
Proof.
  unfold strcmp. split.
  - pose proof (String.compare_eq_iff a b) as H.
    destruct (String.compare a b); intros H0; [auto | discriminate | discriminate].
  - intros ->. pose proof (String.compare_antisym b b) as H.
    destruct (String.compare b b); [reflexivity | discriminate | discriminate].
Qed.

Lemma strlen_zero_name s : ast_strlen_zero (Some s) = bool_decide (s = "").
Proof. destruct s; reflexivity. Qed.

(** C8.  [record_serializer] always returns [PJ_SUCCESS]; with a current
    serializer whose name is not empty and differs from the name stored in
    the buffer's module slot (or the slot is empty) it takes
    [strlen(name) + 1] bytes from the buffer's arena and stores the name in
    the slot; when the stored name is already the current serializer's name
    the buffer is left as it was, arena included. *)
Theorem record_serializer_spec (E : env) (tdata : pjsip_tx_data) :
  snd (record_serializer E tdata) = PJ_SUCCESS
  /\ (forall s,
        ast_threadpool_serializer_get_current E = Some s ->
        tps_name s <> "" ->
        tdata_mod_data tdata !! distributor_mod_id E <> Some (tps_name s) ->
        fst (record_serializer E tdata) =
        {| tdata_pool := tdata_pool tdata ++ [(String.length (tps_name s) + 1)%nat];
           tdata_mod_data :=
             <[distributor_mod_id E := tps_name s]> (tdata_mod_data tdata) |})
  /\ (forall s,
        ast_threadpool_serializer_get_current E = Some s ->
        tdata_mod_data tdata !! distributor_mod_id E = Some (tps_name s) ->
        fst (record_serializer E tdata) = tdata).
Proof.
  split; [reflexivity|]. split.
  - intros s Hs Hne Hslot. unfold record_serializer, ast_taskprocessor_name.
    rewrite Hs, strlen_zero_name, bool_decide_eq_false_2 by exact Hne. simpl.
    destruct (tdata_mod_data tdata !! distributor_mod_id E) as [stored|] eqn:Hst;
      [|reflexivity].
    destruct (Z.eqb_spec (strcmp stored (tps_name s)) 0) as [H0|H0]; [|reflexivity].
    apply strcmp_zero in H0. congruence.
  - intros s Hs Hslot. unfold record_serializer, ast_taskprocessor_name.
    rewrite Hs, Hslot.
    replace (strcmp (tps_name s) (tps_name s) =? 0) with true
      by (symmetry; apply Z.eqb_eq, strcmp_zero; reflexivity).
    rewrite andb_false_r. reflexivity.
Qed.

Lemma record_serializer_spec_witness :
  fst (record_serializer Scenario.quiet Scenario.blank_tdata) = Scenario.named_tdata
  /\ fst (record_serializer Scenario.quiet Scenario.named_tdata) = Scenario.named_tdata.
Proof.
  destruct (record_serializer_spec Scenario.quiet Scenario.blank_tdata) as (_ & Hnew & _).
  destruct (record_serializer_spec Scenario.quiet Scenario.named_tdata) as (_ & _ & Hsame).
  split.
  - rewrite (Hnew Scenario.wrk7); [reflexivity | reflexivity | discriminate | discriminate].
  - apply (Hsame Scenario.wrk7); reflexivity.
Defined.

Lemma record_serializer_idle (E : env) (tdata : pjsip_tx_data) :
  ast_threadpool_serializer_get_current E = None ->
  record_serializer E tdata = (tdata, PJ_SUCCESS).
Proof. intros H. unfold record_serializer. rewrite H. reflexivity. Qed.

(** ** The dialog annotation *)

Section Annotation.

Variable E : env.

Lemma alloc_store (dlg : pjsip_dialog) f :
  pjsip_dlg_get_mod_data dlg (distributor_mod_id E) = None ->
  (let '(d, p) := distributor_dialog_data_alloc E dlg in dist_store d p f) =
  {| dlg_obj_name := dlg_obj_name dlg;
     dlg_pool := dlg_pool dlg ++ [f {| serializer := None; endpoint := None |}];
     dlg_mod_data :=
       <[distributor_mod_id E := length (dlg_pool dlg)]> (dlg_mod_data dlg) |}.
Proof.
  intros _. unfold distributor_dialog_data_alloc, PJ_POOL_ZALLOC_T, dist_store,
    pjsip_dlg_set_mod_data. simpl. f_equal.
  rewrite <- (Nat.add_0_r (length (dlg_pool dlg))), alter_app_r. reflexivity.
Qed.

Lemma set_serializer_fresh (dlg : pjsip_dialog) s :
  pjsip_dlg_get_mod_data dlg (distributor_mod_id E) = None ->
  ast_sip_dialog_set_serializer E dlg s =
  {| dlg_obj_name := dlg_obj_name dlg;
     dlg_pool := dlg_pool dlg ++ [{| serializer := s; endpoint := None |}];
     dlg_mod_data :=
       <[distributor_mod_id E := length (dlg_pool dlg)]> (dlg_mod_data dlg) |}.
Proof.
  intros H. unfold ast_sip_dialog_set_serializer. rewrite H.
  exact (alloc_store dlg (fun d => {| serializer := s; endpoint := endpoint d |}) H).
Qed.

Lemma set_endpoint_fresh (dlg : pjsip_dialog) ep :
  pjsip_dlg_get_mod_data dlg (distributor_mod_id E) = None ->
  ast_sip_dialog_set_endpoint E dlg ep =
  {| dlg_obj_name := dlg_obj_name dlg;
     dlg_pool := dlg_pool dlg ++ [{| serializer := None; endpoint := ep |}];
     dlg_mod_data :=
       <[distributor_mod_id E := length (dlg_pool dlg)]> (dlg_mod_data dlg) |}.
Proof.
  intros H. unfold ast_sip_dialog_set_endpoint. rewrite H.
  exact (alloc_store dlg (fun d => {| serializer := serializer d; endpoint := ep |}) H).
Qed.

Lemma set_serializer_known (dlg : pjsip_dialog) s p :
  pjsip_dlg_get_mod_data dlg (distributor_mod_id E) = Some p ->
  ast_sip_dialog_set_serializer E dlg s =
  dist_store dlg p (fun d => {| serializer := s; endpoint := endpoint d |}).
Proof. intros H. unfold ast_sip_dialog_set_serializer. rewrite H. reflexivity. Qed.

Lemma set_endpoint_known (dlg : pjsip_dialog) ep p :
  pjsip_dlg_get_mod_data dlg (distributor_mod_id E) = Some p ->
  ast_sip_dialog_set_endpoint E dlg ep =
  dist_store dlg p (fun d => {| serializer := serializer d; endpoint := ep |}).
Proof. intros H. unfold ast_sip_dialog_set_endpoint. rewrite H. reflexivity. Qed.

Lemma annotation_fresh (dlg : pjsip_dialog) d :
  dlg_annotation E
    {| dlg_obj_name := dlg_obj_name dlg;
       dlg_pool := dlg_pool dlg ++ [d];
       dlg_mod_data :=
         <[distributor_mod_id E := length (dlg_pool dlg)]> (dlg_mod_data dlg) |}
  = Some d.
Proof.
  unfold dlg_annotation, pjsip_dlg_get_mod_data. simpl.
  rewrite lookup_insert_eq. simpl. apply list_lookup_middle. reflexivity.
Qed.

Lemma annotation_store (dlg : pjsip_dialog) p f :
  pjsip_dlg_get_mod_data dlg (distributor_mod_id E) = Some p ->
  dlg_annotation E (dist_store dlg p f) = f <$> dlg_annotation E dlg.
Proof.
  intros H. unfold dlg_annotation, dist_store, pjsip_dlg_get_mod_data in *. simpl.
  rewrite H. simpl. apply list_lookup_alter_eq.
Qed.

End Annotation.

(** C9.  On a dialog whose annotation pointer (if any) is a block of its
    arena: [ast_sip_dialog_set_serializer] leaves the annotation with the new
    serializer and the endpoint it had (NULL if there was no annotation), and
    [ast_sip_dialog_set_endpoint] with the new endpoint and the serializer it
    had; neither touches the slot of another module; on a dialog without
    annotation either call appends exactly one block to the arena, zeroed but
    for the field written, and a following call of the other setter writes
    into that same block; on an annotated dialog the arena does not grow and
    the slot keeps its pointer. *)
Theorem dialog_setters_frame (E : env) (dlg : pjsip_dialog)
    (s : option ast_taskprocessor) (ep : option ast_sip_endpoint) :
  dlg_wf E dlg ->
  let old := dlg_annotation E dlg in
  let id := distributor_mod_id E in
  dlg_annotation E (ast_sip_dialog_set_serializer E dlg s)
    = Some {| serializer := s; endpoint := old ≫= endpoint |}
  /\ dlg_annotation E (ast_sip_dialog_set_endpoint E dlg ep)
    = Some {| serializer := old ≫= serializer; endpoint := ep |}
  /\ (forall id', id' <> id ->
        dlg_mod_data (ast_sip_dialog_set_serializer E dlg s) !! id' = dlg_mod_data dlg !! id'
        /\ dlg_mod_data (ast_sip_dialog_set_endpoint E dlg ep) !! id' = dlg_mod_data dlg !! id')
  /\ (dlg_mod_data dlg !! id = None ->
        dlg_pool (ast_sip_dialog_set_serializer E dlg s)
          = dlg_pool dlg ++ [{| serializer := s; endpoint := None |}]
        /\ dlg_pool (ast_sip_dialog_set_endpoint E dlg ep)
          = dlg_pool dlg ++ [{| serializer := None; endpoint := ep |}]
        /\ dlg_pool (ast_sip_dialog_set_endpoint E (ast_sip_dialog_set_serializer E dlg s) ep)
          = dlg_pool dlg ++ [{| serializer := s; endpoint := ep |}]
        /\ dlg_pool (ast_sip_dialog_set_serializer E (ast_sip_dialog_set_endpoint E dlg ep) s)
          = dlg_pool dlg ++ [{| serializer := s; endpoint := ep |}])
  /\ (forall p, dlg_mod_data dlg !! id = Some p ->
        length (dlg_pool (ast_sip_dialog_set_serializer E dlg s)) = length (dlg_pool dlg)
        /\ length (dlg_pool (ast_sip_dialog_set_endpoint E dlg ep)) = length (dlg_pool dlg)
        /\ dlg_mod_data (ast_sip_dialog_set_serializer E dlg s) = dlg_mod_data dlg
        /\ dlg_mod_data (ast_sip_dialog_set_endpoint E dlg ep) = dlg_mod_data dlg).
Proof.
  intros Hwf old id.
  destruct (dlg_mod_data dlg !! id) as [p|] eqn:Hp.
  - assert (Hget : pjsip_dlg_get_mod_data dlg (distributor_mod_id E) = Some p) by exact Hp.
    pose proof (Hwf p Hget) as Hlt.
    destruct (lookup_lt_is_Some_2 (dlg_pool dlg) p Hlt) as [d Hd].
    assert (Hold : old = Some d).
    { unfold old, dlg_annotation. rewrite Hget. exact Hd. }
    rewrite (set_serializer_known E dlg s p Hget), (set_endpoint_known E dlg ep p Hget).
    rewrite !annotation_store by exact Hget. fold old. rewrite Hold. simpl.
    repeat split; try reflexivity; try discriminate.
    + apply length_alter.
    + apply length_alter.
  - assert (Hget : pjsip_dlg_get_mod_data dlg (distributor_mod_id E) = None) by exact Hp.
    assert (Hold : old = None).
    { unfold old, dlg_annotation. rewrite Hget. reflexivity. }
    rewrite (set_serializer_fresh E dlg s Hget), (set_endpoint_fresh E dlg ep Hget).
    rewrite !annotation_fresh, Hold. simpl.
    repeat split; try reflexivity; try discriminate.
    + apply lookup_insert_ne. unfold id in *. congruence.
    + apply lookup_insert_ne. unfold id in *. congruence.
    + erewrite set_endpoint_known
        by (unfold pjsip_dlg_get_mod_data; simpl; apply lookup_insert_eq).
      unfold dist_store. simpl.
      rewrite <- (Nat.add_0_r (length (dlg_pool dlg))), alter_app_r. reflexivity.
    + erewrite set_serializer_known
        by (unfold pjsip_dlg_get_mod_data; simpl; apply lookup_insert_eq).
      unfold dist_store. simpl.
      rewrite <- (Nat.add_0_r (length (dlg_pool dlg))), alter_app_r. reflexivity.
Qed.

Lemma dialog_setters_frame_witness :
  dlg_annotation Scenario.quiet Scenario.call_dialog
  = Some {| serializer := Some Scenario.wrk7; endpoint := Some Scenario.alice |}
  /\ dlg_pool Scenario.call_dialog
  = [{| serializer := Some Scenario.wrk7; endpoint := Some Scenario.alice |}].
Proof.
  assert (Hwf : dlg_wf Scenario.quiet Scenario.bare_dialog).
  { intros p Hp. vm_compute in Hp. discriminate. }
  destruct (dialog_setters_frame Scenario.quiet Scenario.bare_dialog
              (Some Scenario.wrk7) (Some Scenario.alice) Hwf)
    as (_ & _ & _ & Hfresh & _).
  destruct (Hfresh eq_refl) as (_ & _ & Hboth & _).
  split; [reflexivity | exact Hboth].
Defined.

(** ** The authenticator and the endpoint identifier *)

Lemma rdata_get_set_endpoint (E : env) (rdata : pjsip_rx_data) ep :
  rdata_get_endpoint E (rdata_set_endpoint E rdata ep) = ep.
Proof.
  unfold rdata_get_endpoint, rdata_set_endpoint. simpl.
  destruct ep; [apply lookup_insert_eq | apply lookup_delete_eq].
Qed.

(** C5.  On a request that is not an ACK and whose endpoint requires
    authentication, [authenticate] builds a 401 and then does what the
    verdict of [ast_sip_check_authentication] says: CHALLENGE and FAILED send
    the 401 and consume, SUCCESS discards it and does not consume, ERROR
    discards it, answers with a stateless 500 and consumes.  On an ACK, and
    on a request whose endpoint does not require authentication, it does not
    consume and performs no action at all (it only takes and returns its
    reference on the endpoint). *)
Theorem authenticate_verdicts (E : env) (rdata : pjsip_rx_data) (method : pjsip_method) :
  msg_info_msg rdata = Some (PJSIP_REQUEST_MSG method) ->
  let endpoint := rdata_get_endpoint E rdata in
  let tdata := created_response E rdata 401 in
  let verdict := ast_sip_check_authentication E endpoint rdata tdata in
  let run := authenticate E rdata in
  if negb (is_ack_method method)
     && negb (ast_sip_requires_authentication E endpoint rdata =? 0)
  then value_of run = Ok (verdict_consumes verdict)
       /\ wire (trace_of run) = pjsip_endpt_create_response 401 :: verdict_wire verdict tdata
  else value_of run = Ok PJ_FALSE /\ actions (trace_of run) = [].
Proof.
  intros Hmsg endpoint tdata verdict run.
  subst run verdict tdata. unfold authenticate, ast_pjsip_rdata_get_endpoint.
  fold endpoint. rewrite Hmsg.
  destruct endpoint as [e|] eqn:Hep; simpl;
    destruct (is_ack_method method); simpl;
    try (split; reflexivity);
    destruct (ast_sip_requires_authentication E _ rdata =? 0); simpl;
    try (split; reflexivity);
    destruct (ast_sip_check_authentication E _ rdata _); simpl;
    split; reflexivity.
Qed.

Lemma authenticate_verdicts_witness :
  value_of (authenticate Scenario.quiet
              (Scenario.rdata_of (PJSIP_REQUEST_MSG pjsip_invite_method)
                 "a@x" "f1" "" (Some Scenario.artificial))) = Ok PJ_TRUE
  /\ wire (trace_of (authenticate Scenario.quiet
              (Scenario.rdata_of (PJSIP_REQUEST_MSG pjsip_invite_method)
                 "a@x" "f1" "" (Some Scenario.artificial))))
     = [pjsip_endpt_create_response 401;
        pjsip_endpt_send_response2 (Some Scenario.blank_tdata)].
Proof.
  exact (authenticate_verdicts Scenario.quiet
           (Scenario.rdata_of (PJSIP_REQUEST_MSG pjsip_invite_method)
              "a@x" "f1" "" (Some Scenario.artificial))
           pjsip_invite_method eq_refl).
Defined.

(** C6.  An ACK with no endpoint attached that the identifier service cannot
    identify: [endpoint_lookup] leaves the endpoint slot NULL, calls nothing
    (no log line, no security event, no reference on the artificial
    endpoint) and returns "not consumed"; [authenticate], run on the buffer
    as it was left, does not consume and performs no action, so no 401 is
    built or sent. *)
Theorem ack_unidentified (E : env) (rdata : pjsip_rx_data) (method : pjsip_method) :
  msg_info_msg rdata = Some (PJSIP_REQUEST_MSG method) ->
  is_ack_method method = true ->
  rdata_get_endpoint E rdata = None ->
  ast_sip_identify_endpoint E rdata = None ->
  exists rdata',
    endpoint_lookup E rdata = (Ok (PJ_FALSE, rdata'), [])
    /\ rdata_get_endpoint E rdata' = None
    /\ (forall a, artificial_endpoint E = Some a -> rdata_get_endpoint E rdata' <> Some a)
    /\ value_of (authenticate E rdata') = Ok PJ_FALSE
    /\ actions (trace_of (authenticate E rdata')) = [].
Proof.
  intros Hmsg Hack Hslot Hident.
  exists (rdata_set_endpoint E rdata None).
  assert (Hget : rdata_get_endpoint E (rdata_set_endpoint E rdata None) = None)
    by apply rdata_get_set_endpoint.
  split; [|split; [exact Hget|split]].
  - unfold endpoint_lookup. rewrite Hmsg. simpl. rewrite Hslot, Hident, Hack.
    reflexivity.
  - intros a _. rewrite Hget. discriminate.
  - unfold authenticate, ast_pjsip_rdata_get_endpoint. rewrite Hget. simpl.
    rewrite Hmsg. simpl. rewrite Hack. simpl. split; reflexivity.
Qed.

Lemma ack_unidentified_witness :
  exists rdata',
    endpoint_lookup Scenario.quiet Scenario.ack = (Ok (PJ_FALSE, rdata'), [])
    /\ rdata_get_endpoint Scenario.quiet rdata' = None
    /\ (forall a, artificial_endpoint Scenario.quiet = Some a ->
                  rdata_get_endpoint Scenario.quiet rdata' <> Some a)
    /\ value_of (authenticate Scenario.quiet rdata') = Ok PJ_FALSE
    /\ actions (trace_of (authenticate Scenario.quiet rdata')) = [].
Proof.
  apply (ack_unidentified Scenario.quiet Scenario.ack pjsip_ack_method);
    reflexivity.
Defined.

(** A request other than ACK leaves [endpoint_lookup] with an endpoint
    attached as soon as the artificial endpoint exists. *)
Lemma endpoint_lookup_non_ack_attaches (E : env) (rdata : pjsip_rx_data)
    (method : pjsip_method) :
  msg_info_msg rdata = Some (PJSIP_REQUEST_MSG method) ->
  is_ack_method method = false ->
  artificial_endpoint E <> None ->
  exists rdata' tr,
    endpoint_lookup E rdata = (Ok (PJ_FALSE, rdata'), tr)
    /\ rdata_get_endpoint E rdata' <> None.
Proof.
  intros Hmsg Hack Hart. unfold endpoint_lookup. rewrite Hmsg. simpl.
  destruct (rdata_get_endpoint E rdata) as [e|] eqn:Hslot.
  - exists rdata, []. split; [reflexivity|]. rewrite Hslot. discriminate.
  - destruct (ast_sip_identify_endpoint E rdata) as [e|] eqn:Hident; simpl.
    + eexists _, _. split; [reflexivity|].
      rewrite rdata_get_set_endpoint. discriminate.
    + rewrite Hack. simpl.
      eexists _, _. split; [reflexivity|].
      rewrite rdata_get_set_endpoint. exact Hart.
Qed.

(** C10.  The ACK of the scenario, which nobody identifies, reaches
    [authenticate] with a NULL endpoint slot: the condition of
    [ast_assert(endpoint != NULL)] is false there. *)
Theorem ack_reaches_authenticate_without_endpoint :
  exists rdata',
    endpoint_lookup Scenario.quiet Scenario.ack = (Ok (PJ_FALSE, rdata'), [])
    /\ rdata_get_endpoint Scenario.quiet rdata' = None
    /\ authenticate Scenario.quiet rdata'
       = (Ok PJ_FALSE, [ast_assert false; ao2_cleanup_endpoint None])
    /\ run_modules true [endpoint_mod Scenario.quiet; auth_mod Scenario.quiet] Scenario.ack
       = (Ok (PJ_FALSE, rdata'), [ast_assert false; ao2_cleanup_endpoint None]).
Proof.
  exists (rdata_set_endpoint Scenario.quiet Scenario.ack None).
  repeat split; reflexivity.
Qed.

(** ** distribute *)

Lemma bind_run {A B} (m : M A) (f : A -> M B) a t1 :
  m = (Ok a, t1) -> bind m f = (fst (f a), t1 ++ snd (f a)).
Proof. intros ->. unfold bind. destruct (f a). reflexivity. Qed.

Lemma bind_ret {A B} (a : A) (f : A -> M B) : bind (ret a) f = f a.
Proof. unfold bind, ret. destruct (f a). reflexivity. Qed.

Lemma bind_fault {A B} (m : M A) (f : A -> M B) e t1 :
  m = (Fault e, t1) -> bind m f = (Fault e, t1).
Proof. intros ->. reflexivity. Qed.

Lemma find_node_skips (name : string) (pre : list pjsip_module) m post :
  find_node name pre = None ->
  mod_name m = name ->
  find_node name (pre ++ m :: post) = Some (m :: post).
Proof.
  intros Hpre Hm. induction pre as [|x pre IH]; simpl in *.
  - rewrite Hm, String.eqb_refl. reflexivity.
  - destruct (String.eqb (mod_name x) name); [discriminate|]. apply IH, Hpre.
Qed.

Lemma process_after_start (name : string) (pre : list pjsip_module) m post
    (rdata : pjsip_rx_data) (msg : pjsip_msg) :
  msg_info_msg rdata = Some msg ->
  find_node name pre = None ->
  mod_name m = name ->
  skip_below 0 post = post ->
  pjsip_endpt_process_rx_data (pre ++ m :: post) rdata
    {| start_prio := 0; start_mod := Some name; idx_after_start := 1 |}
  = run_modules (negb (is_response msg)) post rdata.
Proof.
  intros Hmsg Hpre Hm Hprio. unfold pjsip_endpt_process_rx_data.
  rewrite Hmsg. unfold deref. rewrite bind_ret.
  cbn [start_mod idx_after_start start_prio].
  rewrite (find_node_skips name pre m post Hpre Hm).
  rewrite skipn_cons, drop_0, Hprio.
  destruct post; [reflexivity|]. destruct msg; reflexivity.
Qed.

(** C7.  [distribute] hands the cloned buffer to the library's pipeline at
    the module that follows the distributor.  When the pipeline comes back
    with [handled] and the buffer as the modules left it, [distribute] adds
    a stateless 501 exactly when the message was not handled and is a request
    other than ACK, then makes one [ao2_cleanup] call, on the endpoint slot of
    the buffer, and one [pjsip_rx_data_free_cloned] call, on the buffer, and
    returns 0. *)
Theorem distribute_releases (E : env) (pre post : list pjsip_module)
    (rdata rdata' : pjsip_rx_data) (msg : pjsip_msg) (handled : pj_bool_t)
    (tr : list event) :
  msg_info_msg rdata = Some msg ->
  find_node (mod_name (distributor_mod E)) pre = None ->
  skip_below 0 post = post ->
  run_modules (negb (is_response msg)) post rdata = (Ok (handled, rdata'), tr) ->
  let is_ack :=
    match msg with
    | PJSIP_REQUEST_MSG method => is_ack_method method
    | PJSIP_RESPONSE_MSG _ => false
    end in
  let reply :=
    if negb handled && negb (is_response msg) && negb is_ack
    then [pjsip_endpt_respond_stateless 501] else [] in
  let own :=
    reply ++ [ao2_cleanup_endpoint (rdata_get_endpoint E rdata');
              pjsip_rx_data_free_cloned rdata'] in
  distribute E (pre ++ distributor_mod E :: post) rdata = (Ok 0, tr ++ own)
  /\ transmissions own = reply
  /\ List.filter is_endpoint_release own
     = [ao2_cleanup_endpoint (rdata_get_endpoint E rdata')]
  /\ List.filter is_free_cloned own = [pjsip_rx_data_free_cloned rdata'].
Proof.
  intros Hmsg Hpre Hprio Hrun is_ack reply own.
  split.
  - unfold distribute. rewrite Hmsg. unfold deref. rewrite bind_ret.
    unfold distribute_param.
    rewrite (process_after_start _ pre (distributor_mod E) post rdata msg
               Hmsg Hpre eq_refl Hprio), Hrun.
    subst own reply is_ack.
    destruct msg as [method|code]; simpl;
      destruct handled; simpl; try reflexivity;
      destruct (is_ack_method method); simpl; rewrite ?app_nil_r; reflexivity.
  - subst own reply.
    destruct (negb handled && negb (is_response msg) && negb is_ack);
      repeat split; reflexivity.
Qed.

Lemma distribute_releases_witness :
  distribute Scenario.quiet
    [distributor_mod Scenario.quiet; endpoint_mod Scenario.quiet;
     auth_mod Scenario.quiet] Scenario.invite
  = (Ok 0,
     [ao2_ref_endpoint (Some Scenario.artificial) 1;
      ast_log LOG_NOTICE "No matching endpoint found";
      ast_sip_report_invalid_endpoint "mallory";
      ao2_ref_endpoint (Some Scenario.artificial) 1;
      ast_assert true;
      pjsip_endpt_create_response 401;
      ast_sip_report_auth_challenge_sent;
      pjsip_endpt_send_response2 (Some Scenario.blank_tdata);
      ao2_cleanup_endpoint (Some Scenario.artificial)]
     ++ [ao2_cleanup_endpoint (Some Scenario.artificial);
         pjsip_rx_data_free_cloned
           (rdata_set_endpoint Scenario.quiet Scenario.invite
              (Some Scenario.artificial))]).
Proof.
  refine (proj1 (distribute_releases Scenario.quiet []
                   [endpoint_mod Scenario.quiet; auth_mod Scenario.quiet]
                   Scenario.invite _ (PJSIP_REQUEST_MSG pjsip_invite_method)
                   true _ eq_refl eq_refl eq_refl eq_refl)).
Defined.

(** ** The distributor hook *)

Lemma outcomes_app t1 t2 : outcomes (t1 ++ t2) = outcomes t1 ++ outcomes t2.
Proof. apply omap_app. Qed.

Lemma transmissions_app t1 t2 :
  transmissions (t1 ++ t2) = transmissions t1 ++ transmissions t2.
Proof. apply List.filter_app. Qed.

Lemma enqueues_app t1 t2 : enqueues (t1 ++ t2) = enqueues t1 ++ enqueues t2.
Proof. apply List.filter_app. Qed.

Lemma silent_app t1 t2 : silent t1 -> silent t2 -> silent (t1 ++ t2).
Proof.
  intros [H1 H2] [H3 H4]. split.
  - rewrite outcomes_app, H1, H3. reflexivity.
  - rewrite transmissions_app, H2, H4. reflexivity.
Qed.

Lemma enqueues_of_outcomes t : outcomes t = [] -> enqueues t = [].
Proof.
  induction t as [|e t IH]; [reflexivity|].
  destruct e; simpl; try discriminate; exact IH.
Qed.

Lemma method_cmp_cancel (method : pjsip_method) :
  (pjsip_method_cmp method pjsip_cancel_method =? 0)
  = bool_decide (method_id method = PJSIP_CANCEL_METHOD).
Proof. destruct method as [[] name]; reflexivity. Qed.

Lemma method_cmp_bye (method : pjsip_method) :
  (pjsip_method_cmp method pjsip_bye_method =? 0)
  = bool_decide (method_id method = PJSIP_BYE_METHOD).
Proof. destruct method as [[] name]; reflexivity. Qed.

Section Hook.

Variable E : env.

Lemma find_dialog_run (rdata : pjsip_rx_data) :
  exists t, find_dialog E rdata = (Ok (found_dialog E rdata), t) /\ silent t.
Proof.
  unfold found_dialog, value_of. unfold find_dialog.
  destruct (msg_info_msg rdata) as [[method|code]|]; simpl.
  - destruct (negb (pjsip_method_cmp method pjsip_cancel_method =? 0)
              || negb (length (msg_info_to_tag rdata) =? 0)%nat); simpl.
    + eexists. split; [reflexivity|split; reflexivity].
    + destruct (pjsip_tsx_layer_find_tsx E PJSIP_ROLE_UAS pjsip_get_invite_method rdata)
        as [tsx|]; simpl.
      * destruct (tsx_dlg tsx); simpl; eexists; (split; [reflexivity|split; reflexivity]).
      * eexists. split; [reflexivity|split; reflexivity].
  - eexists. split; [reflexivity|split; reflexivity].
  - eexists. split; [reflexivity|split; reflexivity].
Qed.

Lemma distributor_affinity_run (rdata : pjsip_rx_data) :
  annotation_sound E rdata = true ->
  exists t,
    distributor_affinity E rdata
    = (Ok (dialog_annotation E rdata, dialog_serializer E rdata), t)
    /\ silent t.
Proof.
  intros Hsound. destruct (find_dialog_run rdata) as (t0 & Hfd & Hs0).
  unfold distributor_affinity. rewrite (bind_run _ _ _ _ Hfd).
  unfold annotation_sound, dialog_annotation, dialog_serializer, dlg_annotation in *.
  destruct (found_dialog E rdata) as [dlg|]; simpl.
  - destruct (pjsip_dlg_get_mod_data dlg (distributor_mod_id E)) as [p|]; simpl.
    + apply bool_decide_eq_true_1 in Hsound.
      destruct (lookup_lt_is_Some_2 _ _ Hsound) as [dist Hd]. rewrite Hd. simpl.
      eexists. split; [reflexivity|].
      apply silent_app; [exact Hs0|split; reflexivity].
    + eexists. split; [reflexivity|].
      apply silent_app; [exact Hs0|split; reflexivity].
  - eexists. split; [reflexivity|].
    apply silent_app; [exact Hs0|split; reflexivity].
Qed.

Lemma find_request_serializer_run (rdata : pjsip_rx_data) :
  exists t,
    find_request_serializer E rdata = (Ok (transaction_serializer E rdata), t)
    /\ silent t.
Proof.
  unfold find_request_serializer, transaction_serializer, ast_taskprocessor_get.
  destruct (pjsip_tsx_layer_find_tsx E PJSIP_ROLE_UAC (msg_info_cseq_method rdata) rdata)
    as [tsx|]; simpl.
  - exists [tsx_lock_release (tsx_obj_name tsx)]. split; [|split; reflexivity].
    destruct (last_tx tsx) as [tdata|]; simpl; [|reflexivity].
    destruct (tdata_mod_data tdata !! distributor_mod_id E) as [name|]; simpl;
      [|reflexivity].
    destruct name; reflexivity.
  - eexists. split; [reflexivity|split; reflexivity].
Qed.

Lemma pool_lookup (cid tag : list Byte.byte) :
  length (distributor_pool E) = 31%nat ->
  exists slot,
    distributor_pool E !! Z.to_nat (distributor_bucket (plain_char_signed E) cid tag)
    = Some slot
    /\ pool_serializer E cid tag = slot.
Proof.
  intros Hlen. unfold pool_serializer.
  pose proof (distributor_bucket_range (plain_char_signed E) cid tag) as Hr.
  destruct (lookup_lt_is_Some_2 (distributor_pool E)
              (Z.to_nat (distributor_bucket (plain_char_signed E) cid tag)))
    as [slot Hslot]; [lia|].
  exists slot. rewrite Hslot. split; reflexivity.
Qed.

Lemma get_distributor_serializer_run (rdata : pjsip_rx_data) (msg : pjsip_msg) :
  msg_info_msg rdata = Some msg ->
  length (distributor_pool E) = 31%nat ->
  exists t,
    ast_sip_get_distributor_serializer E rdata
    = (Ok (pool_serializer E (msg_info_cid rdata)
             (if is_response msg then msg_info_to_tag rdata
              else msg_info_from_tag rdata)), t)
    /\ silent t.
Proof.
  intros Hmsg Hlen. unfold ast_sip_get_distributor_serializer. rewrite Hmsg.
  destruct msg as [method|code]; simpl.
  - destruct (pool_lookup (msg_info_cid rdata) (msg_info_from_tag rdata) Hlen)
      as (slot & -> & ->).
    eexists. split; [reflexivity|split; reflexivity].
  - destruct (pool_lookup (msg_info_cid rdata) (msg_info_to_tag rdata) Hlen)
      as (slot & -> & ->).
    eexists. split; [reflexivity|split; reflexivity].
Qed.

Lemma distributor_enqueue_run (rdata : pjsip_rx_data) dist tps :
  pjsip_rx_data_clone E rdata <> None ->
  exists t,
    distributor_enqueue E rdata dist tps = (Ok PJ_TRUE, t)
    /\ outcomes t = [PushedTo tps] /\ transmissions t = [].
Proof.
  intros Hclone. unfold distributor_enqueue.
  destruct (pjsip_rx_data_clone E rdata) as [c|]; [|congruence].
  destruct dist as [dist|]; simpl.
  - destruct (ast_sip_push_task E tps _ =? 0); simpl;
      eexists; (split; [reflexivity|split; reflexivity]).
  - destruct (ast_sip_push_task E tps _ =? 0); simpl;
      eexists; (split; [reflexivity|split; reflexivity]).
Qed.

End Hook.

Lemma alert_overloaded (E : env) :
  negb (ast_taskprocessor_alert_get E =? 0) = overloaded E.
Proof.
  unfold overloaded. destruct (Z.eqb_spec (ast_taskprocessor_alert_get E) 0) as [H|H]; simpl.
  - symmetry. apply bool_decide_eq_false_2. tauto.
  - symmetry. apply bool_decide_eq_true_2. exact H.
Qed.

Lemma method_bye_or_cancel (method : pjsip_method) :
  (pjsip_method_cmp method pjsip_cancel_method =? 0)
  || (pjsip_method_cmp method pjsip_bye_method =? 0)
  = is_bye_or_cancel (PJSIP_REQUEST_MSG method).
Proof. destruct method as [[] name]; reflexivity. Qed.

Lemma distributor_not_booted (E : env) (rdata : pjsip_rx_data) :
  fully_booted E = false -> distributor E rdata = (Ok PJ_TRUE, []).
Proof. intros H. unfold distributor. rewrite H. reflexivity. Qed.

(** C1.  While fully booted, on a message the library has parsed, with a
    sound dialog annotation, a pool of 31 slots and a clone that succeeds,
    the hook returns "consumed", and what it settles on (the serializer it
    pushes to, the stateless 481, or nothing) is what the first yielding
    clause of the seven-clause procedure says. *)
Theorem distributor_decision_procedure (E : env) (rdata : pjsip_rx_data)
    (msg : pjsip_msg) :
  fully_booted E = true ->
  msg_info_msg rdata = Some msg ->
  annotation_sound E rdata = true ->
  length (distributor_pool E) = 31%nat ->
  pjsip_rx_data_clone E rdata <> None ->
  exists d tr,
    spec_decision E rdata msg = Some d
    /\ distributor E rdata = (Ok PJ_TRUE, tr)
    /\ outcomes tr = decision_outcomes d.
Proof.
  intros Hboot Hmsg Hsound Hlen Hclone.
  destruct (distributor_affinity_run E rdata Hsound) as (t0 & Haff & Hs0 & _).
  pose proof (fun dist tps => distributor_enqueue_run E rdata dist tps Hclone) as Henq.
  unfold distributor. rewrite Hboot. cbn [negb].
  rewrite (bind_run _ _ _ _ Haff).
  unfold spec_decision, clauses.
  destruct (dialog_serializer E rdata) as [s|] eqn:Hds; cbn [fmap option_fmap option_map first_yield].
  { destruct (Henq (dialog_annotation E rdata) (Some s)) as (t & -> & Ho & _).
    eexists _, _. split; [reflexivity|]. split; [reflexivity|].
    cbn [snd]. rewrite outcomes_app, Hs0, Ho. reflexivity. }
  rewrite Hmsg. unfold deref. rewrite bind_ret.
  destruct msg as [method|code]; cbn [is_response].
  - rewrite method_bye_or_cancel, alert_overloaded.
    destruct (is_bye_or_cancel (PJSIP_REQUEST_MSG method)); cbn [when andb first_yield].
    { eexists _, _. split; [reflexivity|]. split; [reflexivity|].
      cbn [snd]. rewrite outcomes_app, Hs0. reflexivity. }
    destruct (overloaded E); cbn [when negb andb first_yield].
    { eexists _, _. split; [reflexivity|]. split; [reflexivity|].
      cbn [snd]. rewrite outcomes_app, Hs0. reflexivity. }
    destruct (get_distributor_serializer_run E rdata _ Hmsg Hlen) as (t1 & Hget & Hs1 & _).
    rewrite (bind_run _ _ _ _ Hget). cbn [is_response] in *.
    destruct (Henq (dialog_annotation E rdata)
                (pool_serializer E (msg_info_cid rdata) (msg_info_from_tag rdata)))
      as (t & -> & Ho & _).
    eexists _, _. split; [reflexivity|]. split; [reflexivity|].
    cbn [snd]. rewrite !outcomes_app, Hs0, Hs1, Ho. reflexivity.
  - destruct (find_request_serializer_run E rdata) as (t1 & Hfrs & Hs1 & _).
    rewrite (bind_run _ _ _ _ Hfrs).
    destruct (transaction_serializer E rdata) as [s|] eqn:Hts;
      cbn [fmap option_fmap option_map first_yield].
    { destruct (Henq (dialog_annotation E rdata) (Some s)) as (t & -> & Ho & _).
      eexists _, _. split; [reflexivity|]. split; [reflexivity|].
      cbn [snd]. rewrite !outcomes_app, Hs0, Hs1, Ho. reflexivity. }
    rewrite alert_overloaded.
    destruct (overloaded E); cbn [when andb first_yield].
    { eexists _, _. split; [reflexivity|]. split; [reflexivity|].
      cbn [snd]. rewrite !outcomes_app, Hs0, Hs1. reflexivity. }
    destruct (get_distributor_serializer_run E rdata _ Hmsg Hlen) as (t2 & Hget & Hs2 & _).
    rewrite (bind_run _ _ _ _ Hget). cbn [is_response] in *.
    destruct (Henq (dialog_annotation E rdata)
                (pool_serializer E (msg_info_cid rdata) (msg_info_to_tag rdata)))
      as (t & -> & Ho & _).
    eexists _, _. split; [reflexivity|]. split; [reflexivity|].
    cbn [snd]. rewrite !outcomes_app, Hs0, Hs1, Hs2, Ho. reflexivity.
Qed.

Lemma distributor_decision_procedure_witness :
  exists d tr,
    spec_decision Scenario.quiet Scenario.invite (PJSIP_REQUEST_MSG pjsip_invite_method)
    = Some d
    /\ distributor Scenario.quiet Scenario.invite = (Ok PJ_TRUE, tr)
    /\ outcomes tr = decision_outcomes d.
Proof.
  apply (distributor_decision_procedure Scenario.quiet Scenario.invite
           (PJSIP_REQUEST_MSG pjsip_invite_method));
    [reflexivity | reflexivity | reflexivity | reflexivity | discriminate].
Defined.

(** The INVITE of an unknown peer, not overloaded: pushed to pool slot 14. *)
Example invite_unknown_peer :
  spec_decision Scenario.quiet Scenario.invite (PJSIP_REQUEST_MSG pjsip_invite_method)
  = Some (UseSerializer (Scenario.pool_slot 14))
  /\ outcomes (trace_of (distributor Scenario.quiet Scenario.invite))
     = [PushedTo (Scenario.pool_slot 14)].
Proof. split; vm_compute; reflexivity. Qed.

(** C2, as stated, fails: a BYE without affinity is answered with a
    stateless 481 while the overload alert is raised. *)
Lemma overload_bye_is_answered :
  overloaded Scenario.overload = true
  /\ no_affinity Scenario.overload Scenario.bye (PJSIP_REQUEST_MSG pjsip_bye_method)
  /\ ~ sheds_silently Scenario.overload Scenario.bye.
Proof.
  split; [reflexivity|]. split.
  - split; [reflexivity | discriminate].
  - intros [_ H]. vm_compute in H. discriminate.
Qed.

(** C2, amended.  With the overload alert raised, a parsed message without
    affinity (no serializer in the dialog annotation and, for a response, none
    found through the transaction) is never pushed to a serializer, and
    nothing is sent for it, except that a BYE or CANCEL request is answered
    with the stateless 481 (when fully booted), overload or not. *)
Theorem overload_sheds_except_bye_cancel (E : env) (rdata : pjsip_rx_data)
    (msg : pjsip_msg) :
  msg_info_msg rdata = Some msg ->
  annotation_sound E rdata = true ->
  overloaded E = true ->
  no_affinity E rdata msg ->
  exists tr,
    distributor E rdata = (Ok PJ_TRUE, tr)
    /\ enqueues tr = []
    /\ outcomes tr
       = (if fully_booted E && is_bye_or_cancel msg then [Replied 481] else [])
    /\ transmissions tr
       = (if fully_booted E && is_bye_or_cancel msg
          then [pjsip_endpt_respond_stateless 481] else []).
Proof.
  intros Hmsg Hsound Hover [Hds Hts].
  destruct (fully_booted E) eqn:Hboot.
  2: { rewrite (distributor_not_booted E rdata Hboot). exists [].
       repeat split; reflexivity. }
  destruct (distributor_affinity_run E rdata Hsound) as (t0 & Haff & Hs0 & Hw0).
  unfold distributor. rewrite Hboot. cbn [negb andb].
  rewrite (bind_run _ _ _ _ Haff), Hds, Hmsg. unfold deref. rewrite bind_ret.
  destruct msg as [method|code].
  - rewrite method_bye_or_cancel, alert_overloaded, Hover.
    destruct (is_bye_or_cancel (PJSIP_REQUEST_MSG method)); cbn [negb].
    + eexists. split; [reflexivity|]. cbn [snd].
      rewrite enqueues_app, outcomes_app, transmissions_app,
        (enqueues_of_outcomes _ Hs0), Hs0, Hw0.
      repeat split; reflexivity.
    + eexists. split; [reflexivity|]. cbn [snd].
      rewrite enqueues_app, outcomes_app, transmissions_app,
        (enqueues_of_outcomes _ Hs0), Hs0, Hw0.
      repeat split; reflexivity.
  - destruct (find_request_serializer_run E rdata) as (t1 & Hfrs & Hs1 & Hw1).
    rewrite (bind_run _ _ _ _ Hfrs), (Hts eq_refl), alert_overloaded, Hover.
    eexists. split; [reflexivity|]. cbn [snd is_bye_or_cancel].
    rewrite !enqueues_app, !outcomes_app, !transmissions_app,
      (enqueues_of_outcomes _ Hs0), (enqueues_of_outcomes _ Hs1), Hs0, Hw0, Hs1, Hw1.
    repeat split; reflexivity.
Qed.

Lemma overload_sheds_except_bye_cancel_witness :
  exists tr,
    distributor Scenario.overload Scenario.invite = (Ok PJ_TRUE, tr)
    /\ enqueues tr = []
    /\ outcomes tr = []
    /\ transmissions tr = [].
Proof.
  apply (overload_sheds_except_bye_cancel Scenario.overload Scenario.invite
           (PJSIP_REQUEST_MSG pjsip_invite_method));
    [reflexivity | reflexivity | reflexivity | split; [reflexivity | discriminate]].
Defined.

(** ** Failure of the clone and of the push *)

(** When the clone succeeds and the push fails, the tail of [distributor]
    releases the endpoint reference of the clone, frees the clone, releases
    the serializer, queues nothing and returns "consumed". *)
Lemma distributor_enqueue_push_fails (E : env) (rdata clone : pjsip_rx_data)
    (dist : option distributor_dialog_data) (tps : option ast_taskprocessor) :
  pjsip_rx_data_clone E rdata = Some clone ->
  let clone' :=
    match dist with
    | Some d => rdata_set_endpoint E clone (endpoint d)
    | None => clone
    end in
  ast_sip_push_task E tps (Some clone') <> 0 ->
  exists t,
    distributor_enqueue E rdata dist tps
    = (Ok PJ_TRUE,
       t ++ [ast_sip_push_task_call tps (Some clone')
               (ast_sip_push_task E tps (Some clone'));
             ao2_cleanup_endpoint (rdata_get_endpoint E clone');
             pjsip_rx_data_free_cloned clone';
             ast_taskprocessor_unreference tps])
    /\ enqueues (trace_of (distributor_enqueue E rdata dist tps)) = [].
Proof.
  intros Hclone clone' Hrc. unfold distributor_enqueue. rewrite Hclone.
  apply Z.eqb_neq in Hrc.
  destruct dist as [d|]; subst clone'; unfold deref_local; rewrite ?bind_ret.
  - exists [pjsip_rx_data_clone_call; ao2_bump_endpoint (endpoint d)].
    simpl. rewrite Hrc. simpl. rewrite Hrc. split; reflexivity.
  - exists [pjsip_rx_data_clone_call].
    simpl. rewrite Hrc. simpl. rewrite Hrc. split; reflexivity.
Qed.

(** C3.  [distributor] does not look at the status of [pjsip_rx_data_clone].
    When the clone fails on a message of an annotated dialog, the hook stores
    the endpoint through the unset [clone] pointer: the references on the
    serializer and on the endpoint have been taken and neither is released.
    Out of dialog the unset pointer is pushed as the task's data, and when
    that push fails too it is dereferenced for the cleanup. *)
Theorem clone_failure_is_not_handled :
  distributor Scenario.clone_fails_in_dialog Scenario.ack
  = (Fault IndeterminatePointer,
     [ao2_bump_serializer (Some Scenario.wrk7);
      pjsip_dlg_dec_lock "dlg0x1";
      pjsip_rx_data_clone_call;
      ao2_bump_endpoint (Some Scenario.alice)])
  /\ distributor Scenario.clone_fails Scenario.invite
  = (Ok PJ_TRUE,
     [ao2_bump_serializer (Scenario.pool_slot 14);
      pjsip_rx_data_clone_call;
      ast_sip_push_task_call (Scenario.pool_slot 14) None 0;
      ast_taskprocessor_unreference (Scenario.pool_slot 14)])
  /\ distributor Scenario.clone_and_push_fail Scenario.invite
  = (Fault IndeterminatePointer,
     [ao2_bump_serializer (Scenario.pool_slot 14);
      pjsip_rx_data_clone_call;
      ast_sip_push_task_call (Scenario.pool_slot 14) None 1]).
Proof. repeat split; vm_compute; reflexivity. Qed.

(** ** The bucket of the hash fallback *)

(** C4.  Call-ID "d9am@abzz" with tag "f1" hashes to [INT_MIN], whatever
    the signedness of [char]; [abs] leaves [INT_MIN] as it is, and the
    unsigned remainder of its conversion to [size_t] is 14, where
    [abs(h) mod 31] is 2: the INVITE of the scenario is pushed to pool slot
    14. *)
Theorem bucket_at_INT_MIN :
  (forall sg, distributor_hash sg (bytes_of "d9am@abzz") (bytes_of "f1") = INT_MIN)
  /\ c_abs INT_MIN = INT_MIN
  /\ (forall sg, distributor_bucket sg (bytes_of "d9am@abzz") (bytes_of "f1") = 14)
  /\ (forall sg, spec_bucket sg (bytes_of "d9am@abzz") (bytes_of "f1") = 2)
  /\ ast_sip_get_distributor_serializer Scenario.quiet Scenario.invite_min
     = (Ok (Scenario.pool_slot 14), [ao2_bump_serializer (Scenario.pool_slot 14)]).
Proof.
  repeat split; try (intros []; vm_compute; reflexivity); vm_compute; reflexivity.
Qed.

(** ** Start-up and shutdown *)

Module LifecycleFacts.

Import Lifecycle.

Local Open Scope nat_scope.

Lemma sbind_run {A B} (m : S A) (f : A -> S B) g a g1 t1 :
  m g = ((a, g1), t1) ->
  sbind m f g = (fst (f a g1), t1 ++ snd (f a g1)).
Proof.
  intros H. unfold sbind. rewrite H. destruct (f a g1) as [[b g2] t2]. reflexivity.
Qed.

Lemma set_pool_fields idx v g :
  artificial_auth (set_pool idx v g) = artificial_auth g
  /\ artificial_endpoint (set_pool idx v g) = artificial_endpoint g
  /\ distributor_pool (set_pool idx v g) = <[idx := v]> (distributor_pool g).
Proof. repeat split. Qed.

(** The loop of [distributor_pool_shutdown], from slot [i] for [n] slots. *)
Lemma shutdown_from_spec n : forall i g,
  exists g',
    distributor_pool_shutdown_from n i g
    = ((tt, g'),
       map (fun j => ast_taskprocessor_unreference (mjoin (distributor_pool g !! j)))
           (seq i n))
    /\ artificial_auth g' = artificial_auth g
    /\ artificial_endpoint g' = artificial_endpoint g
    /\ length (distributor_pool g') = length (distributor_pool g)
    /\ forall j, j < length (distributor_pool g) ->
         distributor_pool g' !! j
         = if bool_decide (i <= j < i + n) then Some None else distributor_pool g !! j.
Proof.
  induction n as [|n IH]; intros i g.
  - exists g. repeat split; try reflexivity.
    intros j Hj. rewrite bool_decide_eq_false_2 by lia. reflexivity.
  - destruct (IH (Datatypes.S i) (set_pool i None g)) as (g' & Hrun & Ha & He & Hl & Hp).
    exists g'. split; [|split; [|split; [|split]]].
    + cbn [distributor_pool_shutdown_from]. unfold sbind, read, does, write.
      cbn beta iota. rewrite Hrun. cbn [seq map app]. f_equal. f_equal.
      apply map_ext_in. intros j Hj%in_seq. cbn [set_pool distributor_pool].
      rewrite list_lookup_insert_ne by lia. reflexivity.
    + rewrite Ha. reflexivity.
    + rewrite He. reflexivity.
    + rewrite Hl. cbn [set_pool distributor_pool]. apply length_insert.
    + intros j Hj. rewrite Hp by (cbn [set_pool distributor_pool]; rewrite length_insert; exact Hj).
      cbn [set_pool distributor_pool].
      destruct (decide (j = i)) as [->|Hne].
      * rewrite bool_decide_eq_false_2 by lia.
        rewrite bool_decide_eq_true_2 by lia.
        apply list_lookup_insert_eq. exact Hj.
      * rewrite list_lookup_insert_ne by congruence.
        destruct (decide (i <= j < i + Datatypes.S n)) as [Hin|Hout].
        -- rewrite !bool_decide_eq_true_2 by lia. reflexivity.
        -- rewrite !bool_decide_eq_false_2 by lia. reflexivity.
Qed.

Lemma pool_all_null (pool : list (option ast_taskprocessor)) n :
  length pool = n ->
  (forall j, j < n -> pool !! j = Some None) ->
  pool = replicate n None.
Proof.
  intros Hlen Hall. apply list_eq. intros j.
  destruct (decide (j < n)) as [Hj|Hj].
  - rewrite Hall by exact Hj. symmetry. apply lookup_replicate_2. exact Hj.
  - rewrite (lookup_ge_None_2 pool) by lia.
    symmetry. apply lookup_replicate_None. lia.
Qed.

Lemma omap_ext_in {A B} (f g : A -> option B) (l : list A) :
  (forall x, In x l -> f x = g x) -> omap f l = omap g l.
Proof.
  induction l as [|x l IH]; intros H; [reflexivity|].
  cbn. rewrite (H x) by (left; reflexivity).
  rewrite IH by (intros y Hy; apply H; right; exact Hy). reflexivity.
Qed.

Lemma unreferenced_app t1 t2 : unreferenced (t1 ++ t2) = unreferenced t1 ++ unreferenced t2.
Proof. apply omap_app. Qed.

Lemma created_app t1 t2 : created (t1 ++ t2) = created t1 ++ created t2.
Proof. apply omap_app. Qed.

Lemma registered_app t1 t2 : registered (t1 ++ t2) = registered t1 ++ registered t2.
Proof. apply omap_app. Qed.

Lemma unregistered_app t1 t2 :
  unregistered (t1 ++ t2) = unregistered t1 ++ unregistered t2.
Proof. apply omap_app. Qed.

Lemma release_calls_views pool i n :
  created (release_calls pool i n) = []
  /\ registered (release_calls pool i n) = []
  /\ unregistered (release_calls pool i n) = []
  /\ unreferenced (release_calls pool i n)
     = omap (fun j => mjoin (pool !! j)) (seq i n).
Proof.
  unfold release_calls. revert i. induction n as [|n IH]; intros i.
  - repeat split.
  - destruct (IH (Datatypes.S i)) as (H1 & H2 & H3 & H4).
    cbn [seq map]. repeat split; try assumption.
    cbn. unfold unreferenced in H4. rewrite H4. reflexivity.
Qed.

Lemma release_calls_whole (pool : list (option ast_taskprocessor)) :
  release_calls pool 0 (length pool) = map ast_taskprocessor_unreference pool.
Proof.
  unfold release_calls.
  enough (H : forall pre l,
             map (fun j => ast_taskprocessor_unreference (mjoin ((pre ++ l) !! j)))
                 (seq (length pre) (length l))
             = map ast_taskprocessor_unreference l)
    by exact (H [] pool).
  intros pre l. revert pre. induction l as [|x l IH]; intros pre; [reflexivity|].
  cbn [length seq map]. rewrite list_lookup_middle by reflexivity. f_equal.
  specialize (IH (pre ++ [x])). rewrite length_app, Nat.add_1_r in IH.
  rewrite <- app_assoc in IH. exact IH.
Qed.

Lemma unreferenced_release_whole (pool : list (option ast_taskprocessor)) :
  length pool = 31 -> unreferenced (release_calls pool 0 31) = omap id pool.
Proof.
  intros Hlen. pose proof (release_calls_whole pool) as Hw.
  rewrite Hlen in Hw. rewrite Hw. clear.
  induction pool as [|[x|] l IH]; [reflexivity| |exact IH].
  change (unreferenced (map ast_taskprocessor_unreference (Some x :: l)))
    with (x :: unreferenced (map ast_taskprocessor_unreference l)).
  rewrite IH. reflexivity.
Qed.

Lemma destroy_spec (g : globals) :
  length (distributor_pool g) = 31 ->
  ast_sip_destroy_distributor g
  = ((tt, {| distributor_pool := replicate 31 None;
             artificial_auth := artificial_auth g;
             artificial_endpoint := artificial_endpoint g |}),
     [internal_sip_unregister_service auth_mod_name;
      internal_sip_unregister_service endpoint_mod_name;
      internal_sip_unregister_service distributor_mod_name;
      ao2_cleanup_auth (artificial_auth g);
      ao2_cleanup_endpoint (artificial_endpoint g)]
     ++ release_calls (distributor_pool g) 0 31).
Proof.
  intros Hlen.
  destruct (shutdown_from_spec 31 0 g) as (g' & Hrun & Ha & He & Hl & Hp).
  unfold ast_sip_destroy_distributor, distributor_pool_shutdown.
  change (Z.to_nat ARRAY_LEN_distributor_pool) with 31.
  unfold sbind, does, read. cbn beta iota. rewrite Hrun.
  assert (Hpool : distributor_pool g' = replicate 31 None).
  { apply pool_all_null; [lia|]. intros j Hj.
    rewrite Hp by lia. rewrite bool_decide_eq_true_2 by lia. reflexivity. }
  destruct g' as [pool' auth' ep']. cbn in Ha, He, Hpool. subst. reflexivity.
Qed.

Section Start.

Variable C : services.

(** The loop of [distributor_pool_setup], from slot [i] for at most [n]
    slots: it makes [m] attempts, all successful but possibly the last. *)
Lemma setup_from_spec n : forall i g,
  exists m rc g',
    distributor_pool_setup_from C n i g
    = ((rc, g'), map (make_call C) (seq i m))
    /\ m <= n
    /\ artificial_auth g' = artificial_auth g
    /\ artificial_endpoint g' = artificial_endpoint g
    /\ length (distributor_pool g') = length (distributor_pool g)
    /\ (forall j, j < length (distributor_pool g) ->
          distributor_pool g' !! j
          = if bool_decide (i <= j < i + m) then Some (made C j)
            else distributor_pool g !! j)
    /\ ((rc = 0%Z /\ m = n /\ forall j, i <= j < i + n -> made C j <> None)
        \/ (rc = (-1)%Z /\ 1 <= m /\ made C (i + m - 1) = None
            /\ forall j, i <= j < i + m - 1 -> made C j <> None)).
Proof.
  induction n as [|n IH]; intros i g.
  - exists 0, 0%Z, g. repeat split; try reflexivity; try lia.
    + intros j Hj. rewrite bool_decide_eq_false_2 by lia. reflexivity.
    + left. repeat split. intros j Hj. lia.
  - cbn [distributor_pool_setup_from]. unfold sbind, does, write. cbn beta iota.
    fold (made C i).
    destruct (made C i) as [tps|] eqn:Hmade.
    + destruct (IH (Datatypes.S i) (set_pool i (Some tps) g))
        as (m & rc & g' & Hrun & Hm & Ha & He & Hl & Hp & Hrc).
      exists (Datatypes.S m), rc, g'. rewrite Hrun.
      cbn [set_pool distributor_pool artificial_auth artificial_endpoint] in *.
      rewrite length_insert in Hl, Hp.
      split; [|split; [lia|split; [exact Ha|split; [exact He|split; [exact Hl|split]]]]].
      * cbn [seq map app].
        replace (make_call C i)
          with (ast_sip_create_serializer_named (built_name C i) (Some tps))
          by (unfold make_call; rewrite Hmade; reflexivity).
        reflexivity.
      * intros j Hj. rewrite Hp by exact Hj.
        destruct (decide (j = i)) as [->|Hne].
        -- rewrite bool_decide_eq_false_2 by lia.
           rewrite bool_decide_eq_true_2 by lia.
           rewrite list_lookup_insert_eq by exact Hj. rewrite Hmade. reflexivity.
        -- rewrite list_lookup_insert_ne by congruence.
           destruct (decide (i <= j < i + Datatypes.S m)) as [Hin|Hout].
           ++ rewrite !bool_decide_eq_true_2 by lia. reflexivity.
           ++ rewrite !bool_decide_eq_false_2 by lia. reflexivity.
      * destruct Hrc as [(-> & -> & Hall)|(-> & Hm1 & Hlast & Hall)].
        -- left. repeat split. intros j Hj.
           destruct (decide (j = i)) as [->|Hne]; [congruence|apply Hall; lia].
        -- right. repeat split; [lia| |].
           ++ replace (i + Datatypes.S m - 1) with (Datatypes.S i + m - 1) by lia.
              exact Hlast.
           ++ intros j Hj.
              destruct (decide (j = i)) as [->|Hne]; [congruence|apply Hall; lia].
    + exists 1, (-1)%Z, (set_pool i None g).
      cbn [set_pool distributor_pool artificial_auth artificial_endpoint].
      split; [|split; [lia|split; [reflexivity|split; [reflexivity|split;
        [apply length_insert|split]]]]].
      * cbn [seq map app].
        replace (make_call C i)
          with (ast_sip_create_serializer_named (built_name C i) None)
          by (unfold make_call; rewrite Hmade; reflexivity).
        reflexivity.
      * intros j Hj. destruct (decide (j = i)) as [->|Hne].
        -- rewrite bool_decide_eq_true_2 by lia.
           rewrite list_lookup_insert_eq by exact Hj. rewrite Hmade. reflexivity.
        -- rewrite bool_decide_eq_false_2 by lia.
           apply list_lookup_insert_ne. congruence.
      * right. repeat split; [lia| |intros j Hj; lia].
        replace (i + 1 - 1) with i by lia. exact Hmade.
Qed.

Lemma make_calls_views l :
  created (map (make_call C) l) = omap (made C) l
  /\ unreferenced (map (make_call C) l) = []
  /\ registered (map (make_call C) l) = []
  /\ unregistered (map (make_call C) l) = [].
Proof.
  induction l as [|j l (H1 & H2 & H3 & H4)]; [repeat split|].
  cbn [map]. repeat split; try assumption.
  unfold created in *. cbn. rewrite H1. reflexivity.
Qed.

Lemma fail_init_spec (g : globals) :
  length (distributor_pool g) = 31 ->
  fail_init g
  = (((-1)%Z, {| distributor_pool := replicate 31 None;
                 artificial_auth := artificial_auth g;
                 artificial_endpoint := artificial_endpoint g |}),
     [internal_sip_unregister_service auth_mod_name;
      internal_sip_unregister_service endpoint_mod_name;
      internal_sip_unregister_service distributor_mod_name;
      ao2_cleanup_auth (artificial_auth g);
      ao2_cleanup_endpoint (artificial_endpoint g)]
     ++ release_calls (distributor_pool g) 0 31).
Proof.
  intros Hlen. unfold fail_init, sbind, sret. rewrite (destroy_spec g Hlen).
  rewrite app_nil_r. reflexivity.
Qed.

(** The pool of a set-up that stopped after [m] attempts releases what
    those attempts made, and nothing else. *)
Lemma released_is_created (pool : list (option ast_taskprocessor)) m :
  m <= 31 ->
  (forall j, j < 31 ->
     pool !! j = if bool_decide (0 <= j < 0 + m) then Some (made C j) else Some None) ->
  omap (fun j => mjoin (pool !! j)) (seq 0 31) = omap (made C) (seq 0 m).
Proof.
  intros Hm Hp.
  replace 31 with (m + (31 - m)) at 1 by lia.
  rewrite seq_app, omap_app.
  rewrite (omap_ext_in _ (made C) (seq 0 m)).
  2: { intros j Hj%in_seq. rewrite Hp by lia.
       rewrite bool_decide_eq_true_2 by lia. reflexivity. }
  rewrite (omap_ext_in _ (fun _ => None) (seq (0 + m) (31 - m))).
  2: { intros j Hj%in_seq. rewrite Hp by lia.
       rewrite bool_decide_eq_false_2 by lia. reflexivity. }
  rewrite <- (app_nil_r (omap (made C) (seq 0 m))) at 2. f_equal.
  generalize (seq (0 + m) (31 - m)). intros l. induction l; [reflexivity|exact IHl].
Qed.

Lemma loaded_pool j : j < 31 -> distributor_pool loaded !! j = Some None.
Proof. intros Hj. apply lookup_replicate_2. exact Hj. Qed.

(** What [ast_sip_initialize_distributor] does on a freshly loaded module. *)
Lemma init_outcome :
  (all_succeed C
   /\ exists t,
        ast_sip_initialize_distributor C loaded = ((0%Z, started C), t)
        /\ created t = omap (made C) (seq 0 31)
        /\ registered t = [distributor_mod_name; endpoint_mod_name; auth_mod_name]
        /\ unregistered t = []
        /\ unreferenced t = [])
  \/ (~ all_succeed C
      /\ exists g' t,
           ast_sip_initialize_distributor C loaded = (((-1)%Z, g'), t)
           /\ distributor_pool g' = replicate 31 None
           /\ unregistered t = [auth_mod_name; endpoint_mod_name; distributor_mod_name]
           /\ unreferenced t = created t).
Proof.
  destruct (setup_from_spec 31 0 loaded)
    as (m & rc & g1 & Hrun & Hm & Ha & He & Hl & Hp & Hrc).
  change (length (distributor_pool loaded)) with 31 in Hl, Hp.
  assert (Hp' : forall j, j < 31 ->
            distributor_pool g1 !! j
            = if bool_decide (0 <= j < 0 + m) then Some (made C j) else Some None).
  { intros j Hj. rewrite Hp by exact Hj. rewrite loaded_pool by exact Hj. reflexivity. }
  destruct (make_calls_views (seq 0 m)) as (Hc1 & Hc2 & Hc3 & Hc4).
  destruct (release_calls_views (distributor_pool g1) 0 31) as (Hr1 & Hr2 & Hr3 & Hr4).
  rewrite (released_is_created _ m Hm Hp') in Hr4.
  unfold ast_sip_initialize_distributor, distributor_pool_setup.
  change (Z.to_nat ARRAY_LEN_distributor_pool) with 31.
  rewrite (sbind_run _ _ _ _ _ _ Hrun).
  destruct g1 as [pool1 auth1 ep1].
  cbn [artificial_auth artificial_endpoint distributor_pool loaded]
    in Ha, He, Hl, Hp', Hr1, Hr2, Hr3, Hr4.
  subst auth1 ep1.
  assert (Hfail : forall auth ep,
            fail_init {| distributor_pool := pool1; artificial_auth := auth;
                         artificial_endpoint := ep |}
            = (((-1)%Z, {| distributor_pool := replicate 31 None;
                           artificial_auth := auth; artificial_endpoint := ep |}),
               [internal_sip_unregister_service auth_mod_name;
                internal_sip_unregister_service endpoint_mod_name;
                internal_sip_unregister_service distributor_mod_name;
                ao2_cleanup_auth auth; ao2_cleanup_endpoint ep]
               ++ release_calls pool1 0 31)).
  { intros auth ep.
    exact (fail_init_spec {| distributor_pool := pool1; artificial_auth := auth;
                             artificial_endpoint := ep |} Hl). }
  clear Hrun Hp.
  remember (release_calls pool1 0 31) as R eqn:HR.
  remember (map (make_call C) (seq 0 m)) as T0 eqn:HT0.
  remember (omap (made C) (seq 0 m)) as K eqn:HK.
  assert (Hunwind : forall st tail,
            distributor_pool st = replicate 31 None ->
            created tail = [] ->
            unreferenced tail = K ->
            unregistered tail
            = [auth_mod_name; endpoint_mod_name; distributor_mod_name] ->
            exists g' t,
              (((-1)%Z, st), T0 ++ tail) = (((-1)%Z, g'), t)
              /\ distributor_pool g' = replicate 31 None
              /\ unregistered t
                 = [auth_mod_name; endpoint_mod_name; distributor_mod_name]
              /\ unreferenced t = created t).
  { intros st tail Hst H1 H2 H3. exists st, (T0 ++ tail).
    split; [reflexivity|]. split; [exact Hst|].
    rewrite !unregistered_app, !unreferenced_app, !created_app,
      Hc1, Hc2, Hc4, H1, H2, H3.
    split; [reflexivity|]. rewrite app_nil_r. reflexivity. }
  assert (Hviews : created R = [] /\ unreferenced R = K /\ unregistered R = [])
    by (repeat split; assumption).
  destruct Hrc as [(-> & -> & Hall)|(-> & Hm1 & Hlast & Hall)].
  2: { right. split.
       - intros (Hmade & _). apply (Hmade (0 + m - 1)); [lia|exact Hlast].
       - cbn [Z.eqb negb]. rewrite Hfail. cbn [fst snd].
         apply Hunwind; [reflexivity|..];
           rewrite ?created_app, ?unreferenced_app, ?unregistered_app,
             ?Hr1, ?Hr3, ?Hr4; reflexivity. }
  assert (Hpool : pool1 = map (made C) (seq 0 31)).
  { apply list_eq. intros j. destruct (decide (j < 31)) as [Hj|Hj].
    - rewrite Hp' by exact Hj. rewrite bool_decide_eq_true_2 by lia.
      symmetry. change (map (made C) (seq 0 31)) with (made C <$> seq 0 31).
      rewrite list_lookup_fmap, lookup_seq_lt by exact Hj. reflexivity.
    - rewrite lookup_ge_None_2 by lia. symmetry. apply lookup_ge_None_2.
      rewrite length_map, length_seq. lia. }
  cbn [Z.eqb negb].
  unfold either_fails, create_artificial_endpoint, create_artificial_auth,
    on_artificial_auth, register.
  destruct (allocated_endpoint C) as [ep|] eqn:Hep.
  2: { right. split; [intros (_ & H & _); congruence|].
       cbn [sbind does write read sret Z.eqb negb fst snd].
       unfold set_artificial_endpoint, set_artificial_auth.
       cbn [distributor_pool artificial_auth artificial_endpoint].
       rewrite Hfail. cbn [fst snd].
       apply Hunwind; [reflexivity|..];
         rewrite ?created_app, ?unreferenced_app, ?unregistered_app,
           ?Hr1, ?Hr3, ?Hr4; reflexivity. }
  destruct (allocated_auth C) as [auth|] eqn:Hauth.
  2: { right. split; [intros (_ & _ & H & _); congruence|].
       cbn [sbind does write read sret Z.eqb negb fst snd].
       unfold set_artificial_endpoint, set_artificial_auth.
       cbn [distributor_pool artificial_auth artificial_endpoint].
       rewrite Hfail. cbn [fst snd].
       apply Hunwind; [reflexivity|..];
         rewrite ?created_app, ?unreferenced_app, ?unregistered_app,
           ?Hr1, ?Hr3, ?Hr4; reflexivity. }
  cbn [sbind does write read sret Z.eqb negb fst snd].
  unfold set_artificial_endpoint, set_artificial_auth.
  cbn [distributor_pool artificial_auth artificial_endpoint
       fmap option_fmap option_map].
  destruct (Z.eqb_spec (register_status C distributor_mod_name) 0) as [Hd|Hd].
  2: { right. split; [intros (_ & _ & _ & H & _); congruence|].
       cbn [negb]. rewrite Hfail. cbn [fst snd].
       apply Hunwind; [reflexivity|..];
         rewrite ?created_app, ?unreferenced_app, ?unregistered_app,
           ?Hr1, ?Hr3, ?Hr4; reflexivity. }
  cbn [sbind does write read sret Z.eqb negb fst snd].
  destruct (Z.eqb_spec (register_status C endpoint_mod_name) 0) as [Hen|Hen].
  2: { right. split; [intros (_ & _ & _ & _ & H & _); congruence|].
       cbn [negb]. rewrite Hfail. cbn [fst snd].
       apply Hunwind; [reflexivity|..];
         rewrite ?created_app, ?unreferenced_app, ?unregistered_app,
           ?Hr1, ?Hr3, ?Hr4; reflexivity. }
  cbn [sbind does write read sret Z.eqb negb fst snd].
  destruct (Z.eqb_spec (register_status C auth_mod_name) 0) as [Hau|Hau].
  2: { right. split; [intros (_ & _ & _ & _ & _ & H); congruence|].
       cbn [negb]. rewrite Hfail. cbn [fst snd].
       apply Hunwind; [reflexivity|..];
         rewrite ?created_app, ?unreferenced_app, ?unregistered_app,
           ?Hr1, ?Hr3, ?Hr4; reflexivity. }
  left. split.
  - repeat split; try congruence. intros idx Hidx. apply Hall. lia.
  - cbn [sbind does write read sret Z.eqb negb fst snd].
    unfold started. rewrite Hep, <- Hpool. eexists. split; [reflexivity|].
    rewrite <- HK.
    rewrite !created_app, !registered_app, !unregistered_app, !unreferenced_app,
      Hc1, Hc2, Hc3, Hc4, Hd, Hen, Hau.
    repeat split; try reflexivity.
    cbn. apply app_nil_r.
Qed.

(** X16.  [distributor_pool_setup] makes its attempts in slot order and stops
    at the first serializer that cannot be created: it returns 0 exactly when
    all 31 can be created, and otherwise -1 after [m] attempts of which only
    the last failed; the first [m] slots hold what the attempts returned
    (the last one NULL on failure) and the slots behind them are not
    written; the artificial objects are not touched. *)
Theorem pool_setup_result (g : globals) :
  exists m rc g',
    distributor_pool_setup C g = ((rc, g'), map (make_call C) (seq 0 m))
    /\ (rc = 0%Z <-> forall j, j < 31 -> made C j <> None)
    /\ (rc = 0%Z /\ m = 31
        \/ rc = (-1)%Z /\ 1 <= m <= 31 /\ made C (m - 1) = None)
    /\ (forall j, j < m - 1 -> made C j <> None)
    /\ (forall j, j < length (distributor_pool g) ->
          distributor_pool g' !! j
          = if bool_decide (j < m) then Some (made C j) else distributor_pool g !! j)
    /\ artificial_auth g' = artificial_auth g
    /\ artificial_endpoint g' = artificial_endpoint g.
Proof.
  destruct (setup_from_spec 31 0 g)
    as (m & rc & g' & Hrun & Hm & Ha & He & Hl & Hp & Hrc).
  exists m, rc, g'. split; [exact Hrun|].
  split; [|split; [|split; [|split; [|split; [exact Ha|exact He]]]]].
  - destruct Hrc as [(-> & -> & Hall)|(-> & Hm1 & Hlast & Hall)].
    + split; [intros _ j Hj; apply Hall; lia|reflexivity].
    + split; [discriminate|]. intros Hall'. exfalso.
      apply (Hall' (0 + m - 1)); [lia|exact Hlast].
  - destruct Hrc as [(-> & -> & Hall)|(-> & Hm1 & Hlast & Hall)].
    + left. split; reflexivity.
    + right. repeat split; try lia. exact Hlast.
  - intros j Hj. destruct Hrc as [(-> & -> & Hall)|(-> & Hm1 & Hlast & Hall)];
      apply Hall; lia.
  - intros j Hj. rewrite Hp by exact Hj.
    destruct (decide (j < m)) as [Hlt|Hge].
    + rewrite !bool_decide_eq_true_2 by lia. reflexivity.
    + rewrite !bool_decide_eq_false_2 by lia. reflexivity.
Qed.

(** X17.  On a freshly loaded module [ast_sip_initialize_distributor]
    returns 0 exactly when every step succeeds (31 serializers, the
    artificial endpoint, the artificial auth, three registrations), and -1
    otherwise. *)
Theorem initialize_succeeds_iff :
  (fst (fst (ast_sip_initialize_distributor C loaded)) = 0%Z <-> all_succeed C)
  /\ (fst (fst (ast_sip_initialize_distributor C loaded)) = 0%Z
      \/ fst (fst (ast_sip_initialize_distributor C loaded)) = (-1)%Z).
Proof.
  destruct init_outcome as [(Hall & t & Hrun & _)|(Hnot & g' & t & Hrun & _)];
    rewrite Hrun; cbn [fst]; split.
  - split; [intros _; exact Hall|reflexivity].
  - left. reflexivity.
  - split; [discriminate|intros Hall; contradiction].
  - right. reflexivity.
Qed.

(** X18.  When every step succeeds, start-up leaves every pool slot holding
    the serializer made for it, the artificial auth with realm "asterisk",
    empty user and password and type ARTIFICIAL, the artificial endpoint as
    allocated; the three modules are registered in the order distributor,
    endpoint identifier, authenticator, and nothing is unregistered or
    released. *)
Theorem initialize_success_state :
  all_succeed C ->
  exists t,
    ast_sip_initialize_distributor C loaded = ((0%Z, started C), t)
    /\ (forall j, j < 31 ->
          exists tps, made C j = Some tps
                      /\ distributor_pool (started C) !! j = Some (Some tps))
    /\ registered t = [distributor_mod_name; endpoint_mod_name; auth_mod_name]
    /\ unregistered t = []
    /\ unreferenced t = [].
Proof.
  intros Hall.
  destruct init_outcome as [(_ & t & Hrun & _ & Hreg & Hunreg & Hunref)|(Hnot & _)];
    [|contradiction].
  exists t. split; [exact Hrun|]. split; [|repeat split; assumption].
  intros j Hj. destruct Hall as (Hmade & _).
  destruct (made C j) as [tps|] eqn:Hj'; [|exfalso; exact (Hmade j Hj Hj')].
  exists tps. split; [reflexivity|]. unfold started. cbn [distributor_pool].
  change (map (made C) (seq 0 31)) with (made C <$> seq 0 31).
  rewrite list_lookup_fmap, lookup_seq_lt by exact Hj. cbn. rewrite Hj'. reflexivity.
Qed.

(** X19.  When some step fails, start-up returns -1 having undone what it
    did: every pool slot is NULL again, the three modules are unregistered
    (authenticator, endpoint identifier, distributor), and the serializers
    released are exactly the serializers that were created, in slot order. *)
Theorem initialize_failure_unwinds :
  ~ all_succeed C ->
  exists g' t,
    ast_sip_initialize_distributor C loaded = (((-1)%Z, g'), t)
    /\ distributor_pool g' = replicate 31 None
    /\ unregistered t = [auth_mod_name; endpoint_mod_name; distributor_mod_name]
    /\ unreferenced t = created t.
Proof.
  intros Hnot.
  destruct init_outcome as [(Hall & _)|(_ & g' & t & H)]; [contradiction|].
  exists g', t. exact H.
Qed.

End Start.

Lemma healthy_all_succeed : all_succeed healthy.
Proof.
  repeat split; try discriminate.
Qed.

Lemma starved_not_all_succeed : ~ all_succeed starved.
Proof. intros (H & _). apply (H 5); [lia|reflexivity]. Qed.

Lemma initialize_success_state_witness :
  exists t,
    ast_sip_initialize_distributor healthy loaded = ((0%Z, started healthy), t)
    /\ (forall j, j < 31 ->
          exists tps, made healthy j = Some tps
                      /\ distributor_pool (started healthy) !! j = Some (Some tps))
    /\ registered t = [distributor_mod_name; endpoint_mod_name; auth_mod_name]
    /\ unregistered t = []
    /\ unreferenced t = [].
Proof.
  apply (initialize_success_state healthy).
  repeat split; try discriminate.
Defined.

Lemma initialize_failure_unwinds_witness :
  exists g' t,
    ast_sip_initialize_distributor starved loaded = (((-1)%Z, g'), t)
    /\ distributor_pool g' = replicate 31 None
    /\ unregistered t = [auth_mod_name; endpoint_mod_name; distributor_mod_name]
    /\ unreferenced t = created t.
Proof.
  apply (initialize_failure_unwinds starved).
  intros (H & _). apply (H 5); [lia|reflexivity].
Defined.

(** X20.  [distributor_pool_shutdown] releases each of the 31 slots once, in
    slot order, NULL slots included, and leaves every slot NULL; the
    artificial objects are not touched. *)
Theorem pool_shutdown_clears (g : globals) :
  length (distributor_pool g) = 31 ->
  distributor_pool_shutdown g
  = ((tt, {| distributor_pool := replicate 31 None;
             artificial_auth := artificial_auth g;
             artificial_endpoint := artificial_endpoint g |}),
     map ast_taskprocessor_unreference (distributor_pool g)).
Proof.
  intros Hlen.
  destruct (shutdown_from_spec 31 0 g) as (g' & Hrun & Ha & He & Hl & Hp).
  unfold distributor_pool_shutdown.
  change (Z.to_nat ARRAY_LEN_distributor_pool) with 31. rewrite Hrun.
  assert (Hpool : distributor_pool g' = replicate 31 None).
  { apply pool_all_null; [lia|]. intros j Hj.
    rewrite Hp by lia. rewrite bool_decide_eq_true_2 by lia. reflexivity. }
  pose proof (release_calls_whole (distributor_pool g)) as Hcalls.
  unfold release_calls in Hcalls. rewrite Hlen in Hcalls. rewrite Hcalls.
  destruct g' as [pool' auth' ep']. cbn in Ha, He, Hpool. subst. reflexivity.
Qed.

Lemma pool_shutdown_clears_witness :
  distributor_pool (snd (fst (distributor_pool_shutdown (started healthy))))
  = replicate 31 None
  /\ unreferenced (snd (distributor_pool_shutdown (started healthy)))
     = omap (made healthy) (seq 0 31).
Proof.
  rewrite (pool_shutdown_clears (started healthy) eq_refl).
  split; vm_compute; reflexivity.
Defined.

(** X21.  [ast_sip_destroy_distributor] does not reset [artificial_auth] and
    [artificial_endpoint]: run twice in a row, it unregisters the modules
    twice and passes the same two objects to [ao2_cleanup] a second time,
    while the pool slots, which it does reset, are released only by the
    first run. *)
Theorem destroy_twice (g : globals) :
  length (distributor_pool g) = 31 ->
  exists g1 t1 g2 t2,
    ast_sip_destroy_distributor g = ((tt, g1), t1)
    /\ ast_sip_destroy_distributor g1 = ((tt, g2), t2)
    /\ g2 = g1
    /\ artificial_auth g1 = artificial_auth g
    /\ artificial_endpoint g1 = artificial_endpoint g
    /\ distributor_pool g1 = replicate 31 None
    /\ firstn 5 t2 = firstn 5 t1
    /\ firstn 5 t1
       = [internal_sip_unregister_service auth_mod_name;
          internal_sip_unregister_service endpoint_mod_name;
          internal_sip_unregister_service distributor_mod_name;
          ao2_cleanup_auth (artificial_auth g);
          ao2_cleanup_endpoint (artificial_endpoint g)]
    /\ unreferenced t1 = omap id (distributor_pool g)
    /\ unreferenced t2 = [].
Proof.
  intros Hlen. rewrite (destroy_spec g Hlen).
  eexists _, _.
  rewrite (destroy_spec {| distributor_pool := replicate 31 None;
                           artificial_auth := artificial_auth g;
                           artificial_endpoint := artificial_endpoint g |} eq_refl).
  eexists _, _. split; [reflexivity|]. split; [reflexivity|].
  cbn [artificial_auth artificial_endpoint distributor_pool].
  split; [reflexivity|]. split; [reflexivity|]. split; [reflexivity|].
  split; [reflexivity|]. split; [reflexivity|]. split; [reflexivity|].
  rewrite !unreferenced_app. split.
  - rewrite (unreferenced_release_whole _ Hlen). reflexivity.
  - rewrite (unreferenced_release_whole (replicate 31 None) eq_refl).
    vm_compute. reflexivity.
Qed.

Lemma destroy_twice_witness :
  exists g1 t1 g2 t2,
    ast_sip_destroy_distributor (started healthy) = ((tt, g1), t1)
    /\ ast_sip_destroy_distributor g1 = ((tt, g2), t2)
    /\ g2 = g1
    /\ artificial_auth g1 = artificial_auth (started healthy)
    /\ artificial_endpoint g1 = artificial_endpoint (started healthy)
    /\ distributor_pool g1 = replicate 31 None
    /\ firstn 5 t2 = firstn 5 t1
    /\ firstn 5 t1
       = [internal_sip_unregister_service auth_mod_name;
          internal_sip_unregister_service endpoint_mod_name;
          internal_sip_unregister_service distributor_mod_name;
          ao2_cleanup_auth (artificial_auth (started healthy));
          ao2_cleanup_endpoint (artificial_endpoint (started healthy))]
    /\ unreferenced t1 = omap id (distributor_pool (started healthy))
    /\ unreferenced t2 = [].
Proof. exact (destroy_twice (started healthy) eq_refl). Defined.

End LifecycleFacts.

(** ** Further properties of the hash *)

Lemma pjstr_hash_add_chain sg a b h :
  pjstr_hash_add sg (a ++ b) h = pjstr_hash_add sg b (pjstr_hash_add sg a h).
Proof. revert h. induction a as [|c a IH]; intros h; [reflexivity|apply IH]. Qed.

(** X1.  [pjstr_hash_add] over two strings in a row is [pjstr_hash_add] over
    their concatenation, so the bucket of (Call-ID, tag) depends on the
    concatenated bytes only: moving bytes between the end of the Call-ID and
    the start of the tag does not change the bucket. *)
Theorem hash_of_concatenation (sg : bool) :
  (forall a b h,
     pjstr_hash_add sg (a ++ b) h = pjstr_hash_add sg b (pjstr_hash_add sg a h))
  /\ (forall cid tag cid' tag',
        cid ++ tag = cid' ++ tag' ->
        distributor_bucket sg cid tag = distributor_bucket sg cid' tag').
Proof.
  split; [intros a b h; apply pjstr_hash_add_chain|].
  intros cid tag cid' tag' Heq. unfold distributor_bucket, distributor_hash, pjstr_hash.
  rewrite <- !pjstr_hash_add_chain, Heq. reflexivity.
Qed.

Lemma hash_of_concatenation_witness :
  distributor_bucket true (bytes_of "a@x") (bytes_of "f1")
  = distributor_bucket true (bytes_of "a@") (bytes_of "xf1").
Proof. apply (proj2 (hash_of_concatenation true)). reflexivity. Defined.

(** X2.  With the 31 slots of the pool in place,
    [ast_sip_get_distributor_serializer] never reads outside the pool: on a
    buffer without message it returns NULL and bumps nothing; otherwise it
    returns the slot of the bucket of (Call-ID, from-tag) for a request and
    (Call-ID, to-tag) for a response, and bumps exactly that slot. *)
Theorem hash_fallback_in_bounds (E : env) (rdata : pjsip_rx_data) :
  length (distributor_pool E) = 31%nat ->
  ast_sip_get_distributor_serializer E rdata
  = match msg_info_msg rdata with
    | None => (Ok None, [])
    | Some msg =>
        let tag := if is_response msg then msg_info_to_tag rdata
                   else msg_info_from_tag rdata in
        (Ok (pool_serializer E (msg_info_cid rdata) tag),
         [ao2_bump_serializer (pool_serializer E (msg_info_cid rdata) tag)])
    end.
Proof.
  intros Hlen. unfold ast_sip_get_distributor_serializer.
  destruct (msg_info_msg rdata) as [[method|code]|]; [| |reflexivity]; cbn [is_response].
  - destruct (pool_lookup E (msg_info_cid rdata) (msg_info_from_tag rdata) Hlen)
      as (slot & -> & ->). reflexivity.
  - destruct (pool_lookup E (msg_info_cid rdata) (msg_info_to_tag rdata) Hlen)
      as (slot & -> & ->). reflexivity.
Qed.

Lemma hash_fallback_in_bounds_witness :
  ast_sip_get_distributor_serializer Scenario.quiet Scenario.ok200
  = (Ok (pool_serializer Scenario.quiet (bytes_of "b@y") (bytes_of "t2")),
     [ao2_bump_serializer (pool_serializer Scenario.quiet (bytes_of "b@y") (bytes_of "t2"))]).
Proof. exact (hash_fallback_in_bounds Scenario.quiet Scenario.ok200 eq_refl). Defined.

(** ** Further properties of the transmit hook *)

Lemma record_serializer_cases (E : env) (tdata : pjsip_tx_data) :
  fst (record_serializer E tdata) = tdata
  \/ exists s,
       ast_threadpool_serializer_get_current E = Some s
       /\ tps_name s <> ""
       /\ tdata_mod_data tdata !! distributor_mod_id E <> Some (tps_name s)
       /\ fst (record_serializer E tdata)
          = {| tdata_pool := tdata_pool tdata ++ [(String.length (tps_name s) + 1)%nat];
               tdata_mod_data :=
                 <[distributor_mod_id E := tps_name s]> (tdata_mod_data tdata) |}.
Proof.
  unfold record_serializer, ast_taskprocessor_name.
  destruct (ast_threadpool_serializer_get_current E) as [s|]; [|left; reflexivity].
  rewrite strlen_zero_name.
  destruct (decide (tps_name s = "")) as [He|Hne].
  { rewrite bool_decide_eq_true_2 by exact He. left. reflexivity. }
  rewrite bool_decide_eq_false_2 by exact Hne. cbn [negb andb fst].
  destruct (tdata_mod_data tdata !! distributor_mod_id E) as [stored|] eqn:Hst.
  - destruct (Z.eqb_spec (strcmp stored (tps_name s)) 0) as [H0|H0]; cbn [negb].
    + left. reflexivity.
    + right. exists s. repeat split; try assumption.
      intros [= ->]. apply H0, strcmp_zero. reflexivity.
  - right. exists s. repeat split; try assumption. discriminate.
Qed.

(** X3.  [record_serializer] is idempotent: run again on the buffer it
    returned, under the same current serializer, it changes nothing and
    takes nothing more from the arena. *)
Theorem record_serializer_idempotent (E : env) (tdata : pjsip_tx_data) :
  fst (record_serializer E (fst (record_serializer E tdata)))
  = fst (record_serializer E tdata).
Proof.
  destruct (record_serializer_cases E tdata) as [Hsame|(s & Hs & Hne & Hslot & Hnew)].
  - rewrite Hsame. exact Hsame.
  - rewrite Hnew.
    destruct (record_serializer_cases E
                {| tdata_pool := tdata_pool tdata ++ [(String.length (tps_name s) + 1)%nat];
                   tdata_mod_data :=
                     <[distributor_mod_id E := tps_name s]> (tdata_mod_data tdata) |})
      as [Hsame|(s' & Hs' & _ & Hslot' & _)]; [exact Hsame|].
    exfalso. rewrite Hs in Hs'. injection Hs' as <-.
    apply Hslot'. cbn [tdata_mod_data]. apply lookup_insert_eq.
Qed.

(** X4.  [record_serializer] writes no slot but the distributor's, never
    shrinks or rewrites the arena (it appends at most one block), and the
    name it leaves in the slot is either the one that was there or the
    non-empty name of the current serializer. *)
Theorem record_serializer_frame (E : env) (tdata : pjsip_tx_data) :
  let tdata' := fst (record_serializer E tdata) in
  (forall id, id <> distributor_mod_id E ->
     tdata_mod_data tdata' !! id = tdata_mod_data tdata !! id)
  /\ (exists blocks, tdata_pool tdata' = tdata_pool tdata ++ blocks
                     /\ (length blocks <= 1)%nat)
  /\ (tdata_mod_data tdata' !! distributor_mod_id E
        = tdata_mod_data tdata !! distributor_mod_id E
      \/ exists s, ast_threadpool_serializer_get_current E = Some s
                   /\ tps_name s <> ""
                   /\ tdata_mod_data tdata' !! distributor_mod_id E = Some (tps_name s)).
Proof.
  intros tdata'. subst tdata'.
  destruct (record_serializer_cases E tdata) as [->|(s & Hs & Hne & Hslot & ->)].
  - split; [reflexivity|]. split; [|left; reflexivity].
    exists []. rewrite app_nil_r. split; [reflexivity|simpl; lia].
  - cbn [tdata_mod_data tdata_pool]. split; [|split].
    + intros id Hid. apply lookup_insert_ne. congruence.
    + eexists. split; [reflexivity|simpl; lia].
    + right. exists s. repeat split; try assumption. apply lookup_insert_eq.
Qed.

(** X5.  The name written by [record_serializer] is what
    [find_request_serializer] later looks up: when the response's client
    transaction holds the recorded buffer as its last transmitted request,
    the result is the serializer registered under the current serializer's
    name, or NULL when no serializer of that name exists any more, and the
    transaction lock is released once. *)
Theorem recorded_serializer_is_found (E : env) (tdata : pjsip_tx_data)
    (rdata : pjsip_rx_data) (tsx : pjsip_transaction) (s : ast_taskprocessor) :
  ast_threadpool_serializer_get_current E = Some s ->
  tps_name s <> "" ->
  pjsip_tsx_layer_find_tsx E PJSIP_ROLE_UAC (msg_info_cseq_method rdata) rdata = Some tsx ->
  last_tx tsx = Some (fst (record_serializer E tdata)) ->
  find_request_serializer E rdata
  = (Ok (tps_singletons E !! tps_name s), [tsx_lock_release (tsx_obj_name tsx)]).
Proof.
  intros Hs Hne Htsx Hlast.
  assert (Hslot : tdata_mod_data (fst (record_serializer E tdata)) !! distributor_mod_id E
                  = Some (tps_name s)).
  { unfold record_serializer, ast_taskprocessor_name.
    rewrite Hs, strlen_zero_name, bool_decide_eq_false_2 by exact Hne.
    cbn [negb andb fst].
    destruct (tdata_mod_data tdata !! distributor_mod_id E) as [stored|] eqn:Hst.
    - destruct (Z.eqb_spec (strcmp stored (tps_name s)) 0) as [H0|H0]; cbn [negb].
      + apply strcmp_zero in H0. congruence.
      + apply lookup_insert_eq.
    - apply lookup_insert_eq. }
  unfold find_request_serializer, ast_taskprocessor_get. rewrite Htsx, Hlast, Hslot.
  rewrite strlen_zero_name, bool_decide_eq_false_2 by exact Hne. reflexivity.
Qed.

Lemma recorded_serializer_is_found_witness :
  find_request_serializer Cases.reply_world Scenario.ok200
  = (Ok (Some Scenario.wrk7), [tsx_lock_release "tsx0x7"]).
Proof.
  exact (recorded_serializer_is_found Cases.reply_world Scenario.blank_tdata
           Scenario.ok200 Cases.reply_tsx Scenario.wrk7
           eq_refl ltac:(discriminate) eq_refl eq_refl).
Defined.

(** ** Further properties of the dialog annotation *)

Section MoreAnnotation.

Variable E : env.

Lemma annotation_wf_some (dlg : pjsip_dialog) p :
  dlg_wf E dlg ->
  pjsip_dlg_get_mod_data dlg (distributor_mod_id E) = Some p ->
  exists d, dlg_pool dlg !! p = Some d /\ dlg_annotation E dlg = Some d.
Proof.
  intros Hwf Hp. destruct (lookup_lt_is_Some_2 (dlg_pool dlg) p (Hwf p Hp)) as [d Hd].
  exists d. split; [exact Hd|]. unfold dlg_annotation. rewrite Hp. exact Hd.
Qed.

Lemma annotation_after_set_endpoint (dlg : pjsip_dialog) ep :
  dlg_wf E dlg ->
  dlg_annotation E (ast_sip_dialog_set_endpoint E dlg ep)
  = Some {| serializer := dlg_annotation E dlg ≫= serializer; endpoint := ep |}.
Proof.
  intros Hwf.
  destruct (pjsip_dlg_get_mod_data dlg (distributor_mod_id E)) as [p|] eqn:Hp.
  - destruct (annotation_wf_some dlg p Hwf Hp) as (d & Hd & Hann).
    rewrite (set_endpoint_known E dlg ep p Hp), annotation_store by exact Hp.
    rewrite Hann. reflexivity.
  - rewrite (set_endpoint_fresh E dlg ep Hp), annotation_fresh.
    unfold dlg_annotation. rewrite Hp. reflexivity.
Qed.

Lemma annotation_after_set_serializer (dlg : pjsip_dialog) s :
  dlg_wf E dlg ->
  dlg_annotation E (ast_sip_dialog_set_serializer E dlg s)
  = Some {| serializer := s; endpoint := dlg_annotation E dlg ≫= endpoint |}.
Proof.
  intros Hwf.
  destruct (pjsip_dlg_get_mod_data dlg (distributor_mod_id E)) as [p|] eqn:Hp.
  - destruct (annotation_wf_some dlg p Hwf Hp) as (d & Hd & Hann).
    rewrite (set_serializer_known E dlg s p Hp), annotation_store by exact Hp.
    rewrite Hann. reflexivity.
  - rewrite (set_serializer_fresh E dlg s Hp), annotation_fresh.
    unfold dlg_annotation. rewrite Hp. reflexivity.
Qed.

Lemma set_endpoint_wf (dlg : pjsip_dialog) ep :
  dlg_wf E dlg -> dlg_wf E (ast_sip_dialog_set_endpoint E dlg ep).
Proof.
  intros Hwf.
  destruct (pjsip_dlg_get_mod_data dlg (distributor_mod_id E)) as [p|] eqn:Hp.
  - rewrite (set_endpoint_known E dlg ep p Hp). intros q Hq.
    unfold dist_store, pjsip_dlg_get_mod_data in *. cbn [dlg_mod_data dlg_pool] in *.
    rewrite length_alter. apply Hwf. exact Hq.
  - rewrite (set_endpoint_fresh E dlg ep Hp). intros q Hq.
    unfold pjsip_dlg_get_mod_data in Hq. cbn [dlg_mod_data dlg_pool] in *.
    rewrite lookup_insert_eq in Hq. injection Hq as <-.
    rewrite length_app. simpl. lia.
Qed.

Lemma set_serializer_wf (dlg : pjsip_dialog) s :
  dlg_wf E dlg -> dlg_wf E (ast_sip_dialog_set_serializer E dlg s).
Proof.
  intros Hwf.
  destruct (pjsip_dlg_get_mod_data dlg (distributor_mod_id E)) as [p|] eqn:Hp.
  - rewrite (set_serializer_known E dlg s p Hp). intros q Hq.
    unfold dist_store, pjsip_dlg_get_mod_data in *. cbn [dlg_mod_data dlg_pool] in *.
    rewrite length_alter. apply Hwf. exact Hq.
  - rewrite (set_serializer_fresh E dlg s Hp). intros q Hq.
    unfold pjsip_dlg_get_mod_data in Hq. cbn [dlg_mod_data dlg_pool] in *.
    rewrite lookup_insert_eq in Hq. injection Hq as <-.
    rewrite length_app. simpl. lia.
Qed.

(** [ast_sip_dialog_get_endpoint] in terms of the annotation. *)
Lemma get_endpoint_of_annotation (dlg : pjsip_dialog) :
  dlg_wf E dlg ->
  ast_sip_dialog_get_endpoint E dlg
  = match dlg_annotation E dlg ≫= endpoint with
    | Some ep => (Ok (Some ep), [ao2_ref_endpoint (Some ep) 1])
    | None => (Ok None, [])
    end.
Proof.
  intros Hwf. unfold ast_sip_dialog_get_endpoint.
  destruct (pjsip_dlg_get_mod_data dlg (distributor_mod_id E)) as [p|] eqn:Hp.
  - destruct (annotation_wf_some dlg p Hwf Hp) as (d & Hd & Hann).
    rewrite Hd, Hann. cbn. destruct (endpoint d); reflexivity.
  - unfold dlg_annotation. rewrite Hp. reflexivity.
Qed.

End MoreAnnotation.

(** X6.  On a dialog whose annotation pointer is sound, what
    [ast_sip_dialog_set_endpoint] stores is what [ast_sip_dialog_get_endpoint]
    returns, with one reference taken for the caller; after storing NULL, and
    on a dialog that was never annotated, it returns NULL and takes no
    reference; [ast_sip_dialog_set_serializer] in between does not change
    the answer. *)
Theorem dialog_endpoint_round_trip (E : env) (dlg : pjsip_dialog)
    (ep : ast_sip_endpoint) (s : option ast_taskprocessor) :
  dlg_wf E dlg ->
  ast_sip_dialog_get_endpoint E (ast_sip_dialog_set_endpoint E dlg (Some ep))
  = (Ok (Some ep), [ao2_ref_endpoint (Some ep) 1])
  /\ ast_sip_dialog_get_endpoint E (ast_sip_dialog_set_endpoint E dlg None)
     = (Ok None, [])
  /\ ast_sip_dialog_get_endpoint E
       (ast_sip_dialog_set_serializer E (ast_sip_dialog_set_endpoint E dlg (Some ep)) s)
     = (Ok (Some ep), [ao2_ref_endpoint (Some ep) 1])
  /\ (dlg_mod_data dlg !! distributor_mod_id E = None ->
      ast_sip_dialog_get_endpoint E dlg = (Ok None, [])
      /\ ast_sip_dialog_get_endpoint E (ast_sip_dialog_set_serializer E dlg s)
         = (Ok None, [])).
Proof.
  intros Hwf.
  pose proof (set_endpoint_wf E dlg (Some ep) Hwf) as Hwf1.
  pose proof (set_endpoint_wf E dlg None Hwf) as Hwf2.
  pose proof (set_serializer_wf E _ s Hwf1) as Hwf3.
  pose proof (set_serializer_wf E dlg s Hwf) as Hwf4.
  rewrite (get_endpoint_of_annotation E _ Hwf1), (get_endpoint_of_annotation E _ Hwf2),
    (get_endpoint_of_annotation E _ Hwf3).
  rewrite (annotation_after_set_serializer E _ s Hwf1).
  rewrite !annotation_after_set_endpoint by exact Hwf.
  repeat split.
  - rewrite (get_endpoint_of_annotation E _ Hwf). unfold dlg_annotation.
    unfold pjsip_dlg_get_mod_data. rewrite H. reflexivity.
  - rewrite (get_endpoint_of_annotation E _ Hwf4).
    rewrite (annotation_after_set_serializer E _ s Hwf).
    unfold dlg_annotation, pjsip_dlg_get_mod_data. rewrite H. reflexivity.
Qed.

Lemma dialog_endpoint_round_trip_witness :
  ast_sip_dialog_get_endpoint Scenario.quiet Scenario.call_dialog
  = (Ok (Some Scenario.alice), [ao2_ref_endpoint (Some Scenario.alice) 1]).
Proof.
  assert (Hwf : dlg_wf Scenario.quiet
                  (ast_sip_dialog_set_serializer Scenario.quiet Scenario.bare_dialog
                     (Some Scenario.wrk7))).
  { intros p Hp. vm_compute in Hp. injection Hp as <-. vm_compute. lia. }
  exact (proj1 (dialog_endpoint_round_trip Scenario.quiet _ Scenario.alice None Hwf)).
Defined.

(** ** Further properties of the distributor hook *)

Lemma pushes_app t1 t2 : pushes (t1 ++ t2) = pushes t1 ++ pushes t2.
Proof. apply omap_app. Qed.

Lemma releases_app t1 t2 : releases (t1 ++ t2) = releases t1 ++ releases t2.
Proof. apply omap_app. Qed.

Lemma pushes_of_outcomes t : outcomes t = [] -> pushes t = [].
Proof.
  induction t as [|e t IH]; [reflexivity|].
  destruct e; simpl; try discriminate; exact IH.
Qed.

Lemma find_dialog_releases_nothing (E : env) (rdata : pjsip_rx_data) :
  releases (trace_of (find_dialog E rdata)) = [].
Proof.
  unfold find_dialog.
  destruct (msg_info_msg rdata) as [[method|code]|]; simpl; try reflexivity.
  destruct (negb _ || negb _); simpl; [reflexivity|].
  destruct (pjsip_tsx_layer_find_tsx E PJSIP_ROLE_UAS pjsip_get_invite_method rdata)
    as [tsx|]; simpl; [|reflexivity].
  destruct (tsx_dlg tsx); reflexivity.
Qed.

Lemma affinity_releases_nothing (E : env) (rdata : pjsip_rx_data) :
  releases (trace_of (distributor_affinity E rdata)) = [].
Proof.
  pose proof (find_dialog_releases_nothing E rdata) as Hf.
  destruct (find_dialog_run E rdata) as (tf & Hfd & _).
  rewrite Hfd in Hf. cbn [trace_of snd] in Hf.
  unfold distributor_affinity. rewrite (bind_run _ _ _ _ Hfd).
  cbn [trace_of snd]. rewrite releases_app, Hf.
  destruct (found_dialog E rdata) as [dlg|]; [|reflexivity].
  destruct (pjsip_dlg_get_mod_data dlg (distributor_mod_id E)) as [p|]; [|reflexivity].
  destruct (dlg_pool dlg !! p); reflexivity.
Qed.

(** The calls of the tail of [distributor] when the clone succeeds. *)
Lemma distributor_enqueue_trace (E : env) (rdata c : pjsip_rx_data)
    (dist : option distributor_dialog_data) (tps : option ast_taskprocessor) :
  pjsip_rx_data_clone E rdata = Some c ->
  let c' := match dist with
            | Some d => rdata_set_endpoint E c (endpoint d)
            | None => c
            end in
  let rc := ast_sip_push_task E tps (Some c') in
  distributor_enqueue E rdata dist tps
  = (Ok PJ_TRUE,
     [pjsip_rx_data_clone_call]
     ++ match dist with
        | Some d => [ao2_bump_endpoint (endpoint d)]
        | None => []
        end
     ++ [ast_sip_push_task_call tps (Some c') rc]
     ++ (if rc =? 0 then []
         else [ao2_cleanup_endpoint (rdata_get_endpoint E c');
               pjsip_rx_data_free_cloned c'])
     ++ [ast_taskprocessor_unreference tps]).
Proof.
  intros Hclone c' rc. unfold distributor_enqueue. rewrite Hclone.
  subst rc c'. destruct dist as [d|]; unfold deref_local; rewrite ?bind_ret; simpl.
  - destruct (ast_sip_push_task E tps (Some (rdata_set_endpoint E c (endpoint d))) =? 0);
      reflexivity.
  - destruct (ast_sip_push_task E tps (Some c) =? 0); reflexivity.
Qed.

(** X7.  When the clone succeeds, the tail of [distributor] pushes once, with
    the clone as task data, carrying the endpoint of the dialog annotation
    when there is one, and releases the serializer once.  A push that
    succeeds leaves the clone and its endpoint reference to the queued task:
    nothing is freed and no endpoint is released.  A push that fails releases
    the endpoint of the clone and frees the clone, once each. *)
Theorem clone_ownership (E : env) (rdata c : pjsip_rx_data)
    (dist : option distributor_dialog_data) (tps : option ast_taskprocessor) :
  pjsip_rx_data_clone E rdata = Some c ->
  let c' := match dist with
            | Some d => rdata_set_endpoint E c (endpoint d)
            | None => c
            end in
  let rc := ast_sip_push_task E tps (Some c') in
  let tr := trace_of (distributor_enqueue E rdata dist tps) in
  value_of (distributor_enqueue E rdata dist tps) = Ok PJ_TRUE
  /\ pushes tr = [(tps, Some c', rc)]
  /\ releases tr = [tps]
  /\ (forall d, dist = Some d -> rdata_get_endpoint E c' = endpoint d)
  /\ List.filter is_endpoint_release tr
     = (if rc =? 0 then [] else [ao2_cleanup_endpoint (rdata_get_endpoint E c')])
  /\ List.filter is_free_cloned tr
     = (if rc =? 0 then [] else [pjsip_rx_data_free_cloned c']).
Proof.
  intros Hclone c' rc tr. subst tr.
  rewrite (distributor_enqueue_trace E rdata c dist tps Hclone).
  fold c'. fold rc. cbn [value_of trace_of fst snd].
  split; [reflexivity|].
  split; [destruct dist, (rc =? 0); reflexivity|].
  split; [destruct dist, (rc =? 0); reflexivity|].
  split; [intros d ->; apply rdata_get_set_endpoint|].
  split; destruct dist, (rc =? 0); reflexivity.
Qed.

Lemma clone_ownership_witness :
  pushes (trace_of (distributor_enqueue Scenario.quiet Scenario.ack
                      (Some {| serializer := Some Scenario.wrk7;
                               endpoint := Some Scenario.alice |})
                      (Some Scenario.wrk7)))
  = [(Some Scenario.wrk7,
      Some (rdata_set_endpoint Scenario.quiet (Scenario.strip Scenario.ack)
              (Some Scenario.alice)), 0)]
  /\ List.filter is_free_cloned
       (trace_of (distributor_enqueue Scenario.quiet Scenario.ack
                    (Some {| serializer := Some Scenario.wrk7;
                             endpoint := Some Scenario.alice |})
                    (Some Scenario.wrk7))) = [].
Proof.
  destruct (clone_ownership Scenario.quiet Scenario.ack (Scenario.strip Scenario.ack)
              (Some {| serializer := Some Scenario.wrk7; endpoint := Some Scenario.alice |})
              (Some Scenario.wrk7) eq_refl) as (_ & Hp & _ & _ & _ & Hf).
  split; [exact Hp|exact Hf].
Defined.

(** X8.  A message of a dialog whose annotation holds serializer S is pushed
    to S, with the endpoint of the annotation attached to the clone, and
    nothing is sent for it: whatever its method (a BYE or CANCEL is not
    answered 481) and whether or not the overload alert is raised. *)
Theorem dialog_affinity (E : env) (rdata c : pjsip_rx_data) (msg : pjsip_msg)
    (dlg : pjsip_dialog) (S : ast_taskprocessor) :
  fully_booted E = true ->
  msg_info_msg rdata = Some msg ->
  dlg_wf E dlg ->
  found_dialog E rdata = Some (ast_sip_dialog_set_serializer E dlg (Some S)) ->
  pjsip_rx_data_clone E rdata = Some c ->
  let c' := rdata_set_endpoint E c (dlg_annotation E dlg ≫= endpoint) in
  exists tr,
    distributor E rdata = (Ok PJ_TRUE, tr)
    /\ pushes tr = [(Some S, Some c', ast_sip_push_task E (Some S) (Some c'))]
    /\ releases tr = [Some S]
    /\ transmissions tr = [].
Proof.
  intros Hboot Hmsg Hwf Hfound Hclone c'.
  pose proof (set_serializer_wf E dlg (Some S) Hwf) as Hwf'.
  pose proof (annotation_after_set_serializer E dlg (Some S) Hwf) as Hann.
  assert (Hsound : annotation_sound E rdata = true).
  { unfold annotation_sound. rewrite Hfound.
    destruct (pjsip_dlg_get_mod_data _ (distributor_mod_id E)) as [p|] eqn:Hp;
      [|reflexivity].
    apply bool_decide_eq_true_2, Hwf', Hp. }
  destruct (distributor_affinity_run E rdata Hsound) as (t0 & Haff & Hs0 & Hw0).
  assert (Hrel0 : releases t0 = []).
  { pose proof (affinity_releases_nothing E rdata) as Hr.
    rewrite Haff in Hr. exact Hr. }
  unfold distributor. rewrite Hboot. cbn [negb].
  rewrite (bind_run _ _ _ _ Haff).
  unfold dialog_annotation, dialog_serializer. rewrite Hfound. cbn [mbind option_bind].
  rewrite Hann. cbn [mbind option_bind serializer].
  rewrite (distributor_enqueue_trace E rdata c _ (Some S) Hclone).
  cbn [endpoint]. fold c'. cbn [fst snd].
  eexists. split; [reflexivity|].
  rewrite !pushes_app, !releases_app, !transmissions_app, (pushes_of_outcomes _ Hs0),
    Hrel0, Hw0.
  destruct (ast_sip_push_task E (Some S) (Some c') =? 0); repeat split; reflexivity.
Qed.

Lemma dialog_affinity_witness :
  exists tr,
    distributor Cases.busy_call_world Cases.call_bye = (Ok PJ_TRUE, tr)
    /\ pushes tr
       = [(Some Scenario.wrk7,
           Some (rdata_set_endpoint Cases.busy_call_world
                   (Scenario.strip Cases.call_bye) (Some Scenario.alice)), 0)]
    /\ releases tr = [Some Scenario.wrk7]
    /\ transmissions tr = [].
Proof.
  assert (Hwf : dlg_wf Cases.busy_call_world
                  (ast_sip_dialog_set_endpoint Cases.busy_call_world
                     Scenario.bare_dialog (Some Scenario.alice))).
  { intros p Hp. vm_compute in Hp. injection Hp as <-. vm_compute. lia. }
  exact (dialog_affinity Cases.busy_call_world Cases.call_bye
           (Scenario.strip Cases.call_bye) (PJSIP_REQUEST_MSG pjsip_bye_method)
           (ast_sip_dialog_set_endpoint Cases.busy_call_world Scenario.bare_dialog
              (Some Scenario.alice))
           Scenario.wrk7 eq_refl eq_refl Hwf eq_refl eq_refl).
Defined.

(** X9.  On a parsed message, with a sound annotation, a full pool and a
    clone that succeeds, the hook returns "consumed" having either pushed the
    message once, or answered it once, or neither: never both, never twice.
    The only thing it ever sends is the stateless 481, and only for a BYE or
    CANCEL request without dialog serializer; a response is never answered. *)
Theorem distributor_single_outcome (E : env) (rdata : pjsip_rx_data)
    (msg : pjsip_msg) :
  msg_info_msg rdata = Some msg ->
  annotation_sound E rdata = true ->
  length (distributor_pool E) = 31%nat ->
  pjsip_rx_data_clone E rdata <> None ->
  exists tr,
    distributor E rdata = (Ok PJ_TRUE, tr)
    /\ (length (outcomes tr) <= 1)%nat
    /\ (transmissions tr = []
        \/ transmissions tr = [pjsip_endpt_respond_stateless 481]
           /\ outcomes tr = [Replied 481]
           /\ is_bye_or_cancel msg = true
           /\ dialog_serializer E rdata = None)
    /\ (is_response msg = true -> transmissions tr = []).
Proof.
  intros Hmsg Hsound Hlen Hclone.
  destruct (fully_booted E) eqn:Hboot.
  2: { rewrite (distributor_not_booted E rdata Hboot). exists [].
       split; [reflexivity|]. split; [simpl; lia|]. split; [left; reflexivity|].
       reflexivity. }
  destruct (distributor_affinity_run E rdata Hsound) as (t0 & Haff & Hs0 & Hw0).
  pose proof (fun dist tps => distributor_enqueue_run E rdata dist tps Hclone) as Henq.
  unfold distributor. rewrite Hboot. cbn [negb].
  rewrite (bind_run _ _ _ _ Haff).
  destruct (dialog_serializer E rdata) as [s|] eqn:Hds.
  { destruct (Henq (dialog_annotation E rdata) (Some s)) as (t & -> & Ho & Hw).
    eexists. split; [reflexivity|]. cbn [snd].
    rewrite outcomes_app, transmissions_app, Hs0, Hw0, Ho, Hw.
    split; [simpl; lia|]. split; [left; reflexivity|]. reflexivity. }
  rewrite Hmsg. unfold deref. rewrite bind_ret.
  destruct msg as [method|code]; cbn [is_response].
  - rewrite method_bye_or_cancel.
    destruct (is_bye_or_cancel (PJSIP_REQUEST_MSG method)) eqn:Hbc.
    { eexists. split; [reflexivity|]. cbn [snd].
      rewrite outcomes_app, transmissions_app, Hs0, Hw0.
      split; [simpl; lia|]. split; [|discriminate].
      right. repeat split; reflexivity. }
    destruct (negb (ast_taskprocessor_alert_get E =? 0)).
    { eexists. split; [reflexivity|]. cbn [snd].
      rewrite outcomes_app, transmissions_app, Hs0, Hw0.
      split; [simpl; lia|]. split; [left; reflexivity|]. discriminate. }
    destruct (get_distributor_serializer_run E rdata _ Hmsg Hlen) as (t1 & Hget & Hs1 & Hw1).
    rewrite (bind_run _ _ _ _ Hget). cbn [is_response] in *.
    destruct (Henq (dialog_annotation E rdata)
                (pool_serializer E (msg_info_cid rdata) (msg_info_from_tag rdata)))
      as (t & -> & Ho & Hw).
    eexists. split; [reflexivity|]. cbn [snd].
    rewrite !outcomes_app, !transmissions_app, Hs0, Hw0, Hs1, Hw1, Ho, Hw.
    split; [simpl; lia|]. split; [left; reflexivity|]. discriminate.
  - destruct (find_request_serializer_run E rdata) as (t1 & Hfrs & Hs1 & Hw1).
    rewrite (bind_run _ _ _ _ Hfrs).
    destruct (transaction_serializer E rdata) as [s|] eqn:Hts.
    { destruct (Henq (dialog_annotation E rdata) (Some s)) as (t & -> & Ho & Hw).
      eexists. split; [reflexivity|]. cbn [snd].
      rewrite !outcomes_app, !transmissions_app, Hs0, Hw0, Hs1, Hw1, Ho, Hw.
      split; [simpl; lia|]. split; [left; reflexivity|]. reflexivity. }
    destruct (negb (ast_taskprocessor_alert_get E =? 0)).
    { eexists. split; [reflexivity|]. cbn [snd].
      rewrite !outcomes_app, !transmissions_app, Hs0, Hw0, Hs1, Hw1.
      split; [simpl; lia|]. split; [left; reflexivity|]. reflexivity. }
    destruct (get_distributor_serializer_run E rdata _ Hmsg Hlen) as (t2 & Hget & Hs2 & Hw2).
    rewrite (bind_run _ _ _ _ Hget). cbn [is_response] in *.
    destruct (Henq (dialog_annotation E rdata)
                (pool_serializer E (msg_info_cid rdata) (msg_info_to_tag rdata)))
      as (t & -> & Ho & Hw).
    eexists. split; [reflexivity|]. cbn [snd].
    rewrite !outcomes_app, !transmissions_app, Hs0, Hw0, Hs1, Hw1, Hs2, Hw2, Ho, Hw.
    split; [simpl; lia|]. split; [left; reflexivity|]. reflexivity.
Qed.

Lemma distributor_single_outcome_witness :
  exists tr,
    distributor Scenario.quiet Scenario.bye = (Ok PJ_TRUE, tr)
    /\ (length (outcomes tr) <= 1)%nat
    /\ (transmissions tr = []
        \/ transmissions tr = [pjsip_endpt_respond_stateless 481]
           /\ outcomes tr = [Replied 481]
           /\ is_bye_or_cancel (PJSIP_REQUEST_MSG pjsip_bye_method) = true
           /\ dialog_serializer Scenario.quiet Scenario.bye = None)
    /\ (is_response (PJSIP_REQUEST_MSG pjsip_bye_method) = true -> transmissions tr = []).
Proof.
  apply (distributor_single_outcome Scenario.quiet Scenario.bye
           (PJSIP_REQUEST_MSG pjsip_bye_method));
    [reflexivity | reflexivity | reflexivity | discriminate].
Defined.

(** ** find_dialog *)

(** X10.  For a CANCEL request, [find_dialog] uses the direct dialog lookup
    (local tag = to-tag, remote tag = from-tag) when the request has a
    to-tag; without a to-tag it does not consult that lookup at all but
    takes the dialog of the INVITE server transaction: the transaction is
    unlocked once when found, the dialog is locked once when there is one,
    and an unknown transaction gives NULL and one error line. *)
Theorem find_dialog_for_cancel (E : env) (rdata : pjsip_rx_data) (method : pjsip_method) :
  msg_info_msg rdata = Some (PJSIP_REQUEST_MSG method) ->
  method_id method = PJSIP_CANCEL_METHOD ->
  find_dialog E rdata
  = match msg_info_to_tag rdata with
    | _ :: _ =>
        (Ok (pjsip_ua_find_dialog E (msg_info_cid rdata)
               (msg_info_to_tag rdata) (msg_info_from_tag rdata)), [])
    | [] =>
        match pjsip_tsx_layer_find_tsx E PJSIP_ROLE_UAS pjsip_invite_method rdata with
        | None =>
            (Ok None,
             [ast_log LOG_ERROR
                "Could not find matching INVITE transaction for CANCEL request"])
        | Some tsx =>
            (Ok (tsx_dlg tsx),
             tsx_lock_release (tsx_obj_name tsx)
             :: match tsx_dlg tsx with
                | Some dlg => [pjsip_dlg_inc_lock (dlg_obj_name dlg)]
                | None => []
                end)
        end
    end.
Proof.
  intros Hmsg Hid. unfold find_dialog. rewrite Hmsg.
  rewrite method_cmp_cancel, bool_decide_eq_true_2 by exact Hid.
  destruct (msg_info_to_tag rdata) as [|b tag]; simpl; [|reflexivity].
  unfold pjsip_get_invite_method.
  destruct (pjsip_tsx_layer_find_tsx E PJSIP_ROLE_UAS pjsip_invite_method rdata)
    as [tsx|]; simpl; [|reflexivity].
  destruct (tsx_dlg tsx); reflexivity.
Qed.

Lemma find_dialog_for_cancel_witness :
  find_dialog Cases.cancel_world Cases.early_cancel
  = (Ok (Some Scenario.call_dialog),
     [tsx_lock_release "tsx0x1"; pjsip_dlg_inc_lock "dlg0x1"]).
Proof.
  exact (find_dialog_for_cancel Cases.cancel_world Cases.early_cancel
           pjsip_cancel_method eq_refl eq_refl).
Defined.

(** ** Further properties of the endpoint identifier and the authenticator *)

Lemma rdata_set_endpoint_frame (E : env) (rdata : pjsip_rx_data) ep :
  msg_info_msg (rdata_set_endpoint E rdata ep) = msg_info_msg rdata
  /\ msg_info_cid (rdata_set_endpoint E rdata ep) = msg_info_cid rdata
  /\ msg_info_from_tag (rdata_set_endpoint E rdata ep) = msg_info_from_tag rdata
  /\ msg_info_to_tag (rdata_set_endpoint E rdata ep) = msg_info_to_tag rdata
  /\ msg_info_from_uri (rdata_set_endpoint E rdata ep) = msg_info_from_uri rdata
  /\ msg_info_cseq_method (rdata_set_endpoint E rdata ep) = msg_info_cseq_method rdata
  /\ forall id, id <> endpoint_mod_id E ->
       endpt_info_mod_data (rdata_set_endpoint E rdata ep) !! id
       = endpt_info_mod_data rdata !! id.
Proof.
  repeat split. intros id Hid. unfold rdata_set_endpoint. cbn [endpt_info_mod_data].
  destruct ep; [apply lookup_insert_ne|apply lookup_delete_ne]; congruence.
Qed.

(** X11.  On a request [endpoint_lookup] never consumes and never fails.  The
    endpoint it leaves in the slot is, in this order of preference: the one
    already attached, the one the identifier service finds, the artificial
    endpoint (not for an ACK).  Only the last case makes calls: one reference
    on the artificial endpoint, one notice, one security event.  Nothing but
    the endpoint slot of the buffer changes. *)
Theorem endpoint_lookup_resolution (E : env) (rdata : pjsip_rx_data)
    (method : pjsip_method) :
  msg_info_msg rdata = Some (PJSIP_REQUEST_MSG method) ->
  let fallback :=
    match rdata_get_endpoint E rdata, ast_sip_identify_endpoint E rdata with
    | None, None => negb (is_ack_method method)
    | _, _ => false
    end in
  let chosen :=
    match rdata_get_endpoint E rdata with
    | Some e => Some e
    | None =>
        match ast_sip_identify_endpoint E rdata with
        | Some e => Some e
        | None => if is_ack_method method then None else artificial_endpoint E
        end
    end in
  exists rdata' tr,
    endpoint_lookup E rdata = (Ok (PJ_FALSE, rdata'), tr)
    /\ rdata_get_endpoint E rdata' = chosen
    /\ (rdata' = rdata \/ rdata' = rdata_set_endpoint E rdata chosen)
    /\ (forall id, id <> endpoint_mod_id E ->
          endpt_info_mod_data rdata' !! id = endpt_info_mod_data rdata !! id)
    /\ (if fallback
        then exists name,
               tr = [ao2_ref_endpoint (artificial_endpoint E) 1;
                     ast_log LOG_NOTICE "No matching endpoint found";
                     ast_sip_report_invalid_endpoint name]
        else tr = []).
Proof.
  intros Hmsg fallback chosen. subst fallback chosen.
  unfold endpoint_lookup. rewrite Hmsg. simpl.
  destruct (rdata_get_endpoint E rdata) as [e|] eqn:Hslot.
  - exists rdata, []. repeat split; try assumption. left. reflexivity.
  - destruct (ast_sip_identify_endpoint E rdata) as [e|] eqn:Hident; simpl.
    + eexists _, _. split; [reflexivity|].
      split; [apply rdata_get_set_endpoint|]. split; [right; reflexivity|].
      split; [apply rdata_set_endpoint_frame|reflexivity].
    + destruct (is_ack_method method); simpl.
      * eexists _, _. split; [reflexivity|].
        split; [apply rdata_get_set_endpoint|]. split; [right; reflexivity|].
        split; [apply rdata_set_endpoint_frame|reflexivity].
      * eexists _, _. split; [reflexivity|].
        split; [apply rdata_get_set_endpoint|]. split; [right; reflexivity|].
        split; [apply rdata_set_endpoint_frame|]. eexists. reflexivity.
Qed.

Lemma endpoint_lookup_resolution_witness :
  exists rdata' tr,
    endpoint_lookup Scenario.quiet Scenario.invite = (Ok (PJ_FALSE, rdata'), tr)
    /\ rdata_get_endpoint Scenario.quiet rdata' = Some Scenario.artificial
    /\ (rdata' = Scenario.invite
        \/ rdata' = rdata_set_endpoint Scenario.quiet Scenario.invite
                      (Some Scenario.artificial))
    /\ (forall id, id <> endpoint_mod_id Scenario.quiet ->
          endpt_info_mod_data rdata' !! id = endpt_info_mod_data Scenario.invite !! id)
    /\ (exists name,
          tr = [ao2_ref_endpoint (artificial_endpoint Scenario.quiet) 1;
                ast_log LOG_NOTICE "No matching endpoint found";
                ast_sip_report_invalid_endpoint name]).
Proof.
  exact (endpoint_lookup_resolution Scenario.quiet Scenario.invite
           pjsip_invite_method eq_refl).
Defined.

(** X12.  [endpoint_lookup] is idempotent once an endpoint is attached: run
    again on the buffer it left, it makes no call (no second reference, log
    line or security event) and leaves the buffer as it is. *)
Theorem endpoint_lookup_idempotent (E : env) (rdata rdata' : pjsip_rx_data)
    (b : pj_bool_t) (tr : list event) :
  endpoint_lookup E rdata = (Ok (b, rdata'), tr) ->
  rdata_get_endpoint E rdata' <> None ->
  endpoint_lookup E rdata' = (Ok (PJ_FALSE, rdata'), []).
Proof.
  intros Hrun Hslot.
  assert (Hmsg : msg_info_msg rdata' = msg_info_msg rdata
                 /\ exists method, msg_info_msg rdata = Some (PJSIP_REQUEST_MSG method)).
  { unfold endpoint_lookup in Hrun.
    destruct (msg_info_msg rdata) as [[method|code]|] eqn:Hm; simpl in Hrun;
      try discriminate.
    split; [|exists method; reflexivity].
    destruct (rdata_get_endpoint E rdata) as [e|].
    - injection Hrun as _ <- _. exact Hm.
    - destruct (ast_sip_identify_endpoint E rdata) as [e|]; simpl in Hrun.
      + injection Hrun as _ <- _. exact Hm.
      + destruct (is_ack_method method); simpl in Hrun;
          injection Hrun as _ <- _; exact Hm. }
  destruct Hmsg as (Hsame & method & Hm).
  unfold endpoint_lookup. rewrite Hsame, Hm. simpl.
  destruct (rdata_get_endpoint E rdata') as [e|]; [reflexivity|congruence].
Qed.

Lemma endpoint_lookup_idempotent_witness :
  endpoint_lookup Scenario.quiet
    (rdata_set_endpoint Scenario.quiet Scenario.invite (Some Scenario.artificial))
  = (Ok (PJ_FALSE,
         rdata_set_endpoint Scenario.quiet Scenario.invite (Some Scenario.artificial)),
     []).
Proof.
  apply (endpoint_lookup_idempotent Scenario.quiet Scenario.invite _ PJ_FALSE
           [ao2_ref_endpoint (Some Scenario.artificial) 1;
            ast_log LOG_NOTICE "No matching endpoint found";
            ast_sip_report_invalid_endpoint "mallory"]);
    [reflexivity|discriminate].
Defined.

(** X13.  On a request [authenticate] always returns.  It consumes exactly
    when it has put something on the wire; it builds at most one response
    and disposes of each response it builds exactly once (sends it or drops
    its reference); and it releases the endpoint reference it took: one
    [ao2_cleanup] on the endpoint of the slot, after at most one reference
    taken, none when the slot is NULL. *)
Theorem authenticate_balanced (E : env) (rdata : pjsip_rx_data) (method : pjsip_method) :
  msg_info_msg rdata = Some (PJSIP_REQUEST_MSG method) ->
  let tr := trace_of (authenticate E rdata) in
  let slot := rdata_get_endpoint E rdata in
  (exists b, value_of (authenticate E rdata) = Ok b
             /\ (b = PJ_TRUE <-> transmissions tr <> []))
  /\ (length (List.filter is_built tr) <= 1)%nat
  /\ length (List.filter is_disposal tr) = length (List.filter is_built tr)
  /\ List.filter is_endpoint_release tr = [ao2_cleanup_endpoint slot]
  /\ List.filter is_endpoint_ref tr
     = match slot with
       | Some _ => [ao2_ref_endpoint slot 1]
       | None => []
       end.
Proof.
  intros Hmsg tr slot. subst tr slot.
  unfold authenticate, ast_pjsip_rdata_get_endpoint. rewrite Hmsg.
  destruct (rdata_get_endpoint E rdata) as [e|]; simpl;
    destruct (is_ack_method method); simpl;
    try (repeat split; try (eexists; split; [reflexivity|]);
         try (split; [discriminate|intros H; exfalso; apply H; reflexivity]);
         simpl; try lia; reflexivity);
    destruct (ast_sip_requires_authentication E _ rdata =? 0); simpl;
    try (repeat split; try (eexists; split; [reflexivity|]);
         try (split; [discriminate|intros H; exfalso; apply H; reflexivity]);
         simpl; try lia; reflexivity);
    destruct (ast_sip_check_authentication E _ rdata _); simpl;
    repeat split; try (eexists; split; [reflexivity|]);
    try (split; [discriminate|intros H; exfalso; apply H; reflexivity]);
    try (split; [intros _; discriminate|reflexivity]);
    simpl; try lia; reflexivity.
Qed.

Lemma authenticate_balanced_witness :
  List.filter is_endpoint_release
    (trace_of (authenticate Scenario.quiet
                 (Scenario.rdata_of (PJSIP_REQUEST_MSG pjsip_invite_method)
                    "a@x" "f1" "" (Some Scenario.artificial))))
  = [ao2_cleanup_endpoint (Some Scenario.artificial)].
Proof.
  exact (proj1 (proj2 (proj2 (proj2
           (authenticate_balanced Scenario.quiet
              (Scenario.rdata_of (PJSIP_REQUEST_MSG pjsip_invite_method)
                 "a@x" "f1" "" (Some Scenario.artificial))
              pjsip_invite_method eq_refl))))).
Defined.

(** ** The modules in the pipeline *)

(** X14.  A request other than ACK that arrives without endpoint and that
    the identifier service cannot identify never reaches the modules behind
    the authenticator unless the verdict is SUCCESS: provided the artificial
    endpoint exists and requires authentication, the pipeline stops in the
    authenticator with the request consumed, the artificial endpoint
    attached, one response built and exactly one message on the wire,
    whatever modules follow. *)
Theorem unidentified_request_is_stopped (E : env) (rdata : pjsip_rx_data)
    (method : pjsip_method) (a : ast_sip_endpoint) :
  msg_info_msg rdata = Some (PJSIP_REQUEST_MSG method) ->
  is_ack_method method = false ->
  rdata_get_endpoint E rdata = None ->
  ast_sip_identify_endpoint E rdata = None ->
  artificial_endpoint E = Some a ->
  let rdata' := rdata_set_endpoint E rdata (Some a) in
  ast_sip_requires_authentication E (Some a) rdata' <> 0 ->
  ast_sip_check_authentication E (Some a) rdata' (created_response E rdata' 401)
    <> AST_SIP_AUTHENTICATION_SUCCESS ->
  exists tr,
    (forall rest,
       run_modules true (endpoint_mod E :: auth_mod E :: rest) rdata
       = (Ok (PJ_TRUE, rdata'), tr))
    /\ List.filter is_built tr = [pjsip_endpt_create_response 401]
    /\ length (transmissions tr) = 1%nat.
Proof.
  intros Hmsg Hack Hslot Hident Hart rdata' Hreq Hverdict.
  assert (Hlookup : endpoint_lookup E rdata
                    = (Ok (PJ_FALSE, rdata'),
                       [ao2_ref_endpoint (Some a) 1;
                        ast_log LOG_NOTICE "No matching endpoint found";
                        ast_sip_report_invalid_endpoint
                          match uri_scheme (msg_info_from_uri rdata) with
                          | SCHEME_SIP | SCHEME_SIPS =>
                              ast_copy_pj_str (uri_user (msg_info_from_uri rdata))
                                (uuid_str_len E)
                          | SCHEME_OTHER => ""
                          end])).
  { unfold endpoint_lookup, ast_sip_get_artificial_endpoint, log_unidentified_request.
    rewrite Hmsg. simpl. rewrite Hslot, Hident, Hack. simpl. rewrite Hart.
    reflexivity. }
  assert (Hget : rdata_get_endpoint E rdata' = Some a)
    by apply rdata_get_set_endpoint.
  apply Z.eqb_neq in Hreq.
  assert (Hauth : exists t,
            authenticate E rdata' = (Ok PJ_TRUE, t)
            /\ List.filter is_built t = [pjsip_endpt_create_response 401]
            /\ length (transmissions t) = 1%nat).
  { unfold authenticate, ast_pjsip_rdata_get_endpoint. rewrite Hget. simpl.
    change (msg_info_msg rdata') with (msg_info_msg rdata). rewrite Hmsg. simpl.
    rewrite Hack, Hreq. simpl.
    destruct (ast_sip_check_authentication E (Some a) rdata' (created_response E rdata' 401));
      try contradiction; simpl; eexists; repeat split; reflexivity. }
  destruct Hauth as (t & Hauth & Hb & Hw).
  match type of Hlookup with _ = (_, ?L) => exists (L ++ t) end.
  split; [|split].
  - intros rest. cbn [run_modules endpoint_mod auth_mod on_rx_request].
    rewrite (bind_run _ _ _ _ Hlookup). cbn [fst snd].
    unfold no_change. rewrite (bind_run _ _ _ _ Hauth).
    unfold PJ_FALSE, PJ_TRUE. cbn [fst snd ret bind].
    rewrite !app_nil_r. reflexivity.
  - rewrite List.filter_app, Hb. reflexivity.
  - unfold transmissions in *. rewrite List.filter_app, length_app, Hw. reflexivity.
Qed.

Lemma unidentified_request_is_stopped_witness :
  exists tr,
    (forall rest,
       run_modules true
         (endpoint_mod Scenario.quiet :: auth_mod Scenario.quiet :: rest) Scenario.invite
       = (Ok (PJ_TRUE,
              rdata_set_endpoint Scenario.quiet Scenario.invite (Some Scenario.artificial)),
          tr))
    /\ List.filter is_built tr = [pjsip_endpt_create_response 401]
    /\ length (transmissions tr) = 1%nat.
Proof.
  apply (unidentified_request_is_stopped Scenario.quiet Scenario.invite
           pjsip_invite_method Scenario.artificial);
    try reflexivity; discriminate.
Defined.

(** The endpoint identifier and the authenticator have no response
    callback: a response passes both untouched, without a call, and is left
    to the modules behind them. *)
Lemma responses_bypass_identification (E : env) (rdata : pjsip_rx_data)
    (rest : list pjsip_module) :
  run_modules false (endpoint_mod E :: auth_mod E :: rest) rdata
  = run_modules false rest rdata.
Proof.
  cbn [run_modules endpoint_mod auth_mod on_rx_response].
  rewrite !bind_ret. reflexivity.
Qed.

(** ** The pool between start-up and the hash fallback *)

(** X15.  The pool that [ast_sip_initialize_distributor] leaves behind is
    the pool [ast_sip_get_distributor_serializer] reads.  After a start-up
    that returned 0 the fallback never gives NULL: for every parsed message
    it returns, with one reference taken, the serializer that the set-up
    loop created for the bucket of the message.  After a start-up that
    failed every slot is NULL again, and the fallback gives NULL. *)
Theorem fallback_after_start (C : Lifecycle.services) (E : env)
    (rdata : pjsip_rx_data) (msg : pjsip_msg) :
  let r := Lifecycle.ast_sip_initialize_distributor C Lifecycle.loaded in
  distributor_pool E = Lifecycle.distributor_pool (snd (fst r)) ->
  msg_info_msg rdata = Some msg ->
  let tag := if is_response msg then msg_info_to_tag rdata
             else msg_info_from_tag rdata in
  let idx := Z.to_nat (distributor_bucket (plain_char_signed E)
                         (msg_info_cid rdata) tag) in
  (fst (fst r) = 0 ->
     exists tps,
       Lifecycle.made C idx = Some tps
       /\ ast_sip_get_distributor_serializer E rdata
          = (Ok (Some tps), [ao2_bump_serializer (Some tps)]))
  /\ (fst (fst r) <> 0 ->
       ast_sip_get_distributor_serializer E rdata
       = (Ok None, [ao2_bump_serializer None])).
Proof.
  intros r Hpool Hmsg tag idx.
  assert (Hidx : (idx < 31)%nat).
  { subst idx.
    pose proof (distributor_bucket_range (plain_char_signed E)
                  (msg_info_cid rdata) tag). lia. }
  assert (Hrun : ast_sip_get_distributor_serializer E rdata
                 = match distributor_pool E !! idx with
                   | Some slot => (Ok slot, [ao2_bump_serializer slot])
                   | None => (Fault IndexOutOfBounds, [])
                   end).
  { unfold ast_sip_get_distributor_serializer. rewrite Hmsg.
    subst idx tag. destruct msg; cbn [is_response];
      match goal with |- context [distributor_pool E !! ?i] =>
        destruct (distributor_pool E !! i) end; reflexivity. }
  rewrite Hrun, Hpool. subst r.
  destruct (LifecycleFacts.init_outcome C)
    as [(Hall & t & -> & _)|(Hnot & g' & t & -> & Hnull & _)]; cbn [fst snd].
  - split; [intros _|intros H; contradiction H; reflexivity].
    destruct Hall as (Hmade & _).
    destruct (Lifecycle.made C idx) as [tps|] eqn:Hm;
      [|exfalso; exact (Hmade idx Hidx Hm)].
    exists tps. split; [reflexivity|].
    unfold Lifecycle.started. cbn [Lifecycle.distributor_pool].
    change (map (Lifecycle.made C) (seq 0 31)) with (Lifecycle.made C <$> seq 0 31).
    rewrite list_lookup_fmap, lookup_seq_lt by exact Hidx. cbn. rewrite Hm.
    reflexivity.
  - split; [discriminate|intros _].
    rewrite Hnull, lookup_replicate_2 by exact Hidx. reflexivity.
Qed.

Lemma fallback_after_start_witness :
  exists tps,
    Lifecycle.made Lifecycle.healthy
      (Z.to_nat (distributor_bucket true (bytes_of "a@x") (bytes_of "f1"))) = Some tps
    /\ ast_sip_get_distributor_serializer Cases.started_world Scenario.invite
       = (Ok (Some tps), [ao2_bump_serializer (Some tps)]).
Proof.
  apply (proj1 (fallback_after_start Lifecycle.healthy Cases.started_world
                  Scenario.invite (PJSIP_REQUEST_MSG pjsip_invite_method)
                  eq_refl eq_refl)).
  vm_compute. reflexivity.
Defined.

(** ** A request through the whole task *)

Lemma authenticate_run (E : env) (rdata : pjsip_rx_data) (method : pjsip_method) :
  msg_info_msg rdata = Some (PJSIP_REQUEST_MSG method) ->
  exists b t,
    authenticate E rdata = (Ok b, t)
    /\ length (transmissions t) = (if b then 1 else 0)%nat
    /\ (is_ack_method method = true -> b = PJ_FALSE)
    /\ List.filter is_endpoint_release t
       = [ao2_cleanup_endpoint (rdata_get_endpoint E rdata)]
    /\ List.filter is_free_cloned t = [].
Proof.
  intros Hmsg. unfold authenticate, ast_pjsip_rdata_get_endpoint. rewrite Hmsg.
  destruct (rdata_get_endpoint E rdata) as [e|]; simpl;
    destruct (is_ack_method method); simpl;
    try (eexists _, _; split; [reflexivity|]; repeat split; reflexivity);
    destruct (ast_sip_requires_authentication E _ rdata =? 0); simpl;
    try (eexists _, _; split; [reflexivity|]; repeat split;
         try discriminate; reflexivity);
    destruct (ast_sip_check_authentication E _ rdata _); simpl;
    eexists _, _; (split; [reflexivity|]); repeat split;
    try discriminate; reflexivity.
Qed.

Lemma endpoint_lookup_run (E : env) (rdata : pjsip_rx_data) (method : pjsip_method) :
  msg_info_msg rdata = Some (PJSIP_REQUEST_MSG method) ->
  exists rdata' t,
    endpoint_lookup E rdata = (Ok (PJ_FALSE, rdata'), t)
    /\ msg_info_msg rdata' = Some (PJSIP_REQUEST_MSG method)
    /\ rdata_get_endpoint E rdata'
       = match rdata_get_endpoint E rdata with
         | Some e => Some e
         | None =>
             match ast_sip_identify_endpoint E rdata with
             | Some e => Some e
             | None => if is_ack_method method then None else artificial_endpoint E
             end
         end
    /\ transmissions t = []
    /\ List.filter is_endpoint_release t = []
    /\ List.filter is_free_cloned t = [].
Proof.
  intros Hmsg. unfold endpoint_lookup. rewrite Hmsg. simpl.
  destruct (rdata_get_endpoint E rdata) as [e|] eqn:Hslot.
  - exists rdata, []. repeat split; assumption.
  - destruct (ast_sip_identify_endpoint E rdata) as [e|]; simpl.
    + eexists _, _. split; [reflexivity|]. split; [exact Hmsg|].
      split; [apply rdata_get_set_endpoint|]. repeat split; reflexivity.
    + destruct (is_ack_method method); simpl;
        (eexists _, _; split; [reflexivity|]; split; [exact Hmsg|];
         split; [apply rdata_get_set_endpoint|]; repeat split; reflexivity).
Qed.

(** X22.  With the identifier and the authenticator the only modules behind
    the distributor, the task [distribute] answers each request other than
    ACK with exactly one message (the authenticator's reply, or the 501 for a
    request nobody handled) and an ACK with none.  It returns 0, releases
    the endpoint that [endpoint_lookup] resolved twice (the authenticator's
    own reference, then the reference held by the buffer), and frees the
    clone once. *)
Theorem request_answered_once (E : env) (pre : list pjsip_module)
    (rdata : pjsip_rx_data) (method : pjsip_method) :
  msg_info_msg rdata = Some (PJSIP_REQUEST_MSG method) ->
  find_node (mod_name (distributor_mod E)) pre = None ->
  let chosen :=
    match rdata_get_endpoint E rdata with
    | Some e => Some e
    | None =>
        match ast_sip_identify_endpoint E rdata with
        | Some e => Some e
        | None => if is_ack_method method then None else artificial_endpoint E
        end
    end in
  exists tr,
    distribute E (pre ++ [distributor_mod E; endpoint_mod E; auth_mod E]) rdata
    = (Ok 0, tr)
    /\ length (transmissions tr) = (if is_ack_method method then 0 else 1)%nat
    /\ List.filter is_endpoint_release tr
       = [ao2_cleanup_endpoint chosen; ao2_cleanup_endpoint chosen]
    /\ length (List.filter is_free_cloned tr) = 1%nat.
Proof.
  intros Hmsg Hpre chosen.
  destruct (endpoint_lookup_run E rdata method Hmsg)
    as (rdata1 & t1 & Hlookup & Hmsg1 & Hslot1 & Hw1 & Hr1 & Hf1).
  fold chosen in Hslot1.
  destruct (authenticate_run E rdata1 method Hmsg1)
    as (b & t2 & Hauth & Hw2 & Hack & Hr2 & Hf2).
  rewrite Hslot1 in Hr2.
  assert (Hrun : run_modules true [endpoint_mod E; auth_mod E] rdata
                 = (Ok (b, rdata1), t1 ++ t2)).
  { cbn [run_modules endpoint_mod auth_mod on_rx_request].
    rewrite (bind_run _ _ _ _ Hlookup). cbn [fst snd].
    unfold no_change. rewrite (bind_run _ _ _ _ Hauth).
    unfold PJ_FALSE, PJ_TRUE. cbn [fst snd ret bind].
    destruct b; cbn [fst snd ret bind]; rewrite ?app_nil_r; reflexivity. }
  unfold distribute. rewrite Hmsg. unfold deref. rewrite bind_ret.
  unfold distribute_param.
  rewrite (process_after_start _ pre (distributor_mod E)
             [endpoint_mod E; auth_mod E] rdata (PJSIP_REQUEST_MSG method)
             Hmsg Hpre eq_refl eq_refl).
  cbn [is_response negb]. rewrite Hrun.
  unfold transmissions in *.
  destruct b; destruct (is_ack_method method) eqn:Hm;
    try (specialize (Hack eq_refl); discriminate Hack);
    simpl; rewrite ?app_nil_r; eexists; (split; [reflexivity|]);
    rewrite !List.filter_app, ?length_app, ?Hw1, ?Hw2, ?Hr1, ?Hr2, ?Hf1, ?Hf2,
      Hslot1;
    repeat split; reflexivity.
Qed.

Lemma request_answered_once_witness :
  exists tr,
    distribute Scenario.quiet
      ([] ++ [distributor_mod Scenario.quiet; endpoint_mod Scenario.quiet;
              auth_mod Scenario.quiet]) Scenario.invite
    = (Ok 0, tr)
    /\ length (transmissions tr) = 1%nat
    /\ List.filter is_endpoint_release tr
       = [ao2_cleanup_endpoint (Some Scenario.artificial);
          ao2_cleanup_endpoint (Some Scenario.artificial)]
    /\ length (List.filter is_free_cloned tr) = 1%nat.
Proof.
  exact (request_answered_once Scenario.quiet [] Scenario.invite
           pjsip_invite_method eq_refl eq_refl).
Defined.
